(** * WholeSlideImageSampler: the [Sampler] class of [sampler.py]

    A shallow embedding of the patch sampling engine and the properties
    its specification states about it.

    Conventions of the embedding.
    - Python integers are [Z]; list positions and pyramid levels, which the
      code only ever obtains from [enumerate], [list.index] and level lookups,
      are [nat]; 8-bit label values are [N].
    - Python floats (magnifications, downsample factors, the 0.9 threshold)
      are exact rationals [Q].  Every finite double is a rational, but the
      interpreter rounds each product and quotient to the nearest double
      and the model does not.  The two agree wherever the products and
      quotients involved are exactly representable: integer values below
      2^53 scaled by power-of-two or integral downsample factors, pixel
      counts of patches whose side is below 2^24.  Elsewhere a value
      computed in doubles can come out one off the model's: one below
      when a quotient that is an integer in the rationals rounds to just
      under it before [int] truncates, one above when a product just
      under an integer rounds up to it.  Statements about the value of a
      conversion or of a scaled coordinate therefore carry the hypotheses
      that make the arithmetic exact; statements about which exception is
      raised, about order, signs and counts do not depend on the rounding.
    - A name the module reads but never binds ([self.background], the
      global [down]) is an [option] that the program leaves at [None];
      reading it raises [AttributeError], respectively [NameError].
    - A raised exception is the [Raise] case of [result]; attribute updates
      are explicit state passing on the records [Sampler] and [Session].
    - [print], [os.makedirs], [np.save] and [to_pickle] write to the outside
      world only; the model keeps the value they are given and drops the
      write. *)

From Stdlib Require Import String ZArith QArith Qabs Qround Lqa List Lia Bool.
From Stdlib Require Import Permutation Sorted.
Import ListNotations.

Local Open Scope Z_scope.

(** ** Exceptions and the result monad *)

Inductive exn : Type :=
| AssertionError
| AttributeError
| IndexError
| NameError
| TypeError
| ValueError
| ZeroDivisionError
| Exception_ (msg : string).

Inductive result (A : Type) : Type :=
| Ok (a : A)
| Raise (e : exn).

Arguments Ok {A} a.
Arguments Raise {A} e.

Definition bind {A B : Type} (r : result A) (k : A -> result B) : result B :=
  match r with
  | Ok a => k a
  | Raise e => Raise e
  end.

Notation "x <- r ;; k" := (bind r (fun x => k))
  (at level 61, r at next level, right associativity).
Notation "' p <- r ;; k" := (bind r (fun x => match x with p => k end))
  (at level 61, p pattern, r at next level, right associativity).

Definition raises {A : Type} (r : result A) : Prop :=
  match r with Ok _ => False | Raise _ => True end.

(** ** Python and numpy primitives *)

(** [int(x)] on a float: truncation toward zero. *)
Definition py_int (q : Q) : Z := Z.quot (Qnum q) (Zpos (Qden q)).

(** [l[i]] for a non-negative position. *)
Definition getitem {A : Type} (l : list A) (i : nat) : result A :=
  match nth_error l i with
  | Some a => Ok a
  | None => Raise IndexError
  end.

(** ** The OpenSlide collaborator *)

Definition Raster (A : Type) := list (list A).
Definition RGB := (N * N * N)%type.

Record OpenSlide : Type := {
  level_dimensions : list (Z * Z);
  level_downsamples : list Q;
  objective_power : option Q;
  (* [read_region(loc, level, size).convert('RGB')] *)
  read_region_RGB : Z * Z -> nat -> Z * Z -> Raster RGB;
  (* [np.asarray(read_region(loc, level, size).convert('L'))] *)
  read_region_L : Z * Z -> nat -> Z * Z -> Raster N
}.

(** ** [Sampler.level_converter] *)

(** [a / b] on floats: [ZeroDivisionError] on a zero divisor, else the
    quotient, which the model keeps exact where the interpreter rounds it
    to the nearest double. *)
Definition true_div (a b : Q) : result Q :=
  if Qeq_bool b 0 then Raise ZeroDivisionError else Ok (a / b)%Q.

(** [int(x * d[lvl_in] / d[lvl_out])], product and quotient exact. *)
Definition level_converter (wsi : OpenSlide) (x : Z) (lvl_in lvl_out : nat)
  : result Z :=
  d_in <- getitem (level_downsamples wsi) lvl_in ;;
  d_out <- getitem (level_downsamples wsi) lvl_out ;;
  q <- true_div (inject_Z x * d_in) d_out ;;
  Ok (py_int q).

(** Converting from level [A] to level [B] and back. *)
Definition round_trip (wsi : OpenSlide) (v : Z) (A B : nat) : result Z :=
  y <- level_converter wsi v A B ;;
  level_converter wsi y B A.

(** A downsample factor that is a power of two, [2^a] with [a <= 64].
    The product and the quotient of an integer below [2^53] in absolute
    value with such factors are representable in binary64, so that on
    them the interpreter's double arithmetic computes the very rational
    the model computes. *)
Definition power_of_two (d : Q) : Prop :=
  exists a : nat, (a <= 64)%nat /\ (d == inject_Z (2 ^ Z.of_nat a))%Q.


(** ** More Python and numpy primitives *)

(** The first position whose entry satisfies [p]; [ValueError] when none. *)
Fixpoint find_index {A : Type} (p : A -> bool) (l : list A) : result nat :=
  match l with
  | [] => Raise ValueError
  | y :: l' =>
      if p y then Ok 0%nat
      else n <- find_index p l' ;; Ok (S n)
  end.

(** [l.index(x)]. *)
Definition list_index {A : Type} (eqb : A -> A -> bool) (x : A) (l : list A)
  : result nat := find_index (fun y => eqb y x) l.

(** [x in l]. *)
Definition list_mem {A : Type} (eqb : A -> A -> bool) (x : A) (l : list A)
  : bool := existsb (fun y => eqb y x) l.

(** [assert b]. *)
Definition py_assert (b : bool) : result unit :=
  if b then Ok tt else Raise AssertionError.

(** Reading an attribute that may never have been assigned. *)
Definition getattr {A : Type} (a : option A) : result A :=
  match a with
  | Some v => Ok v
  | None => Raise AttributeError
  end.

(** Reading a module global that may not be defined. *)
Definition getglobal {A : Type} (a : option A) : result A :=
  match a with
  | Some v => Ok v
  | None => Raise NameError
  end.

Fixpoint map_result {A B : Type} (f : A -> result B) (l : list A)
  : result (list B) :=
  match l with
  | [] => Ok []
  | a :: l' => b <- f a ;; bs <- map_result f l' ;; Ok (b :: bs)
  end.

(** Clamping of a slice bound against a sequence of length [n], as Python
    does it for [l[a:b]] (a negative bound counts from the end). *)
Definition slice_bound (n : nat) (a : Z) : nat :=
  Z.to_nat (if a <? 0 then Z.max (a + Z.of_nat n) 0
            else Z.min a (Z.of_nat n)).

(** [l[a:b]]. *)
Definition py_slice {A : Type} (a b : Z) (l : list A) : list A :=
  let lo := slice_bound (length l) a in
  let hi := slice_bound (length l) b in
  firstn (hi - lo) (skipn lo l).

(** [m[i:i+p, j:j+p]] on a two-dimensional array. *)
Definition slice2 {A : Type} (m : Raster A) (i j p : Z) : Raster A :=
  map (py_slice j (j + p)) (py_slice i (i + p) m).

(** [np.sum(m.astype(int))] on a boolean array: the number of [true]s. *)
Definition count_true (l : list bool) : Z :=
  Z.of_nat (length (filter (fun b => b) l)).

Definition np_sum (m : Raster bool) : Z := count_true (concat m).

(** Positions of the entries of a row that satisfy [p], from column [c]. *)
Fixpoint row_positions {A : Type} (p : A -> bool) (row : list A) (r c : nat)
  : list (nat * nat) :=
  match row with
  | [] => []
  | a :: row' =>
      if p a then (r, c) :: row_positions p row' r (S c)
      else row_positions p row' r (S c)
  end.

Fixpoint positions_from {A : Type} (p : A -> bool) (m : Raster A) (r : nat)
  : list (nat * nat) :=
  match m with
  | [] => []
  | row :: m' => row_positions p row r 0 ++ positions_from p m' (S r)
  end.

(** [np.nonzero(mask)] where [mask] is [m] tested by [p]: the (row, column)
    pairs of the selected pixels in row-major order.  numpy returns the pair
    of index arrays; the code only reads them in parallel. *)
Definition np_nonzero {A : Type} (p : A -> bool) (m : Raster A)
  : list (nat * nat) := positions_from p m 0.

Fixpoint insert_unique (x : N) (l : list N) : list N :=
  match l with
  | [] => [x]
  | y :: l' =>
      match N.compare x y with
      | Lt => x :: l
      | Eq => l
      | Gt => y :: insert_unique x l'
      end
  end.

(** [sorted(list(np.unique(a)))]: the distinct values of [a], ascending.
    [np.unique] already returns them in that order. *)
Definition np_unique (a : Raster N) : list N :=
  fold_right insert_unique [] (concat a).

(** [n / d > 0.9] for an integer count [n] and a squared side [d >= 0].
    numpy gives [nan] for 0/0 and [inf] for n/0 with n > 0, which compare
    with 0.9 as the cross-multiplied inequality does. *)
Definition frac_gt_09 (n d : Z) : bool := 9 * d <? 10 * n.

(** The seed coordinates
    [[(int(nz[0][i] * factor), int(nz[1][i] * factor)) for i in range(N)]],
    the products exact. *)
Definition scale_coordinates (nonzero : list (nat * nat)) (factor : Q)
  : list (Z * Z) :=
  map (fun rc : nat * nat =>
         (py_int (inject_Z (Z.of_nat (fst rc)) * factor),
          py_int (inject_Z (Z.of_nat (snd rc)) * factor))) nonzero.

(** ** Collaborators outside [sampler.py] *)

Inductive dtype : Type := np_bool | np_uint8 | np_int64 | np_float64.

Definition dtype_eqb (a b : dtype) : bool :=
  match a, b with
  | np_bool, np_bool | np_uint8, np_uint8
  | np_int64, np_int64 | np_float64, np_float64 => true
  | _, _ => false
  end.

(** A numpy array as [np.load] or the mask generator hands it over: its
    element type, its shape tuple, and its entries read as booleans. *)
Record ndarray : Type := {
  array_dtype : dtype;
  array_shape : list Z;
  array_bools : Raster bool
}.

(** The state of Python's global random generator, as a number. *)
Definition RandomState := Z.

(** What the module reaches outside itself: the file system, OpenSlide,
    [modules.tissue_mask_generation], [modules.utils] and [random].
    [down] is the global that [_get_classes_and_seeds] passes to
    [ut.get_level]: [sampler.py] neither defines nor imports it, so it is
    [None] unless code outside the module has bound it there. *)
Record World : Type := {
  (* [os.path.splitext(os.path.basename(p))[0]] *)
  path_stem : string -> string;
  (* [openslide.OpenSlide(p)] *)
  OpenSlide_open : string -> result OpenSlide;
  (* [ut.string_in_directory(s, dir)] *)
  string_in_directory : string -> string -> bool * string;
  np_load : string -> ndarray;
  (* [tmg.generate_tissue_mask(wsi, level)] *)
  generate_tissue_mask : OpenSlide -> nat -> ndarray;
  (* [ut.get_level(slide, desired_downsampling, threshold)] *)
  ut_get_level : OpenSlide -> Q -> Q -> nat;
  down : option Q;
  (* [random.shuffle(l)]: the shuffled list and the next generator state *)
  shuffle : RandomState -> list (Z * Z) -> list (Z * Z) * RandomState
}.

(** [random.shuffle] rearranges its argument. *)
Definition shuffle_permutes (W : World) : Prop :=
  forall g l, Permutation (fst (shuffle W g l)) l.

(** Modelled from the spec: [modules.utils.val_in_list] is called by
    [get_level] but is not part of [sampler.py].  The spec's level resolver
    "selects the pyramid level whose magnification is within [tolerance]
    absolute units of [target_magnification], among all computed
    magnifications; if no candidate qualifies, reports failure".  The first
    such position is taken. *)
Fixpoint val_in_list (val : Q) (l : list Q) (tol : Q) : bool * nat :=
  match l with
  | [] => (false, 0%nat)
  | m :: l' =>
      if Qle_bool (Qabs (m - val)) tol then (true, 0%nat)
      else let '(truth, idx) := val_in_list val l' tol in (truth, S idx)
  end.

(** ** The [Sampler] object *)

Module background.
(** The object behind [self.background]: the level its array lives at,
    the boolean array, and the patch side in that array's frame. *)
Record t : Type := {
  level : nat;
  data : Raster bool;
  patchsize : Z
}.
End background.

Module info.
(** The dictionary appended to the patch frame. *)
Record t : Type := {
  w : Z;
  h : Z;
  parent : string;
  size : Z;
  level : nat;
  class : N;
  id : string
}.
End info.

(** The attributes [__init__] assigns.  [background] is read by
    [_class_c_patch_i] but assigned nowhere in [sampler.py]: it is absent
    ([None]) unless code outside the module sets it. *)
Record Sampler : Type := {
  wsi_file : string;
  tissue_mask_dir : string;
  annotation_dir : option string;
  fileID : string;
  wsi : OpenSlide;
  level0 : Q;
  magnifications : list Q;
  tissue_mask_level : nat;
  tissue_mask_mag : Q;
  tissue_mask : Raster bool;
  annotation : option OpenSlide;
  background : option background.t
}.

(** A sampler after [prepare_sampling]: the attributes of [__init__] and
    those the preparation adds.  [annotation_level] is assigned only when an
    annotation is present. *)
Record Session : Type := {
  self : Sampler;
  level : nat;
  leveldim : Z * Z;
  ps : Z;
  ps_tm : Z;
  annotation_level : option nat;
  class_list : list N;
  class_seeds : list (list (Z * Z));
  rejected : Z
}.

Definition set_rejected (s : Session) (r : Z) : Session :=
  {| self := self s; level := level s; leveldim := leveldim s; ps := ps s;
     ps_tm := ps_tm s; annotation_level := annotation_level s;
     class_list := class_list s; class_seeds := class_seeds s;
     rejected := r |}.

Definition set_background (s : Sampler) (b : option background.t) : Sampler :=
  {| wsi_file := wsi_file s; tissue_mask_dir := tissue_mask_dir s;
     annotation_dir := annotation_dir s; fileID := fileID s; wsi := wsi s;
     level0 := level0 s; magnifications := magnifications s;
     tissue_mask_level := tissue_mask_level s;
     tissue_mask_mag := tissue_mask_mag s; tissue_mask := tissue_mask s;
     annotation := annotation s; background := b |}.

(** *** [get_level] *)

Definition get_level (magnifications : list Q) (magnification tol : Q)
  : option nat :=
  let '(truth, idx) := val_in_list magnification magnifications tol in
  if negb truth then None else Some idx.

(** The default [tol=0.01]. *)
Definition default_tol : Q := 1 # 100.

(** *** [__init__] *)

Inductive level0_arg : Type :=
| infer
| given (magnification : Q).

(** Equality of two (width, height) pairs. *)
Definition pair_eqb (a b : Z * Z) : bool :=
  (fst a =? fst b) && (snd a =? snd b).

(** Equality of a (width, height) pair with a tuple of any length. *)
Definition tuple_eqb (t : list Z) (dims : Z * Z) : bool :=
  match t with
  | [a; b] => pair_eqb dims (a, b)
  | _ => false
  end.

(** Lines 50-54: no cached mask, one is generated.  ([np.save] dropped.) *)
Definition tissue_mask_cache_miss (W : World) (wsi : OpenSlide)
    (magnifications : list Q) : result (nat * Q * Raster bool) :=
  match get_level magnifications (5 # 4) 10 with
  | None => Raise TypeError
  | Some tissue_mask_level =>
      tissue_mask_mag <- getitem magnifications tissue_mask_level ;;
      let tissue_mask := generate_tissue_mask W wsi tissue_mask_level in
      _ <- py_assert (dtype_eqb (array_dtype tissue_mask) np_bool) ;;
      Ok (tissue_mask_level, tissue_mask_mag, array_bools tissue_mask)
  end.

(** Lines 61-65: the cached mask at path [string] is loaded. *)
Definition tissue_mask_cache_hit (W : World) (wsi : OpenSlide)
    (magnifications : list Q) (string : string)
  : result (nat * Q * Raster bool) :=
  let tissue_mask := np_load W string in
  _ <- py_assert (dtype_eqb (array_dtype tissue_mask) np_bool) ;;
  tissue_mask_level <-
    find_index (tuple_eqb (rev (array_shape tissue_mask)))
               (level_dimensions wsi) ;;
  tissue_mask_mag <- getitem magnifications tissue_mask_level ;;
  Ok (tissue_mask_level, tissue_mask_mag, array_bools tissue_mask).

(** Lines 68-77: the annotation, if present. *)
Definition load_annotation (W : World) (fileID : string)
    (annotation_dir : option string) : result (option OpenSlide) :=
  match annotation_dir with
  | None => Ok None
  | Some dir =>
      let '(truth, string) := string_in_directory W fileID dir in
      if negb truth then Ok None
      else a <- OpenSlide_open W string ;; Ok (Some a)
  end.

Definition __init__ (W : World) (wsi_file : string) (level0 : level0_arg)
    (tissue_mask_dir : string) (annotation_dir : option string)
  : result Sampler :=
  let fileID := path_stem W wsi_file in
  wsi <- OpenSlide_open W wsi_file ;;
  level0 <- match level0 with
            | infer =>
                match objective_power wsi with
                | Some p => Ok p
                | None =>
                    Raise (Exception_
                             "Slide does not have property objective-power.")
                end
            | given m => Ok m
            end ;;
  magnifications <- map_result (true_div level0) (level_downsamples wsi) ;;
  let '(truth, string) := string_in_directory W fileID tissue_mask_dir in
  '(tissue_mask_level, tissue_mask_mag, tissue_mask) <-
    (if negb truth then tissue_mask_cache_miss W wsi magnifications
     else tissue_mask_cache_hit W wsi magnifications string) ;;
  annotation <- load_annotation W fileID annotation_dir ;;
  Ok {| wsi_file := wsi_file;
        tissue_mask_dir := tissue_mask_dir;
        annotation_dir := annotation_dir;
        fileID := fileID;
        wsi := wsi;
        level0 := level0;
        magnifications := magnifications;
        tissue_mask_level := tissue_mask_level;
        tissue_mask_mag := tissue_mask_mag;
        tissue_mask := tissue_mask;
        annotation := annotation;
        background := None |}.

(** *** [_get_classes_and_seeds] *)

(** Lines 153-161: one pool per annotated class. *)
Fixpoint add_classes (W : World) (ann : OpenSlide) (level : nat)
    (annotation_low_res : Raster N) (classes : list N)
    (class_list : list N) (class_seeds : list (list (Z * Z)))
    (g : RandomState)
  : result (list N * list (list (Z * Z)) * RandomState) :=
  match classes with
  | [] => Ok (class_list, class_seeds, g)
  | c :: classes' =>
      let nonzero := np_nonzero (fun v => N.eqb v c) annotation_low_res in
      factor <- getitem (level_downsamples ann) level ;;
      let '(coordinates, g') :=
        shuffle W g (scale_coordinates nonzero factor) in
      add_classes W ann level annotation_low_res classes'
                  (class_list ++ [c]) (class_seeds ++ [coordinates]) g'
  end.

Definition _get_classes_and_seeds (W : World) (g : RandomState) (s : Sampler)
  : result (list N * list (list (Z * Z)) * RandomState) :=
  let mask := tissue_mask s in
  let nonzero := np_nonzero (fun b : bool => b) mask in
  factor <- getitem (level_downsamples (wsi s)) (tissue_mask_level s) ;;
  let '(coordinates, g1) := shuffle W g (scale_coordinates nonzero factor) in
  let class_list := [0%N] in
  let class_seeds := [coordinates] in
  match annotation s with
  | None => Ok (class_list, class_seeds, g1)
  | Some ann =>
      down <- getglobal (down W) ;;
      let level := ut_get_level W ann down 20 in
      dims <- getitem (level_dimensions ann) level ;;
      let annotation_low_res := read_region_L ann (0, 0) level dims in
      let classes := np_unique annotation_low_res in
      c0 <- getitem classes 0 ;;
      _ <- py_assert (N.eqb c0 0) ;;
      add_classes W ann level annotation_low_res (tl classes)
                  class_list class_seeds g1
  end.

(** *** [prepare_sampling] *)

Definition prepare_sampling (W : World) (g : RandomState) (s : Sampler)
    (magnification : Q) (patchsize : Z) : result (Session * RandomState) :=
  match get_level (magnifications s) magnification default_tol with
  | None => Raise TypeError
  | Some level =>
      leveldim <- getitem (level_dimensions (wsi s)) level ;;
      let ps := patchsize in
      ps_tm <- level_converter (wsi s) ps level (tissue_mask_level s) ;;
      annotation_level <-
        match annotation s with
        | None => Ok None
        | Some ann =>
            _ <- py_assert (list_mem pair_eqb leveldim
                                     (level_dimensions ann)) ;;
            idx <- list_index pair_eqb leveldim (level_dimensions ann) ;;
            Ok (Some idx)
        end ;;
      '(class_list, class_seeds, g') <- _get_classes_and_seeds W g s ;;
      Ok ({| self := s;
             level := level;
             leveldim := leveldim;
             ps := ps;
             ps_tm := ps_tm;
             annotation_level := annotation_level;
             class_list := class_list;
             class_seeds := class_seeds;
             rejected := 0 |}, g')
  end.

(** *** [_class_c_patch_i] *)

(** [np.sum((annotation_patch != c).astype(int))]. *)
Definition count_differing (c : N) (annotation_patch : Raster N) : Z :=
  np_sum (map (map (fun v => negb (N.eqb v c))) annotation_patch).

(** The pair the method returns: [(None, None)] is [None]. *)
Definition extraction := option (Raster RGB * info.t).

(** Lines 192-204: the annotation-consistency check on an already
    tissue-checked patch. *)
Definition annotation_check (s : Session) (c : N) (h w : Z)
    (patch : Raster RGB) (info : info.t) : result (extraction * Session) :=
  match annotation (self s) with
  | None => Ok (Some (patch, info), s)
  | Some ann =>
      annotation_level <- getattr (annotation_level s) ;;
      let annotation_patch :=
        read_region_L ann (w, h) annotation_level (ps s, ps s) in
      if frac_gt_09 (count_differing c annotation_patch) (ps s ^ 2)
      then Ok (None, set_rejected s (rejected s + 1))
      else Ok (Some (patch, info), s)
  end.

(** Lines 183-191. *)
Definition patch_info (s : Session) (c : N) (h w : Z) : info.t :=
  {| info.w := w;
     info.h := h;
     info.parent := wsi_file (self s);
     info.size := ps s;
     info.level := level s;
     info.class := c;
     info.id := fileID (self s) |}.

Definition _class_c_patch_i (s : Session) (c : N) (i : nat)
  : result (extraction * Session) :=
  idx <- list_index N.eqb c (class_list s) ;;
  seeds <- getitem (class_seeds s) idx ;;
  '(h, w) <- getitem seeds i ;;
  let patch := read_region_RGB (wsi (self s)) (w, h) (level s) (ps s, ps s) in
  bg <- getattr (background (self s)) ;;
  i <- level_converter (wsi (self s)) h 0 (background.level bg) ;;
  j <- level_converter (wsi (self s)) w 0 (background.level bg) ;;
  let background_patch :=
    slice2 (background.data bg) i j (background.patchsize bg) in
  if negb (frac_gt_09 (np_sum background_patch)
                      (background.patchsize bg ^ 2))
  then Ok (None, set_rejected s (rejected s + 1))
  else annotation_check s c h w patch (patch_info s c h w).

(** *** [sample_patches] *)

(** The inner loop, lines 111-116, from seed position [j]. *)
Fixpoint sample_seeds (max_per_class : Z) (c : N) (seeds : list (Z * Z))
    (j : nat) (s : Session) (frame : list info.t)
  : result (list info.t * Session) :=
  match seeds with
  | [] => Ok (frame, s)
  | _ :: seeds' =>
      '(r, s') <- _class_c_patch_i s c j ;;
      let frame' := match r with
                    | Some (_, info) => frame ++ [info]
                    | None => frame
                    end in
      if Z.of_nat j >=? max_per_class - 1 then Ok (frame', s')
      else sample_seeds max_per_class c seeds' (S j) s' frame'
  end.

(** The outer loop, lines 109-110, from class position [i]. *)
Fixpoint sample_classes (max_per_class : Z) (classes : list N) (i : nat)
    (s : Session) (frame : list info.t) : result (list info.t * Session) :=
  match classes with
  | [] => Ok (frame, s)
  | c :: classes' =>
      seeds <- getitem (class_seeds s) i ;;
      '(frame', s') <- sample_seeds max_per_class c seeds 0 s frame ;;
      sample_classes max_per_class classes' (S i) s' frame'
  end.

(** The patch frame handed to [to_pickle], and the sampler afterwards. *)
Definition sample_patches (s : Session) (max_per_class : Z)
  : result (list info.t * Session) :=
  sample_classes max_per_class (class_list s) 0 s [].

(** ** Notions used in the statements *)

(** The seed pool of class [c]: the list [_class_c_patch_i] indexes. *)
Definition pool_of (s : Session) (c : N) : result (list (Z * Z)) :=
  idx <- list_index N.eqb c (class_list s) ;;
  getitem (class_seeds s) idx.

(** The sub-region of the background array that the check of the seed
    [(h, w)] reads. *)
Definition window_of (s : Session) (bg : background.t) (h w : Z)
  : result (Raster bool) :=
  i <- level_converter (wsi (self s)) h 0 (background.level bg) ;;
  j <- level_converter (wsi (self s)) w 0 (background.level bg) ;;
  Ok (slice2 (background.data bg) i j (background.patchsize bg)).

(** The fraction of [true] pixels of a window of nominal side [p]. *)
Definition fraction_true (window : Raster bool) (p : Z) : Q :=
  (inject_Z (np_sum window) / inject_Z (p ^ 2))%Q.

Definition is_rejection (r : result (extraction * Session)) : Prop :=
  exists s', r = Ok (None, s').

(** A sequence of extraction calls, each on the sampler the previous one
    left; a call that raises leaves the sampler as it was. *)
Fixpoint run_calls (s : Session) (calls : list (N * nat))
  : list (result extraction) * Session :=
  match calls with
  | [] => ([], s)
  | (c, i) :: calls' =>
      match _class_c_patch_i s c i with
      | Ok (r, s') =>
          let '(rs, s'') := run_calls s' calls' in (Ok r :: rs, s'')
      | Raise e =>
          let '(rs, s'') := run_calls s calls' in (Raise e :: rs, s'')
      end
  end.

Definition count_rejections (rs : list (result extraction)) : Z :=
  Z.of_nat (List.length
              (filter (fun r => match r with Ok None => true | _ => false end)
                      rs)).

(** What a call of the extractor returns, the sampler it leaves aside. *)
Definition outcome (s : Session) (c : N) (j : nat) : result extraction :=
  match _class_c_patch_i s c j with
  | Ok (r, _) => Ok r
  | Raise e => Raise e
  end.

(** The records of the accepted seeds among the [n] seeds of class [c] from
    position [j] on, in pool order. *)
Fixpoint accepted_from (s : Session) (c : N) (j n : nat) : list info.t :=
  match n with
  | O => []
  | S n' =>
      match outcome s c j with
      | Ok (Some (_, info)) => [info]
      | _ => []
      end ++ accepted_from s c (S j) n'
  end.

(** The number of rejected seeds among the same. *)
Fixpoint rejected_from (s : Session) (c : N) (j n : nat) : Z :=
  match n with
  | O => 0
  | S n' =>
      match outcome s c j with
      | Ok None => 1
      | _ => 0
      end + rejected_from s c (S j) n'
  end.

(** The number of seeds of a pool that a cap lets the loop reach. *)
Definition attempted (max_per_class : Z) (pool : list (Z * Z)) : nat :=
  Nat.min (Z.to_nat max_per_class) (List.length pool).

Definition accepted_of (s : Session) (max_per_class : Z) (c : N)
  : list info.t :=
  match pool_of s c with
  | Ok pool => accepted_from s c 0 (attempted max_per_class pool)
  | Raise _ => []
  end.

Definition rejected_of (s : Session) (max_per_class : Z) (c : N) : Z :=
  match pool_of s c with
  | Ok pool => rejected_from s c 0 (attempted max_per_class pool)
  | Raise _ => 0
  end.

Definition total (l : list Z) : Z := fold_right Z.add 0 l.

(** A prepared sampler on which the extractor can run: the class list has
    no repetition and one pool per class, [self.background] is assigned and
    lives at a level the slide has, with a non-zero downsample factor, and
    [annotation_level] is assigned if there is an annotation. *)
Definition ready (s : Session) : Prop :=
  NoDup (class_list s)
  /\ List.length (class_list s) = List.length (class_seeds s)
  /\ (exists bg d0 dl,
        background (self s) = Some bg
        /\ nth_error (level_downsamples (wsi (self s))) 0 = Some d0
        /\ nth_error (level_downsamples (wsi (self s)))
                     (background.level bg) = Some dl
        /\ ~ (dl == 0)%Q)
  /\ (annotation (self s) <> None -> annotation_level s <> None).

(** Overwriting [annotation_dir], the one attribute that tells a sampler
    built with an annotation directory that holds no file for the slide
    from a sampler built without any. *)
Definition set_annotation_dir (s : Sampler) (d : option string) : Sampler :=
  {| wsi_file := wsi_file s; tissue_mask_dir := tissue_mask_dir s;
     annotation_dir := d; fileID := fileID s; wsi := wsi s;
     level0 := level0 s; magnifications := magnifications s;
     tissue_mask_level := tissue_mask_level s;
     tissue_mask_mag := tissue_mask_mag s; tissue_mask := tissue_mask s;
     annotation := annotation s; background := background s |}.

Definition set_self (s : Session) (smp : Sampler) : Session :=
  {| self := smp;
     level := level s; leveldim := leveldim s; ps := ps s;
     ps_tm := ps_tm s; annotation_level := annotation_level s;
     class_list := class_list s; class_seeds := class_seeds s;
     rejected := rejected s |}.

Definition session_set_annotation_dir (s : Session) (d : option string)
  : Session := set_self s (set_annotation_dir (self s) d).

(** The same outcome, with the sampler it leaves transformed by [f]. *)
Definition map_state {S S' A : Type} (f : S -> S') (r : result (A * S))
  : result (A * S') :=
  match r with
  | Ok (a, s) => Ok (a, f s)
  | Raise e => Raise e
  end.

Definition map_ok {A B : Type} (f : A -> B) (r : result A) : result B :=
  match r with
  | Ok a => Ok (f a)
  | Raise e => Raise e
  end.

(** Modelled from the spec: the object behind [self.background] is built
    nowhere in [sampler.py].  The spec defines the tissue-coverage check
    "directly in terms of the already-computed TissueMask", the coordinate
    and the patch size being converted "into the tissue-mask level's
    coordinate frame", for which [prepare_sampling] computes [ps_tm]. *)
Definition tissue_background (s : Sampler) (ps_tm : Z) : background.t :=
  {| background.level := tissue_mask_level s;
     background.data := tissue_mask s;
     background.patchsize := ps_tm |}.

(** Where a record of the patch frame comes from: a seed of the pool of
    its class, with the session's level, patch size and file names. *)
Definition record_of (s : Session) (r : info.t) : Prop :=
  exists pool j,
    pool_of s (info.class r) = Ok pool
    /\ nth_error pool j = Some (info.h r, info.w r)
    /\ r = patch_info s (info.class r) (info.h r) (info.w r).

(** ** Concrete slides and samplers used by the examples *)

Definition slide_of_downsamples (ds : list Q) : OpenSlide :=
  {| level_dimensions := [];
     level_downsamples := ds;
     objective_power := None;
     read_region_RGB := fun _ _ _ => [];
     read_region_L := fun _ _ _ => [] |}.

(** A slide with a single level of the given width and height. *)
Definition flat_slide (width height : Z) : OpenSlide :=
  {| level_dimensions := [(width, height)];
     level_downsamples := [1%Q];
     objective_power := Some 40%Q;
     read_region_RGB := fun _ _ _ => [];
     read_region_L := fun _ _ _ => [] |}.

(** An annotation slide whose single level reads as the raster [labels]. *)
Definition label_slide (width height : Z) (labels : Raster N) : OpenSlide :=
  {| level_dimensions := [(width, height)];
     level_downsamples := [1%Q];
     objective_power := None;
     read_region_RGB := fun _ _ _ => [];
     read_region_L := fun _ _ _ => labels |}.

(** A boolean mask as the array [np.load] returns for it. *)
Definition mask_array (m : Raster bool) : ndarray :=
  {| array_dtype := np_bool;
     array_shape := [Z.of_nat (List.length m);
                     Z.of_nat (List.length (hd [] m))];
     array_bools := m |}.

(** A world holding the slide [slide.tif], a cached mask for it under
    [tissue_masks], and, when [ann] is given, an annotation for it under
    [annotation].  Its shuffle leaves the order as it is, and nothing has
    bound the global [down]. *)
Definition demo_world (slide : OpenSlide) (cached : ndarray)
    (ann : option OpenSlide) : World :=
  {| path_stem := fun _ => "slide"%string;
     OpenSlide_open := fun p =>
       if String.eqb p "slide.tif" then Ok slide
       else match ann with
            | Some a => Ok a
            | None => Raise (Exception_ "cannot open")
            end;
     string_in_directory := fun _ dir =>
       if String.eqb dir "tissue_masks"
       then (true, "tissue_masks/slide_tm.npy"%string)
       else match ann with
            | Some _ => (true, "annotation/slide.tif"%string)
            | None => (false, ""%string)
            end;
     np_load := fun _ => cached;
     generate_tissue_mask := fun _ _ => cached;
     ut_get_level := fun _ _ _ => 0%nat;
     down := None;
     shuffle := fun g l => (l, g + 1) |}.

(** The world in which the module global [down] has been bound to [d]. *)
Definition with_down (W : World) (d : Q) : World :=
  {| path_stem := path_stem W;
     OpenSlide_open := OpenSlide_open W;
     string_in_directory := string_in_directory W;
     np_load := np_load W;
     generate_tissue_mask := generate_tissue_mask W;
     ut_get_level := ut_get_level W;
     down := Some d;
     shuffle := shuffle W |}.

(** The sampler with [self.background] assigned. *)
Definition with_background (s : Session) (b : background.t) : Session :=
  set_self s (set_background (self s) (Some b)).

Definition unwrap {A : Type} (r : result A) (default : A) : A :=
  match r with Ok a => a | Raise _ => default end.

Definition empty_sampler : Sampler :=
  {| wsi_file := ""; tissue_mask_dir := ""; annotation_dir := None;
     fileID := ""; wsi := slide_of_downsamples []; level0 := 0%Q;
     magnifications := []; tissue_mask_level := 0; tissue_mask_mag := 0%Q;
     tissue_mask := []; annotation := None; background := None |}.

Definition empty_session : Session :=
  {| self := empty_sampler; level := 0; leveldim := (0, 0); ps := 0;
     ps_tm := 0; annotation_level := None; class_list := [];
     class_seeds := []; rejected := 0 |}.

(** The sampler [__init__] builds for [slide.tif] in [W]. *)
Definition demo_sampler (W : World) (annotation_dir : option string)
  : Sampler :=
  unwrap (__init__ W "slide.tif" (given 40%Q) "tissue_masks" annotation_dir)
         empty_sampler.

(** That sampler prepared at 40x with patch side [patchsize]. *)
Definition demo_prepared (W : World) (annotation_dir : option string)
    (patchsize : Z) : Session :=
  fst (unwrap (prepare_sampling W 0 (demo_sampler W annotation_dir)
                                40%Q patchsize)
              (empty_session, 0)).

(** The prepared sampler with its background wired to the tissue mask. *)
Definition demo_session (W : World) (annotation_dir : option string)
    (patchsize : Z) : Session :=
  let s := demo_prepared W annotation_dir patchsize in
  with_background s (tissue_background (self s) (ps_tm s)).

(** A 4 x 3 slide whose tissue mask has one hole in its first row. *)
Definition notch_mask : Raster bool :=
  [[true; false; true; true];
   [true; true; true; true];
   [true; true; true; true]].

Definition notch_world : World :=
  demo_world (flat_slide 4 3) (mask_array notch_mask) None.

Definition notch_session : Session := demo_session notch_world None 2.

(** A 10 x 10 slide whose tissue mask is nine rows of tissue and one
    empty row: 90 foreground pixels out of 100. *)
Definition ninety_mask : Raster bool :=
  repeat (repeat true 10) 9 ++ [repeat false 10].

Definition ninety_world : World :=
  demo_world (flat_slide 10 10) (mask_array ninety_mask) None.

Definition ninety_session : Session := demo_session ninety_world None 10.

(** A 2 x 2 slide, all tissue, annotated with the labels 0, 1 and 2. *)
Definition label_raster : Raster N := [[0; 2]; [1; 2]]%N.

(** The annotated slide as the program finds it: [down] is unbound. *)
Definition unbound_world : World :=
  demo_world (flat_slide 2 2) (mask_array [[true; true]; [true; true]])
             (Some (label_slide 2 2 label_raster)).

(** The same world after other code has bound [down] in the module. *)
Definition annotated_world : World := with_down unbound_world 32.

Definition annotated_sampler : Sampler :=
  demo_sampler annotated_world (Some "annotation"%string).

(** A 2 x 2 slide whose tissue mask holds no tissue. *)
Definition blank_world : World :=
  demo_world (flat_slide 2 2) (mask_array [[false; false]; [false; false]])
             None.

(** The annotated slide prepared with patch side 2 and its background
    wired to the tissue mask. *)
Definition annotated_session : Session :=
  demo_session annotated_world (Some "annotation"%string) 2.

(** * Properties *)

(** ** Level conversion *)

Section LevelConverter.

Lemma py_int_floor (q : Q) : (0 <= q)%Q -> py_int q = Qfloor q.
Proof.
  destruct q as [n d]. unfold Qle, py_int, Qfloor. simpl. intros H.
  apply Z.quot_div_nonneg; lia.
Qed.

Lemma py_int_nonneg (q : Q) : (0 <= q)%Q -> 0 <= py_int q.
Proof.
  intros H. rewrite py_int_floor by assumption.
  change 0 with (Qfloor 0). apply Qfloor_resp_le. assumption.
Qed.

Lemma true_div_pos (a b : Q) : (0 < b)%Q -> true_div a b = Ok (a / b)%Q.
Proof.
  intros H. unfold true_div.
  destruct (Qeq_bool b 0) eqn:E; [|reflexivity].
  apply Qeq_bool_eq in E. rewrite E in H. discriminate.
Qed.

Lemma level_converter_pos wsi x A B dA dB :
  nth_error (level_downsamples wsi) A = Some dA ->
  nth_error (level_downsamples wsi) B = Some dB ->
  (0 < dB)%Q ->
  level_converter wsi x A B = Ok (py_int (inject_Z x * dA / dB)).
Proof.
  intros HA HB H. unfold level_converter, getitem. rewrite HA, HB. simpl.
  rewrite true_div_pos by assumption. reflexivity.
Qed.

Lemma Qdiv_cancel (b c : Q) : (0 < c)%Q -> (b / c * c == b)%Q.
Proof. intros H. field. intros E. rewrite E in H. discriminate. Qed.

Lemma inject_Z_nonneg (z : Z) : 0 <= z -> (0 <= inject_Z z)%Q.
Proof.
  intros H. change 0%Q with (inject_Z 0). rewrite <- Zle_Qle. exact H.
Qed.

Lemma py_int_opp (q : Q) : py_int (- q) = - py_int q.
Proof.
  destruct q as [n d]. unfold py_int. simpl.
  apply Z.quot_opp_l. discriminate.
Qed.

Lemma py_int_neg (q : Q) : py_int q = - py_int (- q).
Proof. rewrite py_int_opp. lia. Qed.

Lemma Qopp_nonneg (q : Q) : ~ (0 <= q)%Q -> (0 <= - q)%Q.
Proof. intros H. apply Qnot_le_lt in H. lra. Qed.

(** Truncation does not depend on how the rational is written. *)
Lemma py_int_comp (q q' : Q) : (q == q')%Q -> py_int q = py_int q'.
Proof.
  intros E. destruct (Qlt_le_dec q 0) as [Hn|Hp].
  - assert (Hn' : (q' < 0)%Q) by (rewrite <- E; exact Hn).
    rewrite (py_int_neg q), (py_int_neg q').
    f_equal. rewrite !py_int_floor by lra.
    apply Qfloor_comp. rewrite E. reflexivity.
  - assert (Hp' : (0 <= q')%Q) by (rewrite <- E; exact Hp).
    rewrite !py_int_floor by assumption. apply Qfloor_comp. exact E.
Qed.

Lemma py_int_inject_Z (z : Z) : py_int (inject_Z z) = z.
Proof. unfold py_int. simpl. apply Z.quot_1_r. Qed.

Lemma py_int_le (q q' : Q) : (q <= q')%Q -> py_int q <= py_int q'.
Proof.
  intros H. destruct (Qlt_le_dec q 0) as [Hn|Hp].
  - destruct (Qlt_le_dec q' 0) as [Hn'|Hp'].
    + rewrite (py_int_neg q), (py_int_neg q').
      rewrite !py_int_floor by lra.
      assert (Qfloor (- q') <= Qfloor (- q)) by (apply Qfloor_resp_le; lra).
      lia.
    + pose proof (py_int_nonneg q' Hp').
      rewrite (py_int_neg q).
      assert (0 <= py_int (- q)) by (apply py_int_nonneg; lra). lia.
  - rewrite !py_int_floor by lra. apply Qfloor_resp_le. exact H.
Qed.

Lemma level_converter_nonzero wsi x A B dA dB :
  nth_error (level_downsamples wsi) A = Some dA ->
  nth_error (level_downsamples wsi) B = Some dB ->
  ~ (dB == 0)%Q ->
  level_converter wsi x A B = Ok (py_int (inject_Z x * dA / dB)).
Proof.
  intros HA HB H. unfold level_converter, getitem. rewrite HA, HB.
  cbn [bind]. unfold true_div.
  destruct (Qeq_bool dB 0) eqn:E; [|reflexivity].
  apply Qeq_bool_eq in E. contradiction.
Qed.


(** In the rational model: when the factor of level A is k times the
    factor of level B, the conversion from A to B multiplies by k, and
    the way back is exact. *)
Lemma round_trip_integral_up (wsi : OpenSlide) (v : Z) (A B : nat)
    (dA dB : Q) (k : Z) :
  nth_error (level_downsamples wsi) A = Some dA ->
  nth_error (level_downsamples wsi) B = Some dB ->
  (0 < dB)%Q -> 1 <= k -> (dA == inject_Z k * dB)%Q ->
  level_converter wsi v A B = Ok (v * k)
  /\ round_trip wsi v A B = Ok v.
Proof.
  intros HA HB HdB Hk E.
  assert (HkQ : (0 < inject_Z k)%Q).
  { change 0%Q with (inject_Z 0). rewrite <- Zlt_Qlt. lia. }
  assert (HdA : (0 < dA)%Q) by (rewrite E; nra).
  assert (E1 : level_converter wsi v A B = Ok (v * k)).
  { rewrite (level_converter_pos wsi v A B dA dB HA HB HdB). f_equal.
    rewrite <- (py_int_inject_Z (v * k)). apply py_int_comp.
    rewrite inject_Z_mult, E. field. lra. }
  split; [exact E1|].
  unfold round_trip. rewrite E1. cbn [bind].
  rewrite (level_converter_pos wsi (v * k) B A dB dA HB HA HdA). f_equal.
  rewrite <- (py_int_inject_Z v) at 2. apply py_int_comp.
  rewrite inject_Z_mult, E. field. split; lra.
Qed.

(** In the rational model: when the factor of level B is k times the
    factor of level A, the conversion from A to B divides a non-negative
    value by k, dropping the remainder, and the way back multiplies by k. *)
Lemma round_trip_integral_down (wsi : OpenSlide) (v : Z) (A B : nat)
    (dA dB : Q) (k : Z) :
  nth_error (level_downsamples wsi) A = Some dA ->
  nth_error (level_downsamples wsi) B = Some dB ->
  (0 < dA)%Q -> 1 <= k -> (dB == inject_Z k * dA)%Q -> 0 <= v ->
  level_converter wsi v A B = Ok (v / k)
  /\ round_trip wsi v A B = Ok (v / k * k).
Proof.
  intros HA HB HdA Hk E Hv.
  assert (HkQ : (0 < inject_Z k)%Q).
  { change 0%Q with (inject_Z 0). rewrite <- Zlt_Qlt. lia. }
  assert (HdB : (0 < dB)%Q) by (rewrite E; nra).
  assert (E1 : level_converter wsi v A B = Ok (v / k)).
  { rewrite (level_converter_pos wsi v A B dA dB HA HB HdB). f_equal.
    destruct k as [|p|p]; try lia.
    transitivity (py_int (v # p)).
    - apply py_int_comp. rewrite Qmake_Qdiv, E. field. split; lra.
    - unfold py_int. cbn [Qnum Qden]. apply Z.quot_div_nonneg; lia. }
  split; [exact E1|].
  unfold round_trip. rewrite E1. cbn [bind].
  rewrite (level_converter_pos wsi (v / k) B A dB dA HB HA HdA). f_equal.
  rewrite <- (py_int_inject_Z (v / k * k)). apply py_int_comp.
  rewrite inject_Z_mult, E. field. lra.
Qed.

Lemma power_of_two_pos (d : Q) : power_of_two d -> (0 < d)%Q.
Proof.
  intros (a & _ & E). rewrite E. change 0%Q with (inject_Z 0).
  rewrite <- Zlt_Qlt. apply Z.pow_pos_nonneg; lia.
Qed.

Lemma power_of_two_ratio (a b : nat) :
  (b <= a)%nat ->
  (inject_Z (2 ^ Z.of_nat a)
   == inject_Z (2 ^ Z.of_nat (a - b)) * inject_Z (2 ^ Z.of_nat b))%Q.
Proof.
  intros H. rewrite <- inject_Z_mult, <- Z.pow_add_r by lia.
  replace (Z.of_nat (a - b) + Z.of_nat b) with (Z.of_nat a) by lia.
  reflexivity.
Qed.

End LevelConverter.

(** C3, as stated, fails: with downsample factors 1 and 4, the value 7 goes
    to 1 at level 1 and comes back as 4, which is 3 away from 7. *)
Lemma round_trip_drifts :
  round_trip (slide_of_downsamples [1%Q; 4%Q]) 7 0 1 = Ok 4
  /\ ~ Z.abs (4 - 7) <= 1.
Proof. split; [reflexivity | cbn; lia]. Qed.

(** C3, amended: for levels A and B whose downsample factors are powers of
    two and a value v with 0 <= v < 2^53, converting v from A to B and back
    succeeds and yields v' with v - downsample[B]/downsample[A] < v' <= v,
    and v' = v when downsample[B] <= downsample[A]; hence v' is within 1 of
    v whenever downsample[B] <= 2 * downsample[A]. *)
Theorem level_converter_round_trip (wsi : OpenSlide) (v : Z) (A B : nat)
    (dA dB : Q) :
  nth_error (level_downsamples wsi) A = Some dA ->
  nth_error (level_downsamples wsi) B = Some dB ->
  power_of_two dA -> power_of_two dB -> 0 <= v < 2 ^ 53 ->
  exists v',
    round_trip wsi v A B = Ok v'
    /\ v' <= v
    /\ (inject_Z v - dB / dA < inject_Z v')%Q
    /\ ((dB <= dA)%Q -> v' = v)
    /\ ((dB <= 2 * dA)%Q -> Z.abs (v' - v) <= 1).
Proof.
  intros HA HB PA PB [Hv _].
  pose proof (power_of_two_pos dA PA) as HdA.
  pose proof (power_of_two_pos dB PB) as HdB.
  destruct PA as (a & _ & EA). destruct PB as (b & _ & EB).
  assert (Hr : (0 < dB / dA)%Q) by (apply Qlt_shift_div_l; lra).
  destruct (Nat.le_gt_cases b a) as [Hba|Hab].
  - exists v.
    assert (Hk : 1 <= 2 ^ Z.of_nat (a - b))
      by (pose proof (Z.pow_pos_nonneg 2 (Z.of_nat (a - b))); lia).
    destruct (round_trip_integral_up wsi v A B dA dB (2 ^ Z.of_nat (a - b))
                HA HB HdB Hk) as [_ E].
    { rewrite EA, EB. apply power_of_two_ratio. exact Hba. }
    split; [exact E|]. split; [lia|]. split; [lra|].
    split; [reflexivity | intros _; lia].
  - set (k := 2 ^ Z.of_nat (b - a)).
    assert (Hk : 2 <= k).
    { unfold k. replace (Z.of_nat (b - a)) with (Z.succ (Z.of_nat (b - a - 1)))
        by lia.
      rewrite Z.pow_succ_r by lia.
      pose proof (Z.pow_pos_nonneg 2 (Z.of_nat (b - a - 1))). lia. }
    assert (Ek : (dB == inject_Z k * dA)%Q).
    { rewrite EA, EB. apply power_of_two_ratio. lia. }
    destruct (round_trip_integral_down wsi v A B dA dB k HA HB HdA)
      as [_ E]; [lia | exact Ek | exact Hv |].
    exists (v / k * k). split; [exact E|].
    pose proof (Z.mod_pos_bound v k) as Hm.
    pose proof (Z.div_mod v k) as Hdm.
    assert (Hle : v / k * k <= v) by lia.
    assert (Hgt : v - k < v / k * k) by lia.
    assert (Er : (dB / dA == inject_Z k)%Q) by (rewrite Ek; field; lra).
    split; [exact Hle|]. split; [|split].
    + rewrite Er. unfold Qminus. rewrite <- inject_Z_opp, <- inject_Z_plus.
      rewrite <- Zlt_Qlt. lia.
    + intros Hd. exfalso.
      assert (H2 : (2 <= inject_Z k)%Q)
        by (change 2%Q with (inject_Z 2); rewrite <- Zle_Qle; exact Hk).
      rewrite Ek in Hd. nra.
    + intros Hd.
      assert (H2 : (inject_Z k <= 2)%Q).
      { rewrite <- Er. apply Qle_shift_div_r; [exact HdA | exact Hd]. }
      change 2%Q with (inject_Z 2) in H2. rewrite <- Zle_Qle in H2. lia.
Qed.

Lemma level_converter_round_trip_witness :
  power_of_two 4 /\ power_of_two 1 /\ 0 <= 7 < 2 ^ 53
  /\ exists v',
      round_trip (slide_of_downsamples [1%Q; 4%Q]) 7 0 1 = Ok v'
      /\ v' <= 7
      /\ (inject_Z 7 - 4 / 1 < inject_Z v')%Q
      /\ ((4 <= 1)%Q -> v' = 7)
      /\ ((4 <= 2 * 1)%Q -> Z.abs (v' - 7) <= 1).
Proof.
  assert (P4 : power_of_two 4).
  { exists 2%nat. split; [lia | reflexivity]. }
  assert (P1 : power_of_two 1).
  { exists 0%nat. split; [lia | reflexivity]. }
  split; [exact P4|]. split; [exact P1|]. split; [lia|].
  apply (level_converter_round_trip (slide_of_downsamples [1%Q; 4%Q])
           7 0 1 1%Q 4%Q eq_refl eq_refl P1 P4).
  lia.
Defined.

(** ** List lookups *)

Section Lookup.
Context {A : Type} (p : A -> bool).

Lemma find_index_Ok (l : list A) (n : nat) :
  find_index p l = Ok n ->
  exists x, nth_error l n = Some x /\ p x = true
    /\ forall k y, (k < n)%nat -> nth_error l k = Some y -> p y = false.
Proof.
  revert n. induction l as [|a l IH]; intros n H; simpl in H.
  - discriminate.
  - destruct (p a) eqn:Ea.
    + injection H as <-. exists a. repeat split; auto. intros k y Hk. lia.
    + destruct (find_index p l) as [m|e] eqn:Em; simpl in H; [|discriminate].
      injection H as <-. destruct (IH m eq_refl) as (x & Hx & Hp & Hlt).
      exists x. repeat split; auto.
      intros [|k] y Hk Hy; simpl in Hy.
      * injection Hy as <-. assumption.
      * apply (Hlt k y); [lia | assumption].
Qed.

Lemma find_index_first (l : list A) (n : nat) (x : A) :
  nth_error l n = Some x -> p x = true ->
  (forall k y, (k < n)%nat -> nth_error l k = Some y -> p y = false) ->
  find_index p l = Ok n.
Proof.
  revert n. induction l as [|a l IH]; intros [|n] Hx Hp Hlt; simpl in *;
    try discriminate.
  - injection Hx as ->. rewrite Hp. reflexivity.
  - rewrite (Hlt 0%nat a) by (lia || reflexivity).
    rewrite (IH n Hx Hp); [reflexivity|].
    intros k y Hk Hy. apply (Hlt (S k) y); [lia | assumption].
Qed.

Lemma find_index_none (l : list A) :
  (forall x, In x l -> p x = false) -> find_index p l = Raise ValueError.
Proof.
  induction l as [|a l IH]; intros H; simpl; [reflexivity|].
  rewrite (H a) by (left; reflexivity).
  rewrite IH; [reflexivity|]. intros x Hx. apply H. right. assumption.
Qed.
End Lookup.

(** ** Level resolution *)

Lemma val_in_list_true (val tol : Q) (l : list Q) (idx : nat) :
  val_in_list val l tol = (true, idx) ->
  exists m, nth_error l idx = Some m /\ (Qabs (m - val) <= tol)%Q.
Proof.
  revert idx. induction l as [|m l IH]; intros idx H; cbn [val_in_list] in H.
  - discriminate.
  - destruct (Qle_bool (Qabs (m - val)) tol) eqn:E.
    + injection H as <-. exists m. split; [reflexivity|].
      apply Qle_bool_iff. assumption.
    + destruct (val_in_list val l tol) as [t i] eqn:El.
      injection H as -> <-. apply (IH i eq_refl).
Qed.

Lemma val_in_list_false (val tol : Q) (l : list Q) (idx : nat) :
  val_in_list val l tol = (false, idx) ->
  forall m, In m l -> ~ (Qabs (m - val) <= tol)%Q.
Proof.
  revert idx. induction l as [|a l IH]; intros idx H m Hm; cbn [val_in_list] in H.
  - destruct Hm.
  - destruct (Qle_bool (Qabs (a - val)) tol) eqn:E; [discriminate|].
    destruct (val_in_list val l tol) as [t i] eqn:El.
    injection H as -> <-.
    destruct Hm as [<-|Hm].
    + intros C. apply Qle_bool_iff in C. congruence.
    + apply (IH i eq_refl m Hm).
Qed.

(** C7: [get_level] raises nothing; it returns either a position of the
    magnification table whose entry is within [tol] of the target, or the
    not-found value [None], and the latter only when no entry of the table is
    within [tol]. *)
Theorem get_level_within_tolerance (magnifications : list Q)
    (magnification tol : Q) :
  match get_level magnifications magnification tol with
  | Some idx =>
      exists m, nth_error magnifications idx = Some m
                /\ (Qabs (m - magnification) <= tol)%Q
  | None =>
      forall m, In m magnifications -> ~ (Qabs (m - magnification) <= tol)%Q
  end.
Proof.
  unfold get_level.
  destruct (val_in_list magnification magnifications tol) as [[|] idx] eqn:E;
    simpl.
  - apply (val_in_list_true _ _ _ _ E).
  - apply (val_in_list_false _ _ _ _ E).
Qed.

(** ** The tissue-coverage comparison *)

Lemma Qlt_div_mult (a b c : Q) : (0 < c)%Q -> (a < b / c)%Q -> (a * c < b)%Q.
Proof.
  intros Hc H. rewrite <- (Qdiv_cancel b c Hc).
  apply Qmult_lt_compat_r; assumption.
Qed.

Lemma frac_gt_09_pos (n d : Z) :
  0 < d -> (frac_gt_09 n d = true <-> (9 # 10 < inject_Z n / inject_Z d)%Q).
Proof.
  intros Hd. unfold frac_gt_09. rewrite Z.ltb_lt.
  assert (HdQ : (0 < inject_Z d)%Q).
  { change 0%Q with (inject_Z 0). rewrite <- Zlt_Qlt. assumption. }
  split; intros H.
  - apply Qlt_shift_div_l; [assumption|].
    unfold Qlt, Qmult, inject_Z. cbn [Qnum Qden Pos.mul]. lia.
  - apply Qlt_div_mult in H; [|assumption].
    unfold Qlt, Qmult, inject_Z in H. cbn [Qnum Qden Pos.mul] in H. lia.
Qed.

Lemma py_slice_empty {A : Type} (a : Z) (l : list A) : py_slice a (a + 0) l = [].
Proof.
  unfold py_slice. rewrite Z.add_0_r. rewrite Nat.sub_diag. reflexivity.
Qed.

Lemma np_sum_slice2_zero (m : Raster bool) (i j : Z) :
  np_sum (slice2 m i j 0) = 0.
Proof. unfold slice2. rewrite py_slice_empty. reflexivity. Qed.

(** The comparison of the code is the comparison of the fraction with
    9/10, also for an empty window of side 0. *)
Lemma frac_gt_09_window (m : Raster bool) (i j p : Z) :
  frac_gt_09 (np_sum (slice2 m i j p)) (p ^ 2) = false
  <-> (fraction_true (slice2 m i j p) p <= 9 # 10)%Q.
Proof.
  unfold fraction_true.
  destruct (Z.eq_dec p 0) as [->|Hp].
  - rewrite np_sum_slice2_zero. simpl. split; [intros _; discriminate | reflexivity].
  - assert (Hd : 0 < p ^ 2) by nia.
    pose proof (frac_gt_09_pos (np_sum (slice2 m i j p)) (p ^ 2) Hd) as E.
    split; intros H.
    + apply Qnot_lt_le. intros C. apply E in C. congruence.
    + destruct (frac_gt_09 _ _) eqn:F; [|reflexivity].
      apply Qle_not_lt in H. exfalso. apply H. apply E. reflexivity.
Qed.

Lemma class_c_patch_i_unfold (s : Session) (c : N) (i : nat)
    (pool : list (Z * Z)) (h w : Z) (bg : background.t)
    (window : Raster bool) :
  pool_of s c = Ok pool ->
  nth_error pool i = Some (h, w) ->
  background (self s) = Some bg ->
  window_of s bg h w = Ok window ->
  _class_c_patch_i s c i =
    if negb (frac_gt_09 (np_sum window) (background.patchsize bg ^ 2))
    then Ok (None, set_rejected s (rejected s + 1))
    else annotation_check s c h w
           (read_region_RGB (wsi (self s)) (w, h) (level s) (ps s, ps s))
           (patch_info s c h w).
Proof.
  unfold pool_of, window_of, _class_c_patch_i. intros Hp Hi Hb Hw.
  destruct (list_index N.eqb c (class_list s)) as [idx|e]; [|discriminate].
  simpl in *.
  destruct (getitem (class_seeds s) idx) as [seeds|e]; [|discriminate].
  injection Hp as ->. simpl. unfold getitem at 1. rewrite Hi. simpl.
  rewrite Hb. simpl.
  destruct (level_converter (wsi (self s)) h 0 (background.level bg))
    as [i'|e]; [|discriminate].
  simpl in *.
  destruct (level_converter (wsi (self s)) w 0 (background.level bg))
    as [j'|e]; [|discriminate].
  simpl in *. injection Hw as <-. reflexivity.
Qed.

Lemma window_of_slice s bg h w window :
  window_of s bg h w = Ok window ->
  exists i j, window = slice2 (background.data bg) i j (background.patchsize bg).
Proof.
  unfold window_of. intros H.
  destruct (level_converter _ h _ _) as [i|]; [|discriminate]. simpl in H.
  destruct (level_converter _ w _ _) as [j|]; [|discriminate]. simpl in H.
  injection H as <-. eauto.
Qed.

(** ** The patch extractor *)

Lemma annotation_check_effect (s : Session) (c : N) (h w : Z)
    (patch : Raster RGB) (info : info.t) :
  match annotation_check s c h w patch info with
  | Ok (None, s') => s' = set_rejected s (rejected s + 1)
  | Ok (Some _, s') => s' = s
  | Raise _ => True
  end.
Proof.
  unfold annotation_check.
  destruct (annotation (self s)) as [ann|]; [|reflexivity].
  destruct (annotation_level s) as [lvl|]; simpl; [|exact I].
  destruct (frac_gt_09 _ _); reflexivity.
Qed.

Lemma class_c_patch_i_effect (s : Session) (c : N) (i : nat) :
  match _class_c_patch_i s c i with
  | Ok (None, s') => s' = set_rejected s (rejected s + 1)
  | Ok (Some _, s') => s' = s
  | Raise _ => True
  end.
Proof.
  unfold _class_c_patch_i.
  destruct (list_index N.eqb c (class_list s)) as [idx|]; simpl; [|exact I].
  destruct (getitem (class_seeds s) idx) as [seeds|]; simpl; [|exact I].
  destruct (getitem seeds i) as [[h w]|]; simpl; [|exact I].
  destruct (getattr (background (self s))) as [bg|]; simpl; [|exact I].
  destruct (level_converter _ h _ _) as [i'|]; simpl; [|exact I].
  destruct (level_converter _ w _ _) as [j'|]; simpl; [|exact I].
  destruct (negb _); [reflexivity|].
  apply annotation_check_effect.
Qed.

Lemma prepare_sampling_rejected W g smp m p s g' :
  prepare_sampling W g smp m p = Ok (s, g') -> rejected s = 0.
Proof.
  unfold prepare_sampling.
  destruct (get_level _ _ _) as [lvl|]; [|discriminate].
  destruct (getitem _ lvl) as [dim|]; simpl; [|discriminate].
  destruct (level_converter _ _ _ _) as [pt|]; simpl; [|discriminate].
  destruct (match annotation smp with None => _ | Some _ => _ end)
    as [al|]; simpl; [|discriminate].
  destruct (_get_classes_and_seeds W g smp) as [[[cl cs] g1]|]; simpl;
    [|discriminate].
  intros H. injection H as <- _. reflexivity.
Qed.

Lemma run_calls_rejected (calls : list (N * nat)) (s : Session) :
  rejected (snd (run_calls s calls))
  = rejected s + count_rejections (fst (run_calls s calls)).
Proof.
  revert s. induction calls as [|[c i] calls IH]; intros s; simpl.
  - unfold count_rejections. simpl. lia.
  - pose proof (class_c_patch_i_effect s c i) as E.
    destruct (_class_c_patch_i s c i) as [[[x|] s']|e].
    + subst s'. specialize (IH s).
      destruct (run_calls s calls) as [rs s2]. simpl in *.
      rewrite IH. unfold count_rejections. simpl. reflexivity.
    + subst s'. specialize (IH (set_rejected s (rejected s + 1))).
      destruct (run_calls _ calls) as [rs s2]. simpl in *.
      rewrite IH. unfold count_rejections. simpl filter.
      cbn [List.length]. lia.
    + specialize (IH s).
      destruct (run_calls s calls) as [rs s2]. simpl in *.
      rewrite IH. unfold count_rejections. simpl. reflexivity.
Qed.

(** C10, amended: [prepare_sampling] leaves the rejection counter at 0; a
    call of the patch extractor that returns does so with no patch, having
    increased the counter by exactly 1 and changed nothing else, or with a
    patch, having left the sampler unchanged; a call may also raise, and
    has then changed nothing; hence after any sequence of calls, raising
    ones included, the counter has grown by the number of rejections. *)
Theorem rejection_counter_invariant :
  (forall W g smp magnification patchsize s g',
      prepare_sampling W g smp magnification patchsize = Ok (s, g') ->
      rejected s = 0)
  /\ (forall s c i,
        match _class_c_patch_i s c i with
        | Ok (None, s') =>
            rejected s' = rejected s + 1
            /\ s' = set_rejected s (rejected s + 1)
        | Ok (Some _, s') => rejected s' = rejected s /\ s' = s
        | Raise _ => snd (run_calls s [(c, i)]) = s
        end)
  /\ (forall s calls,
        rejected (snd (run_calls s calls))
        = rejected s + count_rejections (fst (run_calls s calls))).
Proof.
  split; [exact prepare_sampling_rejected|].
  split; [|intros; apply run_calls_rejected].
  intros s c i. pose proof (class_c_patch_i_effect s c i) as E.
  destruct (_class_c_patch_i s c i) as [[[x|] s']|e] eqn:Ec.
  - subst s'. auto.
  - subst s'. auto.
  - cbn [run_calls]. rewrite Ec. reflexivity.
Qed.

(** C6, amended: requesting from the patch extractor an index at or beyond
    the length of class c's seed pool raises [IndexError]; the extractor has
    no pool-exhaustion outcome of its own. *)
Theorem index_beyond_pool_raises (s : Session) (c : N) (i : nat)
    (pool : list (Z * Z)) :
  pool_of s c = Ok pool -> (List.length pool <= i)%nat ->
  _class_c_patch_i s c i = Raise IndexError.
Proof.
  unfold pool_of, _class_c_patch_i. intros Hp Hi.
  destruct (list_index N.eqb c (class_list s)) as [idx|]; [|discriminate].
  simpl in *. rewrite Hp. simpl. unfold getitem.
  apply nth_error_None in Hi. rewrite Hi. reflexivity.
Qed.

(** What the check would do had something assigned the tissue mask, its
    level and [ps_tm] to [self.background]: it converts the seed
    coordinate to the tissue-mask level, takes the window of side [ps_tm]
    of the tissue mask there, and compares the fraction of [true] pixels
    (over the nominal [ps_tm]^2 pixels of the window) with 0.9: at or
    below 0.9 the patch is rejected and the counter incremented; above 0.9
    the patch goes on to the annotation check, and is accepted when there
    is no annotation. *)
Theorem tissue_coverage_check (s : Session) (c : N) (i : nat)
    (pool : list (Z * Z)) (h w i' j' : Z) :
  background (self s) = Some (tissue_background (self s) (ps_tm s)) ->
  pool_of s c = Ok pool ->
  nth_error pool i = Some (h, w) ->
  level_converter (wsi (self s)) h 0 (tissue_mask_level (self s)) = Ok i' ->
  level_converter (wsi (self s)) w 0 (tissue_mask_level (self s)) = Ok j' ->
  let window := slice2 (tissue_mask (self s)) i' j' (ps_tm s) in
  let fraction := fraction_true window (ps_tm s) in
  ((fraction <= 9 # 10)%Q ->
   _class_c_patch_i s c i = Ok (None, set_rejected s (rejected s + 1)))
  /\ (~ (fraction <= 9 # 10)%Q ->
      _class_c_patch_i s c i
      = annotation_check s c h w
          (read_region_RGB (wsi (self s)) (w, h) (level s) (ps s, ps s))
          (patch_info s c h w))
  /\ (annotation (self s) = None ->
      (is_rejection (_class_c_patch_i s c i) <-> (fraction <= 9 # 10)%Q)).
Proof.
  intros Hb Hp Hi Hh Hw window fraction.
  assert (Hwin : window_of s (tissue_background (self s) (ps_tm s)) h w
                 = Ok window).
  { unfold window_of. simpl. rewrite Hh. simpl. rewrite Hw. reflexivity. }
  rewrite (class_c_patch_i_unfold s c i pool h w _ window Hp Hi Hb Hwin).
  simpl background.patchsize.
  pose proof (frac_gt_09_window (tissue_mask (self s)) i' j' (ps_tm s)) as E.
  fold window in E. fold fraction in E.
  destruct (frac_gt_09 (np_sum window) (ps_tm s ^ 2)) eqn:F; simpl.
  - assert (N9 : ~ (fraction <= 9 # 10)%Q).
    { intros C. apply E in C. discriminate. }
    split; [intros C; contradiction|]. split; [reflexivity|].
    intros Ha. unfold annotation_check. rewrite Ha.
    split; [intros [s' C]; discriminate | intros C; contradiction].
  - assert (Y9 : (fraction <= 9 # 10)%Q) by (apply E; reflexivity).
    split; [reflexivity|]. split; [intros C; contradiction|].
    intros _. split; [intros _; assumption|].
    intros _. eexists. reflexivity.
Qed.

(** C5, amended: a patch whose window is exactly 90% foreground is rejected,
    as is one at 89.99%; only a fraction strictly above 90% lets a patch be
    accepted. *)
Theorem tissue_threshold_boundary (s : Session) (c : N) (i : nat)
    (pool : list (Z * Z)) (h w : Z) (bg : background.t)
    (window : Raster bool) :
  pool_of s c = Ok pool ->
  nth_error pool i = Some (h, w) ->
  background (self s) = Some bg ->
  window_of s bg h w = Ok window ->
  let fraction := fraction_true window (background.patchsize bg) in
  ((fraction == 9 # 10)%Q ->
   _class_c_patch_i s c i = Ok (None, set_rejected s (rejected s + 1)))
  /\ ((fraction == 8999 # 10000)%Q ->
      _class_c_patch_i s c i = Ok (None, set_rejected s (rejected s + 1)))
  /\ (forall accepted s',
        _class_c_patch_i s c i = Ok (Some accepted, s') ->
        (9 # 10 < fraction)%Q).
Proof.
  intros Hp Hi Hb Hw fraction.
  rewrite (class_c_patch_i_unfold s c i pool h w bg window Hp Hi Hb Hw).
  destruct (window_of_slice s bg h w window Hw) as (i' & j' & Ew).
  pose proof (frac_gt_09_window (background.data bg) i' j'
                (background.patchsize bg)) as E.
  rewrite <- Ew in E. fold fraction in E.
  destruct (frac_gt_09 (np_sum window) (background.patchsize bg ^ 2)) eqn:F;
    simpl.
  - assert (N9 : (9 # 10 < fraction)%Q).
    { apply Qnot_le_lt. intros C. apply E in C. discriminate. }
    split; [intros C; rewrite C in N9; discriminate|].
    split; [intros C; rewrite C in N9; discriminate|].
    intros; assumption.
  - split; [reflexivity|]. split; [reflexivity|]. intros a s' C. discriminate.
Qed.

(** ** Construction *)

Lemma tuple_eqb_true (t : list Z) (dims : Z * Z) :
  tuple_eqb t dims = true <-> t = [fst dims; snd dims].
Proof.
  destruct dims as [x y]. unfold tuple_eqb, pair_eqb. simpl.
  destruct t as [|a [|b [|c t]]]; try (split; intros; discriminate).
  rewrite andb_true_iff, !Z.eqb_eq. split.
  - intros [-> ->]. reflexivity.
  - intros H. injection H as -> ->. auto.
Qed.

Lemma dtype_eqb_true (a b : dtype) : dtype_eqb a b = true <-> a = b.
Proof. destruct a, b; simpl; split; intros; congruence. Qed.

Lemma cache_hit_Ok (W : World) (slide : OpenSlide) (mags : list Q)
    (path : string) (lvl : nat) (mag : Q) (mask : Raster bool) :
  tissue_mask_cache_hit W slide mags path = Ok (lvl, mag, mask) ->
  array_dtype (np_load W path) = np_bool
  /\ mask = array_bools (np_load W path)
  /\ exists width height,
      rev (array_shape (np_load W path)) = [width; height]
      /\ nth_error (level_dimensions slide) lvl = Some (width, height)
      /\ forall k dims, (k < lvl)%nat ->
           nth_error (level_dimensions slide) k = Some dims ->
           rev (array_shape (np_load W path)) <> [fst dims; snd dims].
Proof.
  unfold tissue_mask_cache_hit. intros H.
  destruct (dtype_eqb _ np_bool) eqn:Ed; simpl in H; [|discriminate].
  apply dtype_eqb_true in Ed.
  destruct (find_index _ (level_dimensions slide)) as [n|] eqn:Ef;
    simpl in H; [|discriminate].
  destruct (getitem mags n) as [m|]; simpl in H; [|discriminate].
  injection H as <- <- <-.
  apply find_index_Ok in Ef. destruct Ef as ([x y] & Hn & Hp & Hlt).
  apply tuple_eqb_true in Hp. simpl in Hp.
  repeat split; auto. exists x, y. repeat split; auto.
  intros k dims Hk Hd C. apply (Hlt k dims Hk) in Hd.
  apply tuple_eqb_true in C. congruence.
Qed.

Lemma cache_hit_raises (W : World) (slide : OpenSlide) (mags : list Q)
    (path : string) :
  array_dtype (np_load W path) <> np_bool
  \/ (forall dims, In dims (level_dimensions slide) ->
        rev (array_shape (np_load W path)) <> [fst dims; snd dims]) ->
  raises (tissue_mask_cache_hit W slide mags path).
Proof.
  unfold tissue_mask_cache_hit. intros H.
  destruct (dtype_eqb _ np_bool) eqn:Ed; simpl; [|exact I].
  apply dtype_eqb_true in Ed. destruct H as [H|H]; [contradiction|].
  rewrite find_index_none; [exact I|].
  intros dims Hd. destruct (tuple_eqb _ dims) eqn:Et; [|reflexivity].
  apply tuple_eqb_true in Et. apply H in Hd. contradiction.
Qed.

Lemma raises_bind {A B : Type} (r : result A) (k : A -> result B) :
  raises r -> raises (bind r k).
Proof. destruct r; simpl; [intros [] | auto]. Qed.

(** C8: when a cached mask is found, [__init__] succeeds only if the loaded
    array is boolean and its reversed shape equals an entry of the slide's
    level dimensions, the first such level being recorded as
    [tissue_mask_level]; if the array is not boolean or no level matches,
    [__init__] raises. *)
Theorem cache_hit_validation (W : World) (wsi_file : string)
    (level0 : level0_arg) (tissue_mask_dir : string)
    (annotation_dir : option string) (slide : OpenSlide) (path : string) :
  OpenSlide_open W wsi_file = Ok slide ->
  string_in_directory W (path_stem W wsi_file) tissue_mask_dir
  = (true, path) ->
  let loaded := np_load W path in
  let init := __init__ W wsi_file level0 tissue_mask_dir annotation_dir in
  (forall smp,
      init = Ok smp ->
      array_dtype loaded = np_bool
      /\ tissue_mask smp = array_bools loaded
      /\ exists width height,
          rev (array_shape loaded) = [width; height]
          /\ nth_error (level_dimensions slide) (tissue_mask_level smp)
             = Some (width, height)
          /\ forall k dims, (k < tissue_mask_level smp)%nat ->
               nth_error (level_dimensions slide) k = Some dims ->
               rev (array_shape loaded) <> [fst dims; snd dims])
  /\ (array_dtype loaded <> np_bool
      \/ (forall dims, In dims (level_dimensions slide) ->
            rev (array_shape loaded) <> [fst dims; snd dims]) ->
      raises init).
Proof.
  intros Ho Hs loaded init. unfold init, __init__. rewrite Ho. simpl.
  destruct (match level0 with infer => _ | given _ => _ end) as [l0|];
    simpl; [|split; [discriminate | intros; exact I]].
  destruct (map_result (true_div l0) (level_downsamples slide)) as [mags|];
    simpl; [|split; [discriminate | intros; exact I]].
  rewrite Hs. simpl.
  split.
  - intros smp H.
    destruct (tissue_mask_cache_hit W slide mags path)
      as [[[lvl mag] mask]|] eqn:Eh; simpl in H; [|discriminate].
    destruct (load_annotation _ _ _) as [ann|]; simpl in H; [|discriminate].
    injection H as <-. simpl.
    destruct (cache_hit_Ok _ _ _ _ _ _ _ Eh) as (Hd & Hm & Hl).
    auto.
  - intros H. apply raises_bind. apply cache_hit_raises. assumption.
Qed.

(** ** A sampler without annotation *)

Lemma init_annotation_dir_without_file (W : World) (wsi_file : string)
    (level0 : level0_arg) (tissue_mask_dir dir : string) :
  fst (string_in_directory W (path_stem W wsi_file) dir) = false ->
  __init__ W wsi_file level0 tissue_mask_dir (Some dir)
  = map_ok (fun smp => set_annotation_dir smp (Some dir))
           (__init__ W wsi_file level0 tissue_mask_dir None).
Proof.
  intros Hf. unfold __init__.
  destruct (OpenSlide_open W wsi_file) as [slide|]; simpl; [|reflexivity].
  destruct (match level0 with infer => _ | given _ => _ end) as [l0|];
    simpl; [|reflexivity].
  destruct (map_result (true_div l0) (level_downsamples slide)) as [mags|];
    simpl; [|reflexivity].
  destruct (string_in_directory W (path_stem W wsi_file) tissue_mask_dir)
    as [truth path].
  destruct (if negb truth then _ else _) as [[[lvl mag] mask]|]; simpl;
    [|reflexivity].
  destruct (string_in_directory W (path_stem W wsi_file) dir) as [t p].
  simpl in Hf. subst t. reflexivity.
Qed.

Lemma init_without_annotation_dir (W : World) (wsi_file : string)
    (level0 : level0_arg) (tissue_mask_dir : string) (smp : Sampler) :
  __init__ W wsi_file level0 tissue_mask_dir None = Ok smp ->
  annotation smp = None.
Proof.
  unfold __init__.
  destruct (OpenSlide_open W wsi_file) as [slide|]; simpl; [|discriminate].
  destruct (match level0 with infer => _ | given _ => _ end) as [l0|];
    simpl; [|discriminate].
  destruct (map_result (true_div l0) (level_downsamples slide)) as [mags|];
    simpl; [|discriminate].
  destruct (string_in_directory W (path_stem W wsi_file) tissue_mask_dir)
    as [truth path].
  destruct (if negb truth then _ else _) as [[[lvl mag] mask]|]; simpl;
    [|discriminate].
  intros H. injection H as <-. reflexivity.
Qed.

Lemma classes_without_annotation (W : World) (g : RandomState)
    (smp : Sampler) cl cs g' :
  annotation smp = None ->
  _get_classes_and_seeds W g smp = Ok (cl, cs, g') -> cl = [0%N].
Proof.
  unfold _get_classes_and_seeds. intros Ha.
  destruct (getitem _ _) as [f|]; simpl; [|discriminate].
  destruct (shuffle W g _) as [co g1]. rewrite Ha.
  intros H. injection H as <- _ _. reflexivity.
Qed.

Lemma prepare_without_annotation (W : World) (g : RandomState)
    (smp : Sampler) (m : Q) (p : Z) (s : Session) (g' : RandomState) :
  annotation smp = None ->
  prepare_sampling W g smp m p = Ok (s, g') ->
  class_list s = [0%N] /\ annotation_level s = None /\ self s = smp.
Proof.
  unfold prepare_sampling. intros Ha.
  destruct (get_level _ _ _) as [lvl|]; [|discriminate].
  destruct (getitem _ lvl) as [dim|]; simpl; [|discriminate].
  destruct (level_converter _ _ _ _) as [pt|]; simpl; [|discriminate].
  rewrite Ha. simpl.
  destruct (_get_classes_and_seeds W g smp) as [[[cl cs] g1]|] eqn:E; simpl;
    [|discriminate].
  intros H. injection H as <- _. simpl.
  rewrite (classes_without_annotation W g smp cl cs g1 Ha E). auto.
Qed.

Lemma annotation_check_without_annotation (s : Session) (c : N) (h w : Z)
    (patch : Raster RGB) (info : info.t) :
  annotation (self s) = None ->
  annotation_check s c h w patch info = Ok (Some (patch, info), s).
Proof. intros Ha. unfold annotation_check. rewrite Ha. reflexivity. Qed.

(** No method reads [annotation_dir] after [__init__]. *)

Lemma prepare_sampling_annotation_dir (W : World) (g : RandomState)
    (smp : Sampler) (d : option string) (m : Q) (p : Z) :
  prepare_sampling W g (set_annotation_dir smp d) m p
  = map_ok (fun sg : Session * RandomState =>
              (session_set_annotation_dir (fst sg) d, snd sg))
           (prepare_sampling W g smp m p).
Proof.
  unfold prepare_sampling, _get_classes_and_seeds. simpl.
  destruct (get_level _ _ _) as [lvl|]; [|reflexivity].
  destruct (getitem _ lvl) as [dim|]; simpl; [|reflexivity].
  destruct (level_converter _ _ _ _) as [pt|]; simpl; [|reflexivity].
  destruct (match annotation smp with None => _ | Some _ => _ end)
    as [al|]; simpl; [|reflexivity].
  destruct (getitem _ _) as [f|]; simpl; [|reflexivity].
  destruct (shuffle W g _) as [co g1].
  destruct (match annotation smp with None => _ | Some _ => _ end)
    as [[[cl cs] g2]|]; simpl; reflexivity.
Qed.

Lemma class_c_patch_i_annotation_dir (s : Session) (d : option string)
    (c : N) (i : nat) :
  _class_c_patch_i (session_set_annotation_dir s d) c i
  = map_state (fun s' => session_set_annotation_dir s' d)
              (_class_c_patch_i s c i).
Proof.
  unfold _class_c_patch_i, annotation_check. simpl.
  destruct (list_index N.eqb c (class_list s)) as [idx|]; simpl; [|reflexivity].
  destruct (getitem (class_seeds s) idx) as [seeds|]; simpl; [|reflexivity].
  destruct (getitem seeds i) as [[h w]|]; simpl; [|reflexivity].
  destruct (getattr (background (self s))) as [bg|]; simpl; [|reflexivity].
  destruct (level_converter _ h _ _) as [i'|]; simpl; [|reflexivity].
  destruct (level_converter _ w _ _) as [j'|]; simpl; [|reflexivity].
  destruct (negb _); [reflexivity|].
  destruct (annotation (self s)) as [ann|]; [|reflexivity].
  destruct (annotation_level s) as [lvl|]; simpl; [|reflexivity].
  destruct (frac_gt_09 _ _); reflexivity.
Qed.

Lemma sample_seeds_annotation_dir (cap : Z) (c : N) (d : option string)
    (seeds : list (Z * Z)) (j : nat) (s : Session) (frame : list info.t) :
  sample_seeds cap c seeds j (session_set_annotation_dir s d) frame
  = map_state (fun s' => session_set_annotation_dir s' d)
              (sample_seeds cap c seeds j s frame).
Proof.
  revert j s frame. induction seeds as [|x seeds IH]; intros j s frame; simpl.
  - reflexivity.
  - rewrite class_c_patch_i_annotation_dir.
    destruct (_class_c_patch_i s c j) as [[r s']|]; simpl; [|reflexivity].
    destruct (Z.of_nat j >=? cap - 1); [reflexivity|]. apply IH.
Qed.

Lemma sample_classes_annotation_dir (cap : Z) (d : option string)
    (classes : list N) (i : nat) (s : Session) (frame : list info.t) :
  sample_classes cap classes i (session_set_annotation_dir s d) frame
  = map_state (fun s' => session_set_annotation_dir s' d)
              (sample_classes cap classes i s frame).
Proof.
  revert i s frame. induction classes as [|c classes IH]; intros i s frame;
    simpl.
  - reflexivity.
  - destruct (getitem (class_seeds s) i) as [seeds|]; simpl; [|reflexivity].
    rewrite sample_seeds_annotation_dir.
    destruct (sample_seeds cap c seeds 0 s frame) as [[f s']|]; simpl;
      [|reflexivity].
    apply IH.
Qed.

(** C9: if the annotation directory holds no file for the slide, [__init__]
    builds the sampler it builds without annotation directory, up to the
    stored directory name: its annotation is absent, its class list after
    [prepare_sampling] is [0], its annotation check accepts every patch
    unexamined, and no later method reads the directory name. *)
Theorem annotation_dir_without_file (W : World) (wsi_file : string)
    (level0 : level0_arg) (tissue_mask_dir dir : string) :
  fst (string_in_directory W (path_stem W wsi_file) dir) = false ->
  let with_dir := __init__ W wsi_file level0 tissue_mask_dir (Some dir) in
  let without := __init__ W wsi_file level0 tissue_mask_dir None in
  with_dir = map_ok (fun smp => set_annotation_dir smp (Some dir)) without
  /\ (forall smp,
        with_dir = Ok smp ->
        annotation smp = None
        /\ (forall g magnification patchsize s g',
              prepare_sampling W g smp magnification patchsize = Ok (s, g') ->
              class_list s = [0%N])
        /\ (forall s c h w patch info,
              annotation (self s) = annotation smp ->
              annotation_check s c h w patch info
              = Ok (Some (patch, info), s)))
  /\ (forall smp d g magnification patchsize,
        prepare_sampling W g (set_annotation_dir smp d) magnification
                         patchsize
        = map_ok (fun sg : Session * RandomState =>
                    (session_set_annotation_dir (fst sg) d, snd sg))
                 (prepare_sampling W g smp magnification patchsize))
  /\ (forall s d c i,
        _class_c_patch_i (session_set_annotation_dir s d) c i
        = map_state (fun s' => session_set_annotation_dir s' d)
                    (_class_c_patch_i s c i))
  /\ (forall s d max_per_class,
        sample_patches (session_set_annotation_dir s d) max_per_class
        = map_state (fun s' => session_set_annotation_dir s' d)
                    (sample_patches s max_per_class)).
Proof.
  intros Hf with_dir without.
  pose proof (init_annotation_dir_without_file W wsi_file level0
                tissue_mask_dir dir Hf) as E.
  fold with_dir without in E.
  split; [exact E|]. split.
  - intros smp Hs. rewrite E in Hs.
    destruct without as [smp0|] eqn:E0; simpl in Hs; [|discriminate].
    injection Hs as <-.
    assert (Ha : annotation (set_annotation_dir smp0 (Some dir)) = None).
    { simpl. apply (init_without_annotation_dir _ _ _ _ _ E0). }
    split; [exact Ha|]. split.
    + intros g m p s g' Hp.
      apply (prepare_without_annotation W g _ m p s g' Ha Hp).
    + intros s c h w patch info Hs.
      apply annotation_check_without_annotation. rewrite Hs. exact Ha.
  - split; [intros; apply prepare_sampling_annotation_dir|].
    split; [intros; apply class_c_patch_i_annotation_dir|].
    intros s d cap. unfold sample_patches. simpl class_list.
    apply sample_classes_annotation_dir.
Qed.

(** ** The sampling loop *)

Lemma set_rejected_same (s : Session) : set_rejected s (rejected s) = s.
Proof. destruct s. reflexivity. Qed.

Lemma set_rejected_twice (s : Session) (a b : Z) :
  set_rejected (set_rejected s a) b = set_rejected s b.
Proof. reflexivity. Qed.

Lemma class_c_patch_i_outcome (s : Session) (c : N) (j : nat) :
  _class_c_patch_i s c j =
    match outcome s c j with
    | Ok None => Ok (None, set_rejected s (rejected s + 1))
    | Ok (Some x) => Ok (Some x, s)
    | Raise e => Raise e
    end.
Proof.
  unfold outcome. pose proof (class_c_patch_i_effect s c j) as E.
  destruct (_class_c_patch_i s c j) as [[[x|] s']|e]; subst; reflexivity.
Qed.

Lemma outcome_set_rejected (s : Session) (r : Z) (c : N) (j : nat) :
  outcome (set_rejected s r) c j = outcome s c j.
Proof.
  unfold outcome, _class_c_patch_i, annotation_check. simpl.
  destruct (list_index N.eqb c (class_list s)) as [idx|]; simpl; [|reflexivity].
  destruct (getitem (class_seeds s) idx) as [seeds|]; simpl; [|reflexivity].
  destruct (getitem seeds j) as [[h w]|]; simpl; [|reflexivity].
  destruct (getattr (background (self s))) as [bg|]; simpl; [|reflexivity].
  destruct (level_converter _ h _ _) as [i'|]; simpl; [|reflexivity].
  destruct (level_converter _ w _ _) as [j'|]; simpl; [|reflexivity].
  destruct (negb _); [reflexivity|].
  destruct (annotation (self s)) as [ann|]; [|reflexivity].
  destruct (annotation_level s) as [lvl|]; simpl; [|reflexivity].
  destruct (frac_gt_09 _ _); reflexivity.
Qed.

Lemma accepted_from_set_rejected (s : Session) (r : Z) (c : N) (n j : nat) :
  accepted_from (set_rejected s r) c j n = accepted_from s c j n.
Proof.
  revert j. induction n as [|n IH]; intros j; simpl; [reflexivity|].
  rewrite outcome_set_rejected, IH. reflexivity.
Qed.

Lemma rejected_from_set_rejected (s : Session) (r : Z) (c : N) (n j : nat) :
  rejected_from (set_rejected s r) c j n = rejected_from s c j n.
Proof.
  revert j. induction n as [|n IH]; intros j; simpl; [reflexivity|].
  rewrite outcome_set_rejected, IH. reflexivity.
Qed.

Lemma pool_of_set_rejected (s : Session) (r : Z) (c : N) :
  pool_of (set_rejected s r) c = pool_of s c.
Proof. reflexivity. Qed.

(** Each seed is either accepted or rejected when no call raises. *)
Lemma accepted_rejected_total (s : Session) (c : N) (n j : nat) :
  (forall k, (j <= k < j + n)%nat -> exists o, outcome s c k = Ok o) ->
  Z.of_nat (List.length (accepted_from s c j n)) + rejected_from s c j n
  = Z.of_nat n.
Proof.
  revert j. induction n as [|n IH]; intros j H; [reflexivity|].
  cbn [accepted_from rejected_from].
  destruct (H j) as [o Ho]; [lia|]. rewrite Ho.
  assert (IH' : Z.of_nat (List.length (accepted_from s c (S j) n))
                + rejected_from s c (S j) n = Z.of_nat n).
  { apply IH. intros k Hk. apply H. lia. }
  rewrite length_app, Nat2Z.inj_add, Nat2Z.inj_succ.
  destruct o as [[x i]|]; cbn [List.length]; lia.
Qed.

Lemma accepted_from_length (s : Session) (c : N) (n j : nat) :
  (List.length (accepted_from s c j n) <= n)%nat.
Proof.
  revert j. induction n as [|n IH]; intros j; simpl; [lia|].
  rewrite length_app. specialize (IH (S j)).
  destruct (outcome s c j) as [[[x i]|]|]; simpl; lia.
Qed.

Lemma sample_seeds_spec (cap : Z) (c : N) (seeds : list (Z * Z)) :
  forall (j : nat) (s : Session) (frame : list info.t),
    Z.of_nat j <= cap - 1 ->
    (forall k, (j <= k < j + List.length seeds)%nat ->
               exists o, outcome s c k = Ok o) ->
    let n := Nat.min (Z.to_nat (cap - Z.of_nat j)) (List.length seeds) in
    sample_seeds cap c seeds j s frame
    = Ok (frame ++ accepted_from s c j n,
          set_rejected s (rejected s + rejected_from s c j n)).
Proof.
  induction seeds as [|x seeds IH]; intros j s frame Hj Hok n.
  - unfold n. rewrite Nat.min_0_r. simpl.
    rewrite app_nil_r, Z.add_0_r, set_rejected_same. reflexivity.
  - assert (En : n = S (Nat.min (Z.to_nat (cap - Z.of_nat (S j)))
                                (List.length seeds))).
    { unfold n. cbn [List.length].
      replace (Z.to_nat (cap - Z.of_nat j))
        with (S (Z.to_nat (cap - Z.of_nat (S j)))) by lia.
      reflexivity. }
    rewrite En. clear En n.
    set (n' := Nat.min (Z.to_nat (cap - Z.of_nat (S j))) (List.length seeds)).
    cbn [sample_seeds accepted_from rejected_from].
    rewrite class_c_patch_i_outcome.
    destruct (Hok j) as [o Ho]; [cbn [List.length]; lia|]. rewrite Ho.
    destruct (Z.of_nat j >=? cap - 1) eqn:Eb.
    + assert (n' = 0%nat) by (unfold n'; lia).
      rewrite H. cbn [accepted_from rejected_from].
      destruct o as [[p i]|]; simpl.
      * rewrite Z.add_0_r, set_rejected_same. reflexivity.
      * rewrite app_nil_r. reflexivity.
    + assert (Hj' : Z.of_nat (S j) <= cap - 1) by lia.
      destruct o as [[p i]|]; cbn -[Z.add].
      * rewrite (IH (S j) s (frame ++ [i]) Hj').
        -- fold n'. rewrite <- app_assoc. reflexivity.
        -- intros k Hk. apply Hok. cbn [List.length]. lia.
      * rewrite (IH (S j) (set_rejected s (rejected s + 1)) frame Hj').
        -- fold n'. rewrite accepted_from_set_rejected,
             rejected_from_set_rejected.
           change (rejected (set_rejected s (rejected s + 1)))
             with (rejected s + 1).
           rewrite set_rejected_twice.
           f_equal. f_equal. f_equal. lia.
        -- intros k Hk. rewrite outcome_set_rejected. apply Hok.
           cbn [List.length]. lia.
Qed.

Lemma true_div_nonzero (a b : Q) : ~ (b == 0)%Q -> true_div a b = Ok (a / b)%Q.
Proof.
  intros H. unfold true_div. destruct (Qeq_bool b 0) eqn:E; [|reflexivity].
  apply Qeq_bool_eq in E. contradiction.
Qed.

Lemma annotation_check_defined (s : Session) (c : N) (h w : Z)
    (patch : Raster RGB) (info : info.t) :
  (annotation (self s) <> None -> annotation_level s <> None) ->
  exists o s', annotation_check s c h w patch info = Ok (o, s').
Proof.
  intros H. unfold annotation_check.
  destruct (annotation (self s)) as [ann|]; [|eauto].
  destruct (annotation_level s) as [lvl|]; [|exfalso; apply H; congruence].
  simpl. destruct (frac_gt_09 _ _); eauto.
Qed.

Lemma outcome_defined (s : Session) (c : N) (pool : list (Z * Z)) (k : nat) :
  ready s -> pool_of s c = Ok pool -> (k < List.length pool)%nat ->
  exists o, outcome s c k = Ok o.
Proof.
  intros (_ & _ & (bg & d0 & dl & Hb & H0 & Hl & Hnz) & Ha) Hp Hk.
  unfold outcome, _class_c_patch_i. unfold pool_of in Hp.
  destruct (list_index N.eqb c (class_list s)) as [idx|]; [|discriminate].
  cbn [bind] in Hp |- *. rewrite Hp. cbn [bind].
  destruct (nth_error pool k) as [[h w]|] eqn:En;
    [|apply nth_error_None in En; lia].
  unfold getitem at 1. rewrite En. cbn [bind]. rewrite Hb. cbn [bind getattr].
  unfold level_converter, getitem. rewrite H0, Hl. cbn [bind].
  rewrite !true_div_nonzero by assumption. cbn [bind].
  destruct (negb _); [eauto|].
  destruct (annotation_check_defined s c h w
              (read_region_RGB (wsi (self s)) (w, h) (level s) (ps s, ps s))
              (patch_info s c h w) Ha) as (o & s' & E).
  rewrite E. eauto.
Qed.

Lemma outcome_class (s : Session) (c : N) (j : nat) (p : Raster RGB)
    (i : info.t) :
  outcome s c j = Ok (Some (p, i)) -> info.class i = c.
Proof.
  unfold outcome, _class_c_patch_i, annotation_check.
  destruct (list_index N.eqb c (class_list s)) as [idx|]; simpl; [|discriminate].
  destruct (getitem (class_seeds s) idx) as [seeds|]; simpl; [|discriminate].
  destruct (getitem seeds j) as [[h w]|]; simpl; [|discriminate].
  destruct (getattr (background (self s))) as [bg|]; simpl; [|discriminate].
  destruct (level_converter _ h _ _) as [i'|]; simpl; [|discriminate].
  destruct (level_converter _ w _ _) as [j'|]; simpl; [|discriminate].
  destruct (negb _); [discriminate|].
  destruct (annotation (self s)) as [ann|].
  - destruct (annotation_level s) as [lvl|]; simpl; [|discriminate].
    destruct (frac_gt_09 _ _); [discriminate|].
    intros H. injection H as _ <-. reflexivity.
  - intros H. injection H as _ <-. reflexivity.
Qed.

Lemma accepted_from_class (s : Session) (c : N) (n j : nat) (r : info.t) :
  In r (accepted_from s c j n) -> info.class r = c.
Proof.
  revert j. induction n as [|n IH]; intros j; simpl; [intros []|].
  rewrite in_app_iff. intros [H|H]; [|apply (IH _ H)].
  destruct (outcome s c j) as [[[p i]|]|] eqn:E; simpl in H; try contradiction.
  destruct H as [<-|[]]. apply (outcome_class s c j p i E).
Qed.

Lemma accepted_of_class (s : Session) (cap : Z) (c : N) (r : info.t) :
  In r (accepted_of s cap c) -> info.class r = c.
Proof.
  unfold accepted_of. destruct (pool_of s c) as [pool|]; [|intros []].
  apply accepted_from_class.
Qed.

Lemma accepted_of_set_rejected (s : Session) (r cap : Z) (c : N) :
  accepted_of (set_rejected s r) cap c = accepted_of s cap c.
Proof.
  unfold accepted_of. rewrite pool_of_set_rejected.
  destruct (pool_of s c); [apply accepted_from_set_rejected | reflexivity].
Qed.

Lemma rejected_of_set_rejected (s : Session) (r cap : Z) (c : N) :
  rejected_of (set_rejected s r) cap c = rejected_of s cap c.
Proof.
  unfold rejected_of. rewrite pool_of_set_rejected.
  destruct (pool_of s c); [apply rejected_from_set_rejected | reflexivity].
Qed.

Lemma sample_classes_spec (cap : Z) (classes : list N) :
  1 <= cap ->
  forall (i : nat) (s : Session) (frame : list info.t),
    (forall c pool k, pool_of s c = Ok pool -> (k < List.length pool)%nat ->
                      exists o, outcome s c k = Ok o) ->
    (forall k c, nth_error classes k = Some c ->
                 exists pool, nth_error (class_seeds s) (i + k) = Some pool
                              /\ pool_of s c = Ok pool) ->
    sample_classes cap classes i s frame
    = Ok (frame ++ flat_map (accepted_of s cap) classes,
          set_rejected s
            (rejected s + total (map (rejected_of s cap) classes))).
Proof.
  intros Hcap. induction classes as [|c classes IH]; intros i s frame Hout Hp.
  - simpl. rewrite app_nil_r, Z.add_0_r, set_rejected_same. reflexivity.
  - destruct (Hp 0%nat c eq_refl) as (pool & Hs & Hc).
    rewrite Nat.add_0_r in Hs.
    cbn [sample_classes flat_map map total fold_right].
    unfold getitem. rewrite Hs. cbn [bind].
    rewrite (sample_seeds_spec cap c pool 0 s frame); [|simpl; lia|].
    2:{ intros k Hk. apply (Hout c pool k Hc). lia. }
    cbn [bind]. rewrite Z.sub_0_r. fold (attempted cap pool).
    rewrite IH.
    + unfold accepted_of at 2, rejected_of at 2. rewrite Hc.
      change (rejected (set_rejected s
               (rejected s + rejected_from s c 0 (attempted cap pool))))
        with (rejected s + rejected_from s c 0 (attempted cap pool)).
      rewrite set_rejected_twice, <- app_assoc.
      rewrite (flat_map_ext _ _
                 (fun a => accepted_of_set_rejected s _ cap a)).
      rewrite (map_ext _ _ (fun a => rejected_of_set_rejected s _ cap a)).
      rewrite <- Z.add_assoc. reflexivity.
    + intros c' pool' k. rewrite pool_of_set_rejected, outcome_set_rejected.
      apply Hout.
    + intros k c' Hk. destruct (Hp (S k) c' Hk) as (pool' & Hs' & Hc').
      exists pool'. split; [|exact Hc'].
      rewrite <- Hs'. f_equal. lia.
Qed.

Lemma list_index_NoDup (l : list N) (k : nat) (c : N) :
  NoDup l -> nth_error l k = Some c -> list_index N.eqb c l = Ok k.
Proof.
  intros Hnd Hk. unfold list_index.
  apply (find_index_first _ l k c Hk); [apply N.eqb_refl|].
  intros k' y Hlt Hy. apply N.eqb_neq. intros ->.
  rewrite NoDup_nth_error in Hnd.
  assert (k' = k); [|lia].
  apply Hnd; [apply nth_error_Some; congruence | congruence].
Qed.

Lemma ready_pools (s : Session) (k : nat) (c : N) :
  ready s -> nth_error (class_list s) k = Some c ->
  exists pool, nth_error (class_seeds s) (0 + k) = Some pool
               /\ pool_of s c = Ok pool.
Proof.
  intros (Hnd & Hlen & _) Hk.
  assert (Hlt : (k < List.length (class_seeds s))%nat).
  { rewrite <- Hlen. apply nth_error_Some. congruence. }
  destruct (nth_error (class_seeds s) k) as [pool|] eqn:E;
    [|apply nth_error_None in E; lia].
  exists pool. split; [exact E|]. unfold pool_of.
  rewrite (list_index_NoDup _ k c Hnd Hk). simpl. unfold getitem.
  rewrite E. reflexivity.
Qed.

Lemma filter_flat_map_class (f : N -> list info.t) (l : list N) (c : N) :
  (forall c' r, In r (f c') -> info.class r = c') ->
  NoDup l -> In c l ->
  filter (fun r => N.eqb (info.class r) c) (flat_map f l) = f c.
Proof.
  intros Hf.
  assert (Hsame : forall c', filter (fun r => N.eqb (info.class r) c') (f c')
                             = f c').
  { intros c'. apply forallb_filter_id. apply forallb_forall.
    intros r Hr. apply N.eqb_eq. apply (Hf c' r Hr). }
  assert (Hother : forall c', c' <> c ->
            filter (fun r => N.eqb (info.class r) c) (f c') = []).
  { intros c' Hne.
    destruct (filter _ (f c')) as [|r rest] eqn:E; [reflexivity|].
    assert (Hr : In r (filter (fun r => N.eqb (info.class r) c) (f c')))
      by (rewrite E; left; reflexivity).
    apply filter_In in Hr. destruct Hr as [Hr He].
    apply N.eqb_eq in He. apply Hf in Hr. congruence. }
  induction l as [|a l IH]; intros Hnd Hin; [destruct Hin|].
  inversion Hnd as [|? ? Hna Hnd']; subst.
  simpl. rewrite filter_app.
  destruct (N.eq_dec a c) as [->|Hne].
  - rewrite Hsame.
    assert (E : filter (fun r => N.eqb (info.class r) c) (flat_map f l) = []).
    { clear IH Hin Hnd Hnd'. induction l as [|b l IHl]; [reflexivity|].
      simpl. rewrite filter_app, Hother, IHl; [reflexivity| |].
      - intros C. apply Hna. right. exact C.
      - intros ->. apply Hna. left. reflexivity. }
    rewrite E, app_nil_r. reflexivity.
  - rewrite (Hother a Hne). simpl. apply IH; [assumption|].
    destruct Hin as [->|Hin]; [contradiction | assumption].
Qed.

Lemma attempted_le_cap (cap : Z) (pool : list (Z * Z)) :
  1 <= cap -> Z.of_nat (attempted cap pool) <= cap.
Proof. unfold attempted. lia. Qed.

(** C1, as stated, fails: on the notched slide with cap 2 the loop tries the
    first two of the eleven seeds, the first is rejected and the second
    accepted, and it stops with one accepted patch, although the seed at
    position 3 would have been accepted. *)
Lemma cap_not_filled :
  exists frame s',
    sample_patches notch_session 2 = Ok (frame, s')
    /\ List.length (filter (fun r => N.eqb (info.class r) 0) frame) = 1%nat
    /\ rejected notch_session = 0
    /\ rejected s' = 1
    /\ (exists pool, pool_of notch_session 0 = Ok pool
                     /\ List.length pool = 11%nat)
    /\ (exists accepted, outcome notch_session 0 3 = Ok (Some accepted)).
Proof.
  eexists. eexists. split; [vm_compute; reflexivity|].
  split; [reflexivity|]. split; [reflexivity|]. split; [reflexivity|].
  split; eexists; vm_compute; [split|]; reflexivity.
Qed.

Lemma notch_session_ready : ready notch_session.
Proof.
  unfold ready. split; [|split; [reflexivity|split]].
  - repeat constructor. intros [].
  - eexists _, _, _. repeat split; try reflexivity. intros H. discriminate H.
  - intros H. exfalso. apply H. reflexivity.
Qed.

(** ** Seed generation *)

Lemma insert_unique_In (x y : N) (l : list N) :
  In y (insert_unique x l) <-> y = x \/ In y l.
Proof.
  induction l as [|a l IH]; simpl.
  - intuition.
  - destruct (N.compare_spec x a) as [E|E|E]; simpl.
    + subst a. intuition.
    + intuition.
    + rewrite IH. intuition.
Qed.

Lemma insert_unique_sorted (x : N) (l : list N) :
  StronglySorted N.lt l -> StronglySorted N.lt (insert_unique x l).
Proof.
  induction 1 as [|a l Hs IH Ha]; simpl.
  - repeat constructor.
  - destruct (N.compare_spec x a) as [E|E|E].
    + constructor; assumption.
    + constructor; [constructor; assumption|].
      constructor; [assumption|].
      rewrite Forall_forall in Ha |- *. intros z Hz.
      apply N.lt_trans with a; auto.
    + constructor; [assumption|].
      rewrite Forall_forall in Ha |- *. intros z Hz.
      apply insert_unique_In in Hz. destruct Hz as [->|Hz]; auto.
Qed.

Lemma np_unique_In (a : Raster N) (y : N) :
  In y (np_unique a) <-> In y (concat a).
Proof.
  unfold np_unique. induction (concat a) as [|x l IH]; simpl.
  - reflexivity.
  - rewrite insert_unique_In, IH. intuition.
Qed.

Lemma np_unique_sorted (a : Raster N) : StronglySorted N.lt (np_unique a).
Proof.
  unfold np_unique. induction (concat a) as [|x l IH]; simpl.
  - constructor.
  - apply insert_unique_sorted. assumption.
Qed.

(** An ascending list of labels that holds 0 starts with it. *)
Lemma sorted_with_zero (l : list N) :
  StronglySorted N.lt l -> In 0%N l ->
  exists t, l = 0%N :: t /\ StronglySorted N.lt t
            /\ forall y, In y t <-> y <> 0%N /\ In y l.
Proof.
  intros Hs H0. destruct Hs as [|a l Hs Ha]; [destruct H0|].
  rewrite Forall_forall in Ha.
  assert (a = 0%N) as ->.
  { destruct H0 as [E|H0]; [assumption|]. apply Ha in H0. lia. }
  exists l. split; [reflexivity|]. split; [assumption|].
  intros y. split.
  - intros Hy. split; [|right; assumption]. apply Ha in Hy. lia.
  - intros [Hy [E|Hin]]; [congruence | assumption].
Qed.

Lemma row_positions_length {A : Type} (p : A -> bool) (row : list A)
    (r c : nat) :
  List.length (row_positions p row r c) = List.length (filter p row).
Proof.
  revert c. induction row as [|a row IH]; intros c; simpl; [reflexivity|].
  destruct (p a); simpl; rewrite IH; reflexivity.
Qed.

(** One position per selected pixel. *)
Lemma np_nonzero_length {A : Type} (p : A -> bool) (m : Raster A) :
  List.length (np_nonzero p m) = List.length (filter p (concat m)).
Proof.
  unfold np_nonzero. generalize 0%nat.
  induction m as [|row m IH]; intros r; simpl; [reflexivity|].
  rewrite length_app, filter_app, length_app, row_positions_length, IH.
  reflexivity.
Qed.

Lemma row_positions_In {A : Type} (p : A -> bool) (row : list A)
    (r c r' k : nat) :
  In (r', k) (row_positions p row r c)
  <-> r' = r /\ (c <= k)%nat
      /\ exists a, nth_error row (k - c) = Some a /\ p a = true.
Proof.
  revert c. induction row as [|a row IH]; intros c; simpl.
  - split; [intros [] | intros (_ & _ & x & H & _)].
    destruct (k - c)%nat; discriminate.
  - assert (Hrest : In (r', k) (row_positions p row r (S c))
              <-> r' = r /\ (c < k)%nat
                  /\ exists x, nth_error (a :: row) (k - c) = Some x
                               /\ p x = true).
    { rewrite IH. split.
      - intros (-> & Hk & x & Hx & Hp). repeat split; [lia|].
        exists x. split; [|assumption].
        replace (k - c)%nat with (S (k - S c)) by lia. exact Hx.
      - intros (-> & Hk & x & Hx & Hp). repeat split; [lia|].
        exists x. split; [|assumption].
        replace (k - c)%nat with (S (k - S c)) in Hx by lia. exact Hx. }
    destruct (p a) eqn:Ea; simpl; rewrite ?Hrest.
    + split.
      * intros [E|(-> & Hk & x & Hx & Hp)].
        -- injection E as <- <-. repeat split; [lia|].
           exists a. rewrite Nat.sub_diag. auto.
        -- repeat split; [lia|]. eauto.
      * intros (-> & Hk & x & Hx & Hp).
        destruct (Nat.eq_dec k c) as [->|Hne]; [left; reflexivity|].
        right. repeat split; [lia|]. eauto.
    + split.
      * intros (-> & Hk & x & Hx & Hp). repeat split; [lia|]. eauto.
      * intros (-> & Hk & x & Hx & Hp).
        destruct (Nat.eq_dec k c) as [->|Hne].
        -- rewrite Nat.sub_diag in Hx. simpl in Hx. congruence.
        -- repeat split; [lia|]. eauto.
Qed.

Lemma positions_from_In {A : Type} (p : A -> bool) (m : Raster A)
    (r0 r k : nat) :
  In (r, k) (positions_from p m r0)
  <-> (r0 <= r)%nat
      /\ exists row a, nth_error m (r - r0) = Some row
                       /\ nth_error row k = Some a /\ p a = true.
Proof.
  revert r0. induction m as [|row m IH]; intros r0; simpl.
  - split; [intros [] | intros (_ & row & a & H & _)].
    destruct (r - r0)%nat; discriminate.
  - rewrite in_app_iff, row_positions_In, IH. split.
    + intros [(-> & _ & a & Ha & Hp)|(Hr & row' & a & Hrow & Ha & Hp)].
      * split; [lia|]. exists row, a. rewrite Nat.sub_diag.
        rewrite Nat.sub_0_r in Ha. auto.
      * split; [lia|]. exists row', a.
        replace (r - r0)%nat with (S (r - S r0)) by lia. auto.
    + intros (Hr & row' & a & Hrow & Ha & Hp).
      destruct (Nat.eq_dec r r0) as [->|Hne].
      * left. rewrite Nat.sub_diag in Hrow. simpl in Hrow.
        injection Hrow as ->. repeat split; [lia|].
        exists a. rewrite Nat.sub_0_r. auto.
      * right. split; [lia|]. exists row', a.
        replace (r - r0)%nat with (S (r - S r0)) in Hrow by lia. auto.
Qed.

(** [np.nonzero] lists the positions of the selected pixels. *)
Lemma np_nonzero_In {A : Type} (p : A -> bool) (m : Raster A) (r k : nat) :
  In (r, k) (np_nonzero p m)
  <-> exists row a, nth_error m r = Some row
                    /\ nth_error row k = Some a /\ p a = true.
Proof.
  unfold np_nonzero. rewrite positions_from_In, Nat.sub_0_r.
  split; [intros [_ H]; exact H | intros H; split; [lia | exact H]].
Qed.

Lemma add_classes_spec (W : World) (ann : OpenSlide) (level : nat)
    (low : Raster N) (factor : Q) (classes : list N) :
  shuffle_permutes W ->
  nth_error (level_downsamples ann) level = Some factor ->
  forall class_list class_seeds g,
  exists pools g',
    add_classes W ann level low classes class_list class_seeds g
    = Ok (class_list ++ classes, class_seeds ++ pools, g')
    /\ Forall2 (fun c pool =>
                  Permutation pool
                    (scale_coordinates
                       (np_nonzero (fun v => N.eqb v c) low) factor))
               classes pools.
Proof.
  intros Hsh Hf. induction classes as [|c classes IH]; intros cl cs g.
  - exists [], g. simpl. rewrite !app_nil_r. split; [reflexivity|constructor].
  - cbn [add_classes]. unfold getitem. rewrite Hf. cbn [bind].
    pose proof (Hsh g (scale_coordinates
                         (np_nonzero (fun v => N.eqb v c) low) factor))
      as Hperm.
    destruct (shuffle W g _) as [co g1]. simpl in Hperm.
    destruct (IH (cl ++ [c]) (cs ++ [co]) g1) as (pools & g' & E & F).
    exists (co :: pools), g'. split.
    + rewrite E, <- !app_assoc. reflexivity.
    + constructor; assumption.
Qed.

Lemma pool_length (low : Raster N) (factor : Q) (c : N)
    (pool : list (Z * Z)) :
  Permutation pool
    (scale_coordinates (np_nonzero (fun v => N.eqb v c) low) factor) ->
  List.length pool = List.length (filter (fun v => N.eqb v c) (concat low)).
Proof.
  intros H. rewrite (Permutation_length H). unfold scale_coordinates.
  rewrite length_map. apply np_nonzero_length.
Qed.

(** Where other code has bound the global [down]: with an annotation
    whose low-resolution raster holds the label 0, seed generation
    returns the class list [0] followed by the distinct
    non-zero labels of the raster in ascending order, and for each of these
    labels c, in that order, a pool that is a rearrangement of the
    coordinates of the pixels equal to c, each scaled by the level's
    downsample factor and truncated: one coordinate per such pixel. *)
Theorem annotated_classes_and_seeds (W : World) (g : RandomState)
    (s : Sampler) (ann : OpenSlide) (dims : Z * Z) (factor f0 dn : Q) :
  shuffle_permutes W ->
  annotation s = Some ann ->
  down W = Some dn ->
  let level := ut_get_level W ann dn 20 in
  nth_error (level_dimensions ann) level = Some dims ->
  nth_error (level_downsamples ann) level = Some factor ->
  nth_error (level_downsamples (wsi s)) (tissue_mask_level s) = Some f0 ->
  let low := read_region_L ann (0, 0) level dims in
  In 0%N (concat low) ->
  exists classes pool0 pools g',
    _get_classes_and_seeds W g s = Ok (0%N :: classes, pool0 :: pools, g')
    /\ StronglySorted N.lt classes
    /\ (forall c, In c classes <-> c <> 0%N /\ In c (concat low))
    /\ Forall2 (fun c pool =>
                  Permutation pool
                    (scale_coordinates
                       (np_nonzero (fun v => N.eqb v c) low) factor)
                  /\ List.length pool
                     = List.length (filter (fun v => N.eqb v c)
                                           (concat low)))
               classes pools.
Proof.
  intros Hsh Ha Hdn level Hd Hf H0 low Hz.
  unfold _get_classes_and_seeds, getitem. rewrite H0. cbn [bind].
  destruct (shuffle W g _) as [co g1]. rewrite Ha, Hdn. cbn [getglobal bind].
  fold level. rewrite Hd. cbn [bind]. fold low.
  destruct (sorted_with_zero (np_unique low) (np_unique_sorted low))
    as (t & Et & Hs & Hin).
  { apply np_unique_In. exact Hz. }
  rewrite Et. cbn [nth_error bind N.eqb py_assert tl].
  destruct (add_classes_spec W ann level low factor t Hsh Hf [0%N] [co] g1)
    as (pools & g' & E & F).
  exists t, co, pools, g'. split; [exact E|]. split; [exact Hs|]. split.
  - intros c. rewrite Hin, Et. rewrite <- Et, np_unique_In. reflexivity.
  - eapply Forall2_impl; [|exact F]. intros c pool Hp. split; [exact Hp|].
    apply (pool_length low factor c pool Hp).
Qed.

(** Without the label 0 in the raster the assertion of line 151 (or the
    lookup [classes[0]] on an empty raster) stops seed generation. *)
Lemma seeds_without_zero_label (W : World) (g : RandomState) (s : Sampler)
    (ann : OpenSlide) (dn : Q) :
  annotation s = Some ann ->
  down W = Some dn ->
  let level := ut_get_level W ann dn 20 in
  (forall dims, nth_error (level_dimensions ann) level = Some dims ->
                ~ In 0%N (concat (read_region_L ann (0, 0) level dims))) ->
  raises (_get_classes_and_seeds W g s).
Proof.
  intros Ha Hdn level Hz. unfold _get_classes_and_seeds.
  destruct (getitem (level_downsamples (wsi s)) _) as [f|]; cbn [bind];
    [|exact I].
  destruct (shuffle W g _) as [co g1]. rewrite Ha, Hdn. cbn [getglobal bind].
  fold level.
  unfold getitem at 1.
  destruct (nth_error (level_dimensions ann) level) as [dims|] eqn:Ed;
    cbn [bind]; [|exact I].
  specialize (Hz dims eq_refl).
  unfold getitem.
  destruct (np_unique _) as [|c0 t] eqn:Eu; cbn [nth_error bind]; [exact I|].
  destruct (N.eqb c0 0) eqn:E0; cbn [py_assert bind]; [|exact I].
  apply N.eqb_eq in E0. subst c0. exfalso. apply Hz.
  apply np_unique_In. rewrite Eu. left. reflexivity.
Qed.

(** ** Prepared samplers are ready *)

Lemma sorted_NoDup (l : list N) : StronglySorted N.lt l -> NoDup l.
Proof.
  induction 1 as [|a l Hs IH Ha]; constructor; [|assumption].
  intros Hin. rewrite Forall_forall in Ha. apply Ha in Hin. lia.
Qed.

Lemma add_classes_shape (W : World) (ann : OpenSlide) (level : nat)
    (low : Raster N) (classes : list N) :
  forall cl cs g cl' cs' g',
    add_classes W ann level low classes cl cs g = Ok (cl', cs', g') ->
    cl' = cl ++ classes
    /\ List.length cs' = (List.length cs + List.length classes)%nat.
Proof.
  induction classes as [|c classes IH]; intros cl cs g cl' cs' g' H.
  - simpl in H. injection H as <- <- _. rewrite app_nil_r. simpl.
    split; [reflexivity | lia].
  - cbn [add_classes] in H.
    destruct (getitem (level_downsamples ann) level) as [f|];
      cbn [bind] in H; [|discriminate].
    destruct (shuffle W g _) as [co g1].
    apply IH in H. destruct H as [-> ->].
    rewrite <- app_assoc, length_app. simpl. split; [reflexivity | lia].
Qed.

Lemma get_classes_and_seeds_shape (W : World) (g : RandomState)
    (smp : Sampler) (cl : list N) (cs : list (list (Z * Z)))
    (g' : RandomState) :
  _get_classes_and_seeds W g smp = Ok (cl, cs, g') ->
  NoDup cl /\ List.length cl = List.length cs.
Proof.
  unfold _get_classes_and_seeds.
  destruct (getitem (level_downsamples (wsi smp)) _) as [f|]; cbn [bind];
    [|discriminate].
  destruct (shuffle W g _) as [co g1].
  destruct (annotation smp) as [ann|].
  - destruct (down W) as [dn|]; cbn [getglobal bind]; [|discriminate].
    destruct (getitem (level_dimensions ann) _) as [dims|]; cbn [bind];
      [|discriminate].
    pose proof (np_unique_sorted
                  (read_region_L ann (0, 0)
                     (ut_get_level W ann dn 20) dims)) as Hs.
    destruct (np_unique _) as [|c0 t]; [discriminate|].
    cbn [getitem nth_error bind tl].
    destruct (N.eqb c0 0) eqn:E0; cbn [py_assert bind]; [|discriminate].
    apply N.eqb_eq in E0. subst c0.
    intros H. apply add_classes_shape in H. destruct H as [-> Hl].
    split; [apply sorted_NoDup; exact Hs|].
    rewrite Hl. simpl. reflexivity.
  - intros H. injection H as <- <- _.
    split; [repeat constructor; intros [] | reflexivity].
Qed.

(** Whatever [prepare_sampling] returns is ready for the extractor once
    [self.background] is assigned to an object at a level of the slide. *)
Lemma prepare_sampling_ready (W : World) (g : RandomState) (smp : Sampler)
    (m : Q) (p : Z) (s : Session) (g' : RandomState) (bg : background.t)
    (d0 dl : Q) :
  prepare_sampling W g smp m p = Ok (s, g') ->
  nth_error (level_downsamples (wsi smp)) 0 = Some d0 ->
  nth_error (level_downsamples (wsi smp)) (background.level bg) = Some dl ->
  ~ (dl == 0)%Q ->
  ready (with_background s bg).
Proof.
  unfold prepare_sampling. intros H H0 Hl Hnz.
  destruct (get_level _ _ _) as [lvl|]; [|discriminate].
  destruct (getitem _ lvl) as [dim|]; cbn [bind] in H; [|discriminate].
  destruct (level_converter _ _ _ _) as [pt|]; cbn [bind] in H;
    [|discriminate].
  destruct (annotation smp) as [ann|] eqn:Ea.
  - destruct (py_assert _) as [[]|]; cbn [bind] in H; [|discriminate].
    destruct (list_index _ _ _) as [idx|]; cbn [bind] in H; [|discriminate].
    destruct (_get_classes_and_seeds W g smp) as [[[cl cs] g1]|] eqn:E;
      cbn [bind] in H; [|discriminate].
    injection H as <- _.
    destruct (get_classes_and_seeds_shape W g smp cl cs g1 E) as [Hn Hlen].
    unfold ready. cbn. split; [exact Hn|]. split; [exact Hlen|]. split.
    + exists bg, d0, dl. auto.
    + intros _. discriminate.
  - cbn [bind] in H.
    destruct (_get_classes_and_seeds W g smp) as [[[cl cs] g1]|] eqn:E;
      cbn [bind] in H; [|discriminate].
    injection H as <- _.
    destruct (get_classes_and_seeds_shape W g smp cl cs g1 E) as [Hn Hlen].
    unfold ready. cbn. split; [exact Hn|]. split; [exact Hlen|]. split.
    + exists bg, d0, dl. auto.
    + intros C. exfalso. apply C. exact Ea.
Qed.

(** ** The statements on concrete slides *)

Lemma get_level_within_tolerance_witness :
  exists m, nth_error [40%Q; 10%Q; 5 # 2] 1 = Some m
            /\ (Qabs (m - 10) <= 1 # 100)%Q.
Proof.
  exact (get_level_within_tolerance [40%Q; 10%Q; 5 # 2] 10%Q (1 # 100)).
Defined.

Example get_level_not_found :
  get_level [40%Q; 10%Q; 5 # 2] 20%Q (1 # 100) = None.
Proof. reflexivity. Qed.

Lemma notch_pool :
  pool_of notch_session 0
  = Ok [(0, 0); (0, 2); (0, 3); (1, 0); (1, 1); (1, 2); (1, 3);
        (2, 0); (2, 1); (2, 2); (2, 3)].
Proof. reflexivity. Qed.

Lemma tissue_coverage_check_witness :
  background (self notch_session)
  = Some (tissue_background (self notch_session) (ps_tm notch_session))
  /\ nth_error [(0, 0); (0, 2); (0, 3); (1, 0); (1, 1); (1, 2); (1, 3);
                (2, 0); (2, 1); (2, 2); (2, 3)] 0 = Some (0, 0)
  /\ level_converter (wsi (self notch_session)) 0 0
                     (tissue_mask_level (self notch_session)) = Ok 0
  /\ (fraction_true [[true; false]; [true; true]] 2 <= 9 # 10)%Q
  /\ _class_c_patch_i notch_session 0 0
     = Ok (None, set_rejected notch_session (rejected notch_session + 1)).
Proof.
  repeat (split; [reflexivity || (vm_compute; discriminate)|]).
  apply (tissue_coverage_check notch_session 0 0 _ 0 0 0 0
           eq_refl notch_pool eq_refl eq_refl eq_refl).
  vm_compute. discriminate.
Defined.

(** C5, as stated, fails: the window of the seed (0, 0) is the whole
    10 x 10 mask, 90 of its 100 pixels are foreground, and the patch is
    rejected. *)
Lemma exactly_ninety_percent_rejected :
  window_of ninety_session
            (tissue_background (self ninety_session) (ps_tm ninety_session))
            0 0 = Ok ninety_mask
  /\ (fraction_true ninety_mask 10 == 9 # 10)%Q
  /\ _class_c_patch_i ninety_session 0 0
     = Ok (None, set_rejected ninety_session 1).
Proof. repeat split; vm_compute; reflexivity. Qed.

Lemma tissue_threshold_boundary_witness :
  (exists pool, pool_of ninety_session 0 = Ok pool
                /\ nth_error pool 0 = Some (0, 0))
  /\ background (self ninety_session)
     = Some (tissue_background (self ninety_session) (ps_tm ninety_session))
  /\ window_of ninety_session
       (tissue_background (self ninety_session) (ps_tm ninety_session))
       0 0 = Ok ninety_mask
  /\ (fraction_true ninety_mask 10 == 9 # 10)%Q
  /\ _class_c_patch_i ninety_session 0 0
     = Ok (None, set_rejected ninety_session
                   (rejected ninety_session + 1)).
Proof.
  split; [eexists; split; vm_compute; reflexivity|].
  repeat (split; [vm_compute; reflexivity|]).
  refine (proj1 (tissue_threshold_boundary ninety_session 0 0 _ 0 0
                   (tissue_background (self ninety_session)
                                      (ps_tm ninety_session))
                   ninety_mask _ _ eq_refl _) _);
    vm_compute; reflexivity.
Defined.

(** C6, as stated, fails: the pool of class 0 has eleven seeds, and
    requesting position 11 raises [IndexError]. *)
Lemma exhausted_pool_raises :
  (exists pool, pool_of notch_session 0 = Ok pool
                /\ List.length pool = 11%nat)
  /\ _class_c_patch_i notch_session 0 11 = Raise IndexError
  /\ raises (_class_c_patch_i notch_session 0 11).
Proof.
  split; [eexists; split; reflexivity|]. split; [reflexivity | exact I].
Qed.

Lemma index_beyond_pool_raises_witness :
  pool_of notch_session 0
  = Ok [(0, 0); (0, 2); (0, 3); (1, 0); (1, 1); (1, 2); (1, 3);
        (2, 0); (2, 1); (2, 2); (2, 3)]
  /\ (11 <= 12)%nat
  /\ _class_c_patch_i notch_session 0 12 = Raise IndexError.
Proof.
  split; [exact notch_pool|]. split; [lia|].
  apply (index_beyond_pool_raises notch_session 0 12 _ notch_pool).
  simpl. lia.
Defined.

Lemma cache_hit_validation_witness :
  OpenSlide_open notch_world "slide.tif" = Ok (flat_slide 4 3)
  /\ string_in_directory notch_world (path_stem notch_world "slide.tif")
                         "tissue_masks"
     = (true, "tissue_masks/slide_tm.npy"%string)
  /\ __init__ notch_world "slide.tif" infer "tissue_masks" None
     = Ok (demo_sampler notch_world None)
  /\ array_dtype (np_load notch_world "tissue_masks/slide_tm.npy") = np_bool
  /\ tissue_mask (demo_sampler notch_world None) = notch_mask
  /\ tissue_mask_level (demo_sampler notch_world None) = 0%nat.
Proof.
  do 3 (split; [reflexivity|]).
  destruct (proj1 (cache_hit_validation notch_world "slide.tif" infer
                     "tissue_masks" None (flat_slide 4 3)
                     "tissue_masks/slide_tm.npy" eq_refl eq_refl)
                  (demo_sampler notch_world None) eq_refl)
    as (Hd & Hm & _).
  split; [exact Hd|]. split; [exact Hm | reflexivity].
Defined.

Example cache_hit_wrong_shape :
  __init__ (demo_world (flat_slide 4 3) (mask_array [[true; true]]) None)
           "slide.tif" infer "tissue_masks" None
  = Raise ValueError.
Proof. reflexivity. Qed.

Example cache_hit_wrong_dtype :
  __init__ (demo_world (flat_slide 4 3)
              {| array_dtype := np_uint8; array_shape := [3; 4];
                 array_bools := notch_mask |} None)
           "slide.tif" infer "tissue_masks" None
  = Raise AssertionError.
Proof. reflexivity. Qed.

Lemma annotation_dir_without_file_witness :
  fst (string_in_directory notch_world (path_stem notch_world "slide.tif")
                           "annotation") = false
  /\ __init__ notch_world "slide.tif" infer "tissue_masks"
              (Some "annotation"%string)
     = map_ok (fun smp => set_annotation_dir smp (Some "annotation"%string))
              (__init__ notch_world "slide.tif" infer "tissue_masks" None).
Proof.
  split; [reflexivity|].
  exact (proj1 (annotation_dir_without_file notch_world "slide.tif" infer
                  "tissue_masks" "annotation" eq_refl)).
Defined.

(** C10, as stated, fails: a call of the extractor need not return.  On
    the sampler the program builds, the call for the first seed raises
    [AttributeError]; with the background assigned, the call for position
    11 of the eleven-seed pool raises [IndexError].  Such a call is
    neither a rejection nor an accepted patch, and the counter stays. *)
Lemma extractor_call_raises :
  _class_c_patch_i (demo_prepared notch_world None 2) 0 0
  = Raise AttributeError
  /\ _class_c_patch_i notch_session 0 11 = Raise IndexError
  /\ ~ is_rejection (_class_c_patch_i notch_session 0 11)
  /\ ~ (exists accepted s',
          _class_c_patch_i notch_session 0 11 = Ok (Some accepted, s'))
  /\ rejected (snd (run_calls notch_session [(0%N, 11%nat)]))
     = rejected notch_session.
Proof.
  split; [reflexivity|]. split; [reflexivity|]. split; [|split].
  - intros [s' C]. discriminate C.
  - intros (a & s' & C). discriminate C.
  - reflexivity.
Qed.

Lemma rejection_counter_invariant_witness :
  rejected (demo_prepared notch_world None 2) = 0
  /\ rejected (snd (run_calls notch_session [(0%N, 0%nat); (0%N, 1%nat);
                                             (0%N, 2%nat); (0%N, 11%nat)]))
     = rejected notch_session
       + count_rejections
           (fst (run_calls notch_session [(0%N, 0%nat); (0%N, 1%nat);
                                          (0%N, 2%nat); (0%N, 11%nat)])).
Proof.
  destruct rejection_counter_invariant as (Hprep & _ & Hrun).
  split.
  - apply (Hprep notch_world 0 (demo_sampler notch_world None) 40%Q 2
                 (demo_prepared notch_world None 2) 1).
    reflexivity.
  - apply Hrun.
Defined.

Example rejection_counter_after_four_calls :
  rejected (snd (run_calls notch_session [(0%N, 0%nat); (0%N, 1%nat);
                                          (0%N, 2%nat); (0%N, 11%nat)])) = 2
  /\ map (fun r => match r with
                   | Ok (Some _) => 1 | Ok None => 0 | Raise _ => -1
                   end)
         (fst (run_calls notch_session [(0%N, 0%nat); (0%N, 1%nat);
                                        (0%N, 2%nat); (0%N, 11%nat)]))
     = [0; 1; 0; -1].
Proof. split; reflexivity. Qed.

Lemma demo_shuffle_permutes slide cached ann :
  shuffle_permutes (demo_world slide cached ann).
Proof. intros g l. apply Permutation_refl. Qed.

Lemma with_down_shuffle_permutes (W : World) (d : Q) :
  shuffle_permutes W -> shuffle_permutes (with_down W d).
Proof. intros H g l. apply H. Qed.

Lemma annotated_shuffle_permutes : shuffle_permutes annotated_world.
Proof. apply with_down_shuffle_permutes, demo_shuffle_permutes. Qed.

Lemma annotated_classes_and_seeds_witness :
  shuffle_permutes annotated_world
  /\ annotation annotated_sampler = Some (label_slide 2 2 label_raster)
  /\ In 0%N (concat label_raster)
  /\ exists classes pool0 pools g',
      _get_classes_and_seeds annotated_world 0 annotated_sampler
      = Ok (0%N :: classes, pool0 :: pools, g')
      /\ StronglySorted N.lt classes
      /\ (forall c, In c classes <-> c <> 0%N /\ In c (concat label_raster))
      /\ Forall2 (fun c pool =>
                    Permutation pool
                      (scale_coordinates
                         (np_nonzero (fun v => N.eqb v c) label_raster) 1)
                    /\ List.length pool
                       = List.length (filter (fun v => N.eqb v c)
                                             (concat label_raster)))
                 classes pools.
Proof.
  split; [apply annotated_shuffle_permutes|]. split; [reflexivity|].
  split; [left; reflexivity|].
  apply (annotated_classes_and_seeds annotated_world 0 annotated_sampler
           (label_slide 2 2 label_raster) (2, 2) 1%Q 1%Q 32%Q
           annotated_shuffle_permutes eq_refl eq_refl eq_refl eq_refl
           eq_refl).
  left. reflexivity.
Defined.

Example annotated_seeds :
  _get_classes_and_seeds annotated_world 0 annotated_sampler
  = Ok ([0; 1; 2]%N,
        [[(0, 0); (0, 1); (1, 0); (1, 1)]; [(1, 0)]; [(0, 1); (1, 1)]], 3).
Proof. reflexivity. Qed.

(** As [sampler.py] stands, nothing assigns [self.background], and the
    extractor cannot get past reading it. *)
Example background_never_assigned :
  background (demo_sampler notch_world None) = None
  /\ _class_c_patch_i (demo_prepared notch_world None 2) 0 0
     = Raise AttributeError.
Proof. split; reflexivity. Qed.

(** A cap of 0 still lets the loop try, and accept, one seed per class. *)
Example cap_zero_tries_one_seed :
  exists frame s',
    sample_patches notch_session 0 = Ok (frame, s') /\ rejected s' = 1.
Proof. eexists. eexists. split; reflexivity. Qed.

(** * Further properties of the code *)

(** ** More on level conversion *)

(** X1: between a level whose downsample factor is a power of two and
    itself, the conversion returns a value below 2^53 in absolute value
    unchanged, whatever its sign. *)
Theorem level_converter_same_level (wsi : OpenSlide) (x : Z) (A : nat)
    (d : Q) :
  nth_error (level_downsamples wsi) A = Some d ->
  power_of_two d -> Z.abs x < 2 ^ 53 ->
  level_converter wsi x A A = Ok x.
Proof.
  intros HA Pd _. pose proof (power_of_two_pos d Pd) as Hd.
  rewrite (level_converter_pos wsi x A A d d HA HA Hd).
  f_equal. rewrite <- (py_int_inject_Z x) at 2. apply py_int_comp.
  field. lra.
Qed.

Lemma level_converter_same_level_witness :
  nth_error (level_downsamples (slide_of_downsamples [1%Q; 4%Q])) 1
  = Some 4%Q
  /\ power_of_two 4 /\ Z.abs (-7) < 2 ^ 53
  /\ level_converter (slide_of_downsamples [1%Q; 4%Q]) (-7) 1 1 = Ok (-7).
Proof.
  assert (P4 : power_of_two 4).
  { exists 2%nat. split; [lia | reflexivity]. }
  split; [reflexivity|]. split; [exact P4|]. split; [cbn; lia|].
  apply (level_converter_same_level (slide_of_downsamples [1%Q; 4%Q])
           (-7) 1 4%Q eq_refl P4).
  cbn. lia.
Defined.

(** X2: with positive downsample factors the conversion is monotone, sends
    non-negative values to non-negative values and non-positive values to
    non-positive ones. *)
Theorem level_converter_monotone (wsi : OpenSlide) (x y : Z) (A B : nat)
    (dA dB : Q) :
  nth_error (level_downsamples wsi) A = Some dA ->
  nth_error (level_downsamples wsi) B = Some dB ->
  (0 < dA)%Q -> (0 < dB)%Q -> x <= y ->
  exists x' y',
    level_converter wsi x A B = Ok x'
    /\ level_converter wsi y A B = Ok y'
    /\ x' <= y'
    /\ (0 <= x -> 0 <= x')
    /\ (y <= 0 -> y' <= 0).
Proof.
  intros HA HB HdA HdB Hxy.
  rewrite (level_converter_pos wsi x A B dA dB HA HB HdB).
  rewrite (level_converter_pos wsi y A B dA dB HA HB HdB).
  eexists. eexists. split; [reflexivity|]. split; [reflexivity|].
  assert (Hr : (0 < dA / dB)%Q) by (apply Qlt_shift_div_l; lra).
  assert (Hq : forall a b : Z, a <= b ->
             (inject_Z a * dA / dB <= inject_Z b * dA / dB)%Q).
  { intros a b Hab. rewrite Zle_Qle in Hab.
    unfold Qdiv in *. rewrite <- !Qmult_assoc.
    apply Qmult_le_compat_r; [exact Hab | lra]. }
  assert (E0 : py_int (inject_Z 0 * dA / dB) = 0).
  { rewrite <- (py_int_inject_Z 0) at 2. apply py_int_comp.
    field. intros E. rewrite E in HdB. discriminate. }
  split; [apply py_int_le, Hq, Hxy|]. split.
  - intros H0. rewrite <- E0. apply py_int_le, Hq, H0.
  - intros H0. rewrite <- E0. apply py_int_le, Hq, H0.
Qed.

Lemma level_converter_monotone_witness :
  (0 < 1)%Q /\ (0 < 4)%Q /\ 5 <= 9
  /\ exists x' y',
      level_converter (slide_of_downsamples [1%Q; 4%Q]) 5 0 1 = Ok x'
      /\ level_converter (slide_of_downsamples [1%Q; 4%Q]) 9 0 1 = Ok y'
      /\ x' <= y'
      /\ (0 <= 5 -> 0 <= x')
      /\ (9 <= 0 -> y' <= 0).
Proof.
  split; [reflexivity|]. split; [reflexivity|]. split; [lia|].
  apply (level_converter_monotone (slide_of_downsamples [1%Q; 4%Q])
           5 9 0 1 1%Q 4%Q eq_refl eq_refl); try reflexivity. lia.
Defined.

(** X3: when the downsample factors of levels A and B are the powers of
    two 2^a and 2^b with b <= a, converting a value below 2^53 in absolute
    value from A to B multiplies it by 2^(a-b), and converting back gives
    the original value exactly. *)
Theorem level_converter_round_trip_exact (wsi : OpenSlide) (v : Z)
    (A B : nat) (dA dB : Q) (a b : nat) :
  nth_error (level_downsamples wsi) A = Some dA ->
  nth_error (level_downsamples wsi) B = Some dB ->
  (b <= a <= 64)%nat ->
  (dA == inject_Z (2 ^ Z.of_nat a))%Q ->
  (dB == inject_Z (2 ^ Z.of_nat b))%Q ->
  Z.abs v < 2 ^ 53 ->
  level_converter wsi v A B = Ok (v * 2 ^ Z.of_nat (a - b))
  /\ round_trip wsi v A B = Ok v.
Proof.
  intros HA HB [Hba Ha] EA EB _.
  assert (HdB : (0 < dB)%Q).
  { apply power_of_two_pos. exists b. split; [lia | exact EB]. }
  apply (round_trip_integral_up wsi v A B dA dB _ HA HB HdB).
  - pose proof (Z.pow_pos_nonneg 2 (Z.of_nat (a - b))). lia.
  - rewrite EA, EB. apply power_of_two_ratio. exact Hba.
Qed.

Lemma level_converter_round_trip_exact_witness :
  (0 <= 2 <= 64)%nat
  /\ (4 == inject_Z (2 ^ Z.of_nat 2))%Q /\ (1 == inject_Z (2 ^ Z.of_nat 0))%Q
  /\ Z.abs 7 < 2 ^ 53
  /\ level_converter (slide_of_downsamples [1%Q; 4%Q]) 7 1 0
     = Ok (7 * 2 ^ Z.of_nat (2 - 0))
  /\ round_trip (slide_of_downsamples [1%Q; 4%Q]) 7 1 0 = Ok 7.
Proof.
  split; [lia|]. split; [reflexivity|]. split; [reflexivity|].
  split; [cbn; lia|].
  apply (level_converter_round_trip_exact (slide_of_downsamples [1%Q; 4%Q])
           7 1 0 4%Q 1%Q 2 0 eq_refl eq_refl); try reflexivity;
    cbn; lia.
Defined.

(** ** More on construction *)

Lemma map_result_Forall2 {A B : Type} (f : A -> result B) (l : list A)
    (l' : list B) :
  map_result f l = Ok l' -> Forall2 (fun a b => f a = Ok b) l l'.
Proof.
  revert l'. induction l as [|a l IH]; intros l' H; simpl in H.
  - injection H as <-. constructor.
  - destruct (f a) as [b|] eqn:Ea; cbn [bind] in H; [|discriminate].
    destruct (map_result f l) as [bs|]; cbn [bind] in H; [|discriminate].
    injection H as <-. constructor; [exact Ea | apply IH; reflexivity].
Qed.

Lemma Forall2_nth_error_l {A B : Type} (P : A -> B -> Prop) (l : list A)
    (l' : list B) (i : nat) (a : A) :
  Forall2 P l l' -> nth_error l i = Some a ->
  exists b, nth_error l' i = Some b /\ P a b.
Proof.
  intros H. revert i. induction H as [|x y l l' Hxy H IH]; intros i Hi.
  - destruct i; discriminate.
  - destruct i as [|i]; simpl in *.
    + injection Hi as ->. eauto.
    + apply IH. exact Hi.
Qed.

Lemma true_div_Ok (a b q : Q) :
  true_div a b = Ok q -> ~ (b == 0)%Q /\ (q * b == a)%Q.
Proof.
  unfold true_div. destruct (Qeq_bool b 0) eqn:E; [discriminate|].
  intros H. injection H as <-.
  assert (Hb : ~ (b == 0)%Q).
  { intros C. apply Qeq_eq_bool in C. congruence. }
  split; [exact Hb | field; exact Hb].
Qed.

(** What a successful [__init__] has computed. *)
Lemma init_Ok (W : World) (wsi_file : string) (l0 : level0_arg)
    (tissue_mask_dir : string) (annotation_dir : option string)
    (smp : Sampler) :
  __init__ W wsi_file l0 tissue_mask_dir annotation_dir = Ok smp ->
  OpenSlide_open W wsi_file = Ok (wsi smp)
  /\ match l0 with
     | infer => objective_power (wsi smp) = Some (level0 smp)
     | given m => level0 smp = m
     end
  /\ map_result (true_div (level0 smp)) (level_downsamples (wsi smp))
     = Ok (magnifications smp)
  /\ (if negb (fst (string_in_directory W (path_stem W wsi_file)
                                        tissue_mask_dir))
      then tissue_mask_cache_miss W (wsi smp) (magnifications smp)
      else tissue_mask_cache_hit W (wsi smp) (magnifications smp)
             (snd (string_in_directory W (path_stem W wsi_file)
                                       tissue_mask_dir)))
     = Ok (tissue_mask_level smp, tissue_mask_mag smp, tissue_mask smp)
  /\ load_annotation W (path_stem W wsi_file) annotation_dir
     = Ok (annotation smp)
  /\ background smp = None.
Proof.
  unfold __init__.
  destruct (OpenSlide_open W wsi_file) as [slide|]; cbn [bind];
    [|discriminate].
  destruct (match l0 with infer => _ | given _ => _ end) as [m|] eqn:El;
    cbn [bind]; [|discriminate].
  destruct (map_result (true_div m) (level_downsamples slide)) as [mags|]
    eqn:Em; cbn [bind]; [|discriminate].
  destruct (string_in_directory W (path_stem W wsi_file) tissue_mask_dir)
    as [truth path].
  cbn [fst snd].
  destruct (if negb truth then _ else _) as [[[lvl mag] mask]|] eqn:Et;
    cbn [bind]; [|discriminate].
  destruct (load_annotation _ _ _) as [ann|] eqn:Ea; cbn [bind];
    [|discriminate].
  intros H. injection H as <-. cbn.
  repeat split; try assumption; try reflexivity.
  destruct l0 as [|m']; [|injection El as ->; reflexivity].
  destruct (objective_power slide) as [p|]; [|discriminate].
  injection El as ->. reflexivity.
Qed.

Lemma tissue_mask_level_valid (W : World) (slide : OpenSlide)
    (mags : list Q) (truth : bool) (path : string) (lvl : nat) (mag : Q)
    (mask : Raster bool) :
  (if negb truth then tissue_mask_cache_miss W slide mags
   else tissue_mask_cache_hit W slide mags path) = Ok (lvl, mag, mask) ->
  nth_error mags lvl = Some mag.
Proof.
  unfold tissue_mask_cache_miss, tissue_mask_cache_hit, getitem.
  destruct (negb truth).
  - destruct (get_level mags (5 # 4) 10) as [l|]; [|discriminate].
    destruct (nth_error mags l) as [m|] eqn:E; cbn [bind]; [|discriminate].
    destruct (py_assert _); cbn [bind]; [|discriminate].
    intros H. injection H as <- <- _. exact E.
  - destruct (py_assert _); cbn [bind]; [|discriminate].
    destruct (find_index _ _) as [l|]; cbn [bind]; [|discriminate].
    destruct (nth_error mags l) as [m|] eqn:E; cbn [bind]; [|discriminate].
    intros H. injection H as <- <- _. exact E.
Qed.

Lemma init_downsamples_nonzero (W : World) (wsi_file : string)
    (l0 : level0_arg) (tissue_mask_dir : string)
    (annotation_dir : option string) (smp : Sampler) :
  __init__ W wsi_file l0 tissue_mask_dir annotation_dir = Ok smp ->
  (forall i d, nth_error (level_downsamples (wsi smp)) i = Some d ->
               ~ (d == 0)%Q)
  /\ (tissue_mask_level smp
      < List.length (level_downsamples (wsi smp)))%nat.
Proof.
  intros H. destruct (init_Ok _ _ _ _ _ _ H) as (_ & _ & Hm & Ht & _).
  apply map_result_Forall2 in Hm.
  assert (Hlen := Forall2_length Hm).
  assert (Hlvl := tissue_mask_level_valid _ _ _ _ _ _ _ _ Ht).
  split.
  - intros i d Hd.
    destruct (Forall2_nth_error_l _ _ _ i d Hm Hd) as (m & Hi & Hdiv).
    apply true_div_Ok in Hdiv. apply Hdiv.
  - rewrite Hlen. apply nth_error_Some. congruence.
Qed.



(** X5: with ['infer'], [__init__] behaves as if given the slide's
    objective power, and raises the objective-power exception when the
    slide has none. *)
Theorem init_infer_level0 (W : World) (wsi_file : string)
    (tissue_mask_dir : string) (annotation_dir : option string)
    (slide : OpenSlide) :
  OpenSlide_open W wsi_file = Ok slide ->
  match objective_power slide with
  | Some p =>
      __init__ W wsi_file infer tissue_mask_dir annotation_dir
      = __init__ W wsi_file (given p) tissue_mask_dir annotation_dir
  | None =>
      __init__ W wsi_file infer tissue_mask_dir annotation_dir
      = Raise (Exception_ "Slide does not have property objective-power.")
  end.
Proof.
  intros Ho. unfold __init__. rewrite Ho. cbn [bind].
  destruct (objective_power slide) as [p|]; reflexivity.
Qed.

Lemma init_infer_level0_witness :
  OpenSlide_open notch_world "slide.tif" = Ok (flat_slide 4 3)
  /\ __init__ notch_world "slide.tif" infer "tissue_masks" None
     = __init__ notch_world "slide.tif" (given 40%Q) "tissue_masks" None.
Proof.
  split; [reflexivity|].
  exact (init_infer_level0 notch_world "slide.tif" "tissue_masks" None
           (flat_slide 4 3) eq_refl).
Defined.

Example init_infer_without_objective_power :
  __init__ (demo_world (slide_of_downsamples [1%Q]) (mask_array []) None)
           "slide.tif" infer "tissue_masks" None
  = Raise (Exception_ "Slide does not have property objective-power.").
Proof. reflexivity. Qed.

(** X6: when no cached mask is found, a successful [__init__] has taken
    the level that [get_level] finds for 1.25x within 10, and holds the
    mask generated at that level, which is boolean. *)
Theorem cache_miss_generation (W : World) (wsi_file : string)
    (l0 : level0_arg) (tissue_mask_dir : string)
    (annotation_dir : option string) (smp : Sampler) :
  fst (string_in_directory W (path_stem W wsi_file) tissue_mask_dir)
  = false ->
  __init__ W wsi_file l0 tissue_mask_dir annotation_dir = Ok smp ->
  let generated :=
    generate_tissue_mask W (wsi smp) (tissue_mask_level smp) in
  get_level (magnifications smp) (5 # 4) 10 = Some (tissue_mask_level smp)
  /\ array_dtype generated = np_bool
  /\ tissue_mask smp = array_bools generated.
Proof.
  intros Hf H. destruct (init_Ok _ _ _ _ _ _ H) as (_ & _ & _ & Ht & _).
  rewrite Hf in Ht. cbn [negb] in Ht. unfold tissue_mask_cache_miss in Ht.
  destruct (get_level (magnifications smp) (5 # 4) 10) as [l|];
    [|discriminate].
  destruct (getitem (magnifications smp) l) as [m|]; cbn [bind] in Ht;
    [|discriminate].
  destruct (dtype_eqb _ np_bool) eqn:Ed; cbn [py_assert bind] in Ht;
    [|discriminate].
  injection Ht as -> _ <-. cbn.
  split; [reflexivity|]. split; [|reflexivity].
  destruct (array_dtype _); try discriminate. reflexivity.
Qed.

(** X7: when no cached mask is found and no level is within 10 of 1.25x,
    [__init__] raises [TypeError] (the table is indexed with [None]); when
    the generated mask is not boolean it raises [AssertionError]. *)
Theorem cache_miss_failures (W : World) (wsi_file : string)
    (l0 : level0_arg) (tissue_mask_dir : string)
    (annotation_dir : option string) (slide : OpenSlide) (m : Q)
    (mags : list Q) :
  OpenSlide_open W wsi_file = Ok slide ->
  match l0 with
  | infer => objective_power slide = Some m
  | given m' => m' = m
  end ->
  map_result (true_div m) (level_downsamples slide) = Ok mags ->
  fst (string_in_directory W (path_stem W wsi_file) tissue_mask_dir)
  = false ->
  let init := __init__ W wsi_file l0 tissue_mask_dir annotation_dir in
  (get_level mags (5 # 4) 10 = None -> init = Raise TypeError)
  /\ (forall lvl mag,
        get_level mags (5 # 4) 10 = Some lvl ->
        nth_error mags lvl = Some mag ->
        array_dtype (generate_tissue_mask W slide lvl) <> np_bool ->
        init = Raise AssertionError).
Proof.
  intros Ho Hl Hm Hf init. unfold init, __init__. rewrite Ho. cbn [bind].
  assert (El : match l0 with
               | infer =>
                   match objective_power slide with
                   | Some p => Ok p
                   | None =>
                       Raise (Exception_
                                "Slide does not have property objective-power.")
                   end
               | given m' => Ok m'
               end = Ok m).
  { destruct l0; [rewrite Hl | rewrite Hl]; reflexivity. }
  rewrite El. cbn [bind]. rewrite Hm. cbn [bind].
  destruct (string_in_directory W (path_stem W wsi_file) tissue_mask_dir)
    as [truth path].
  cbn [fst] in Hf. subst truth. cbn [negb].
  unfold tissue_mask_cache_miss. split.
  - intros Hg. rewrite Hg. reflexivity.
  - intros lvl mag Hg Hn Hd. rewrite Hg. unfold getitem. rewrite Hn.
    cbn [bind].
    destruct (dtype_eqb _ np_bool) eqn:Ed; [|reflexivity].
    exfalso. apply Hd. destruct (array_dtype _); try discriminate.
    reflexivity.
Qed.

Lemma cache_miss_generation_witness :
  fst (string_in_directory notch_world (path_stem notch_world "slide.tif")
                           "elsewhere") = false
  /\ (exists smp,
        __init__ notch_world "slide.tif" (given 5%Q) "elsewhere" None
        = Ok smp
        /\ get_level (magnifications smp) (5 # 4) 10
           = Some (tissue_mask_level smp)
        /\ array_dtype (generate_tissue_mask notch_world (wsi smp)
                                             (tissue_mask_level smp))
           = np_bool
        /\ tissue_mask smp
           = array_bools (generate_tissue_mask notch_world (wsi smp)
                                               (tissue_mask_level smp))).
Proof.
  split; [reflexivity|]. eexists. split; [reflexivity|].
  apply (cache_miss_generation notch_world "slide.tif" (given 5%Q)
           "elsewhere" None _ eq_refl eq_refl).
Defined.

Lemma cache_miss_failures_witness :
  OpenSlide_open notch_world "slide.tif" = Ok (flat_slide 4 3)
  /\ map_result (true_div 40) (level_downsamples (flat_slide 4 3))
     = Ok [40%Q]
  /\ get_level [40%Q] (5 # 4) 10 = None
  /\ __init__ notch_world "slide.tif" (given 40%Q) "elsewhere" None
     = Raise TypeError.
Proof.
  do 3 (split; [reflexivity|]).
  apply (proj1 (cache_miss_failures notch_world "slide.tif" (given 40%Q)
                  "elsewhere" None (flat_slide 4 3) 40%Q [40%Q]
                  eq_refl eq_refl eq_refl eq_refl)).
  reflexivity.
Defined.

(** X8: when the annotation directory holds a file for the slide, a
    successful [__init__] holds the slide opened from that path as its
    annotation, and [__init__] raises if that file cannot be opened. *)
Theorem init_annotation_found (W : World) (wsi_file : string)
    (l0 : level0_arg) (tissue_mask_dir dir path : string) :
  string_in_directory W (path_stem W wsi_file) dir = (true, path) ->
  let init := __init__ W wsi_file l0 tissue_mask_dir (Some dir) in
  (forall smp, init = Ok smp ->
               exists a, OpenSlide_open W path = Ok a
                         /\ annotation smp = Some a
                         /\ annotation_dir smp = Some dir)
  /\ (raises (OpenSlide_open W path) -> raises init).
Proof.
  intros Hs init. split.
  - intros smp H. pose proof (init_Ok _ _ _ _ _ _ H) as (_ & _ & _ & _ & Ha & _).
    unfold load_annotation in Ha. rewrite Hs in Ha. cbn [negb] in Ha.
    destruct (OpenSlide_open W path) as [a|]; cbn [bind] in Ha;
      [|discriminate].
    injection Ha as Ha. exists a.
    split; [reflexivity|]. split; [symmetry; exact Ha|].
    unfold init, __init__ in H.
    destruct (OpenSlide_open W wsi_file); cbn [bind] in H; [|discriminate].
    destruct (match l0 with infer => _ | given _ => _ end); cbn [bind] in H;
      [|discriminate].
    destruct (map_result _ _); cbn [bind] in H; [|discriminate].
    destruct (string_in_directory W (path_stem W wsi_file) tissue_mask_dir).
    destruct (if negb _ then _ else _) as [[[? ?] ?]|]; cbn [bind] in H;
      [|discriminate].
    destruct (load_annotation _ _ _); cbn [bind] in H; [|discriminate].
    injection H as <-. reflexivity.
  - intros Hr. unfold init, __init__.
    destruct (OpenSlide_open W wsi_file); cbn [bind]; [|exact I].
    destruct (match l0 with infer => _ | given _ => _ end); cbn [bind];
      [|exact I].
    destruct (map_result _ _); cbn [bind]; [|exact I].
    destruct (string_in_directory W (path_stem W wsi_file) tissue_mask_dir).
    destruct (if negb _ then _ else _) as [[[? ?] ?]|]; cbn [bind];
      [|exact I].
    unfold load_annotation. rewrite Hs. cbn [negb].
    destruct (OpenSlide_open W path); [destruct Hr | exact I].
Qed.

Lemma init_annotation_found_witness :
  string_in_directory annotated_world
    (path_stem annotated_world "slide.tif") "annotation"
  = (true, "annotation/slide.tif"%string)
  /\ __init__ annotated_world "slide.tif" (given 40%Q) "tissue_masks"
              (Some "annotation"%string)
     = Ok annotated_sampler
  /\ exists a, OpenSlide_open annotated_world "annotation/slide.tif" = Ok a
               /\ annotation annotated_sampler = Some a
               /\ annotation_dir annotated_sampler
                  = Some "annotation"%string.
Proof.
  split; [reflexivity|]. split; [reflexivity|].
  exact (proj1 (init_annotation_found annotated_world "slide.tif"
                  (given 40%Q) "tissue_masks" "annotation"
                  "annotation/slide.tif" eq_refl)
               annotated_sampler eq_refl).
Defined.

(** ** More on [prepare_sampling] *)

Lemma pair_eqb_true (a b : Z * Z) : pair_eqb a b = true <-> a = b.
Proof.
  destruct a as [a1 a2], b as [b1 b2]. unfold pair_eqb. cbn [fst snd].
  rewrite andb_true_iff, !Z.eqb_eq. split.
  - intros [-> ->]. reflexivity.
  - intros H. injection H as -> ->. auto.
Qed.

Lemma list_mem_false (x : Z * Z) (l : list (Z * Z)) :
  ~ In x l -> list_mem pair_eqb x l = false.
Proof.
  intros H. unfold list_mem.
  destruct (existsb _ l) eqn:E; [|reflexivity].
  apply existsb_exists in E. destruct E as (y & Hy & Ey).
  apply pair_eqb_true in Ey. subst y. contradiction.
Qed.



(** X10: [prepare_sampling] raises [TypeError] when no level has the
    requested magnification, [IndexError] when the found level has no
    dimensions, and [AssertionError] when the annotation has no level of
    the sampling level's dimensions. *)
Theorem prepare_sampling_failures (W : World) (g : RandomState)
    (smp : Sampler) (magnification : Q) (patchsize : Z) :
  let prepared := prepare_sampling W g smp magnification patchsize in
  (get_level (magnifications smp) magnification default_tol = None ->
   prepared = Raise TypeError)
  /\ (forall lvl,
        get_level (magnifications smp) magnification default_tol
        = Some lvl ->
        nth_error (level_dimensions (wsi smp)) lvl = None ->
        prepared = Raise IndexError)
  /\ (forall lvl dim ps_tm ann,
        get_level (magnifications smp) magnification default_tol
        = Some lvl ->
        nth_error (level_dimensions (wsi smp)) lvl = Some dim ->
        level_converter (wsi smp) patchsize lvl (tissue_mask_level smp)
        = Ok ps_tm ->
        annotation smp = Some ann ->
        ~ In dim (level_dimensions ann) ->
        prepared = Raise AssertionError).
Proof.
  intros prepared. unfold prepared, prepare_sampling. split; [|split].
  - intros Hg. rewrite Hg. reflexivity.
  - intros lvl Hg Hd. rewrite Hg. unfold getitem. rewrite Hd. reflexivity.
  - intros lvl dim pt ann Hg Hd Hc Ha Hn. rewrite Hg. unfold getitem.
    rewrite Hd. cbn [bind]. rewrite Hc. cbn [bind]. rewrite Ha.
    rewrite (list_mem_false dim _ Hn). reflexivity.
Qed.

Lemma prepare_sampling_failures_witness :
  get_level (magnifications annotated_sampler) 10%Q default_tol = None
  /\ prepare_sampling annotated_world 0 annotated_sampler 10%Q 1
     = Raise TypeError.
Proof.
  split; [reflexivity|].
  apply (proj1 (prepare_sampling_failures annotated_world 0
                  annotated_sampler 10%Q 1)).
  reflexivity.
Defined.

Lemma list_mem_true (x : Z * Z) (l : list (Z * Z)) :
  In x l ->
  list_mem pair_eqb x l = true /\ exists k, list_index pair_eqb x l = Ok k.
Proof.
  intros H. split.
  - unfold list_mem. apply existsb_exists. exists x. split; [exact H|].
    apply pair_eqb_true. reflexivity.
  - unfold list_index. induction l as [|y l IH]; [destruct H|].
    cbn [find_index]. destruct (pair_eqb y x) eqn:E; [eauto|].
    destruct H as [->|H].
    + rewrite (proj2 (pair_eqb_true x x) eq_refl) in E. discriminate.
    + destruct (IH H) as [k ->]. cbn [bind]. eauto.
Qed.

Lemma get_level_valid (mags : list Q) (m tol : Q) (lvl : nat) :
  get_level mags m tol = Some lvl -> (lvl < List.length mags)%nat.
Proof.
  unfold get_level.
  destruct (val_in_list m mags tol) as [[|] idx] eqn:E; cbn [negb];
    [|discriminate].
  intros H. injection H as <-.
  destruct (val_in_list_true _ _ _ _ E) as (x & Hx & _).
  apply nth_error_Some. congruence.
Qed.

(** C4: as [sampler.py] stands, seed generation on a sampler with an
    annotation stops at line 146: the name [down] it reads there is bound
    nowhere in the module, so the call raises [NameError] once the class-0
    pool is built and before any annotated class is added.
    [prepare_sampling], which ends with seed generation, then never
    returns, and raises that [NameError] whenever its own steps pass. *)
Theorem annotated_seeds_name_error (W : World) (wsi_file : string)
    (l0 : level0_arg) (tissue_mask_dir : string)
    (annotation_dir : option string) (smp : Sampler) (ann : OpenSlide)
    (g : RandomState) :
  __init__ W wsi_file l0 tissue_mask_dir annotation_dir = Ok smp ->
  annotation smp = Some ann ->
  down W = None ->
  _get_classes_and_seeds W g smp = Raise NameError
  /\ (forall magnification patchsize,
        raises (prepare_sampling W g smp magnification patchsize))
  /\ (forall magnification patchsize lvl dim,
        get_level (magnifications smp) magnification default_tol
        = Some lvl ->
        nth_error (level_dimensions (wsi smp)) lvl = Some dim ->
        In dim (level_dimensions ann) ->
        prepare_sampling W g smp magnification patchsize
        = Raise NameError).
Proof.
  intros Hi Ha Hdn.
  destruct (init_downsamples_nonzero _ _ _ _ _ _ Hi) as (Hnz & Hlt).
  destruct (nth_error (level_downsamples (wsi smp)) (tissue_mask_level smp))
    as [dt|] eqn:Et; [|apply nth_error_None in Et; lia].
  assert (Hs : _get_classes_and_seeds W g smp = Raise NameError).
  { unfold _get_classes_and_seeds, getitem. rewrite Et. cbn [bind].
    destruct (shuffle W g _) as [co g1]. rewrite Ha, Hdn. reflexivity. }
  split; [exact Hs|]. split.
  - intros m p. unfold prepare_sampling.
    destruct (get_level _ _ _) as [lvl|]; [|exact I].
    destruct (getitem _ lvl) as [dim|]; cbn [bind]; [|exact I].
    destruct (level_converter _ _ _ _) as [pt|]; cbn [bind]; [|exact I].
    destruct (match annotation smp with Some _ => _ | None => _ end)
      as [al|]; cbn [bind]; [|exact I].
    rewrite Hs. exact I.
  - intros m p lvl dim Hg Hd Hin.
    assert (Hl : (lvl < List.length (level_downsamples (wsi smp)))%nat).
    { destruct (init_Ok _ _ _ _ _ _ Hi) as (_ & _ & Hm & _).
      apply map_result_Forall2, Forall2_length in Hm. rewrite Hm.
      apply (get_level_valid _ _ _ _ Hg). }
    destruct (nth_error (level_downsamples (wsi smp)) lvl) as [d|] eqn:Ed;
      [|apply nth_error_None in Ed; lia].
    unfold prepare_sampling. rewrite Hg. unfold getitem at 1. rewrite Hd.
    cbn [bind].
    rewrite (level_converter_nonzero (wsi smp) p lvl (tissue_mask_level smp)
               d dt Ed Et (Hnz _ _ Et)).
    cbn [bind]. rewrite Ha.
    destruct (list_mem_true dim _ Hin) as [-> [k ->]]. cbn [py_assert bind].
    rewrite Hs. reflexivity.
Qed.

Lemma annotated_seeds_name_error_witness :
  __init__ unbound_world "slide.tif" (given 40%Q) "tissue_masks"
           (Some "annotation"%string)
  = Ok (demo_sampler unbound_world (Some "annotation"%string))
  /\ annotation (demo_sampler unbound_world (Some "annotation"%string))
     = Some (label_slide 2 2 label_raster)
  /\ down unbound_world = None
  /\ _get_classes_and_seeds unbound_world 0
       (demo_sampler unbound_world (Some "annotation"%string))
     = Raise NameError
  /\ prepare_sampling unbound_world 0
       (demo_sampler unbound_world (Some "annotation"%string)) 40%Q 1
     = Raise NameError.
Proof.
  do 3 (split; [reflexivity|]).
  destruct (annotated_seeds_name_error unbound_world "slide.tif"
              (given 40%Q) "tissue_masks" (Some "annotation"%string)
              (demo_sampler unbound_world (Some "annotation"%string))
              (label_slide 2 2 label_raster) 0 eq_refl eq_refl eq_refl)
    as (H1 & _ & H3).
  split; [exact H1|].
  apply (H3 40%Q 1 0%nat (2, 2)); [reflexivity | reflexivity |].
  left. reflexivity.
Defined.

(** X11: on a sampler built by [__init__] without annotation,
    [prepare_sampling] succeeds as soon as the requested level is found
    and exists: the conversion and the seed generation cannot fail, and
    the class list is [0] with one pool. *)
Theorem prepare_after_init (W : World) (wsi_file : string)
    (l0 : level0_arg) (tissue_mask_dir : string)
    (annotation_dir : option string) (smp : Sampler) (g : RandomState)
    (magnification : Q) (patchsize : Z) (lvl : nat) (dim : Z * Z) (d : Q) :
  __init__ W wsi_file l0 tissue_mask_dir annotation_dir = Ok smp ->
  annotation smp = None ->
  get_level (magnifications smp) magnification default_tol = Some lvl ->
  nth_error (level_dimensions (wsi smp)) lvl = Some dim ->
  nth_error (level_downsamples (wsi smp)) lvl = Some d ->
  exists s g',
    prepare_sampling W g smp magnification patchsize = Ok (s, g')
    /\ class_list s = [0%N]
    /\ List.length (class_seeds s) = 1%nat
    /\ level s = lvl /\ leveldim s = dim /\ rejected s = 0.
Proof.
  intros Hi Ha Hg Hd Hds.
  destruct (init_downsamples_nonzero _ _ _ _ _ _ Hi) as (Hnz & Hlt).
  destruct (nth_error (level_downsamples (wsi smp)) (tissue_mask_level smp))
    as [dt|] eqn:Et; [|apply nth_error_None in Et; lia].
  unfold prepare_sampling. rewrite Hg. unfold getitem at 1. rewrite Hd.
  cbn [bind].
  rewrite (level_converter_nonzero (wsi smp) patchsize lvl
             (tissue_mask_level smp) d dt Hds Et (Hnz _ _ Et)).
  cbn [bind]. rewrite Ha. cbn [bind].
  unfold _get_classes_and_seeds, getitem. rewrite Et. cbn [bind].
  destruct (shuffle W g _) as [co g1]. rewrite Ha. cbn [bind].
  eexists. eexists. split; [reflexivity|]. cbn. auto.
Qed.

Lemma prepare_after_init_witness :
  __init__ notch_world "slide.tif" infer "tissue_masks" None
  = Ok (demo_sampler notch_world None)
  /\ annotation (demo_sampler notch_world None) = None
  /\ get_level (magnifications (demo_sampler notch_world None)) 40%Q
               default_tol = Some 0%nat
  /\ exists s g',
      prepare_sampling notch_world 0 (demo_sampler notch_world None) 40%Q 2
      = Ok (s, g')
      /\ class_list s = [0%N]
      /\ List.length (class_seeds s) = 1%nat
      /\ level s = 0%nat /\ leveldim s = (4, 3) /\ rejected s = 0.
Proof.
  do 3 (split; [reflexivity|]).
  apply (prepare_after_init notch_world "slide.tif" infer "tissue_masks"
           None (demo_sampler notch_world None) 0 40%Q 2 0 (4, 3) 1%Q);
    reflexivity.
Defined.

(** ** More on seed generation *)

Lemma add_classes_pools (W : World) (ann : OpenSlide) (level : nat)
    (low : Raster N) (classes : list N) :
  forall cl cs g cl' cs' g',
    add_classes W ann level low classes cl cs g = Ok (cl', cs', g') ->
    exists pools, cl' = cl ++ classes /\ cs' = cs ++ pools
                  /\ List.length pools = List.length classes.
Proof.
  induction classes as [|c classes IH]; intros cl cs g cl' cs' g' H.
  - simpl in H. injection H as <- <- _. exists [].
    rewrite !app_nil_r. auto.
  - cbn [add_classes] in H.
    destruct (getitem (level_downsamples ann) level) as [f|];
      cbn [bind] in H; [|discriminate].
    destruct (shuffle W g _) as [co g1].
    apply IH in H. destruct H as (pools & -> & -> & Hl).
    exists (co :: pools). rewrite <- !app_assoc. simpl. auto.
Qed.

Lemma count_true_filter (l : list bool) :
  count_true l = Z.of_nat (List.length (filter (fun b : bool => b) l)).
Proof. reflexivity. Qed.

(** With an integral factor the scaled coordinates are the products. *)
Lemma scale_coordinates_integral (nonzero : list (nat * nat)) (factor : Q)
    (k : Z) :
  (factor == inject_Z k)%Q ->
  scale_coordinates nonzero factor
  = map (fun rc : nat * nat =>
           (Z.of_nat (fst rc) * k, Z.of_nat (snd rc) * k)) nonzero.
Proof.
  intros E. unfold scale_coordinates. apply map_ext. intros [r c].
  cbn [fst snd]. f_equal.
  - rewrite <- (py_int_inject_Z (Z.of_nat r * k)). apply py_int_comp.
    rewrite inject_Z_mult, E. reflexivity.
  - rewrite <- (py_int_inject_Z (Z.of_nat c * k)). apply py_int_comp.
    rewrite inject_Z_mult, E. reflexivity.
Qed.

(** X12: whenever seed generation succeeds, the class list starts with 0
    and its pool holds one seed per [true] pixel of the tissue mask;
    without annotation there is no other class; and when the downsample
    factor of the tissue-mask level is an integer k, the pool is a
    rearrangement of the positions of these pixels, each coordinate
    multiplied by k. *)
Theorem tissue_seed_pool (W : World) (g : RandomState) (smp : Sampler)
    (cl : list N) (cs : list (list (Z * Z))) (g' : RandomState) :
  shuffle_permutes W ->
  _get_classes_and_seeds W g smp = Ok (cl, cs, g') ->
  exists factor pool classes pools,
    nth_error (level_downsamples (wsi smp)) (tissue_mask_level smp)
    = Some factor
    /\ cl = 0%N :: classes /\ cs = pool :: pools
    /\ Z.of_nat (List.length pool) = np_sum (tissue_mask smp)
    /\ (annotation smp = None -> classes = [] /\ pools = [])
    /\ (forall k : Z,
          1 <= k -> (factor == inject_Z k)%Q ->
          Permutation pool
            (map (fun rc : nat * nat =>
                    (Z.of_nat (fst rc) * k, Z.of_nat (snd rc) * k))
                 (np_nonzero (fun b : bool => b) (tissue_mask smp)))).
Proof.
  intros Hsh. unfold _get_classes_and_seeds, getitem at 1.
  destruct (nth_error (level_downsamples (wsi smp)) (tissue_mask_level smp))
    as [f|] eqn:Ef; cbn [bind]; [|discriminate].
  pose proof (Hsh g (scale_coordinates
                       (np_nonzero (fun b : bool => b) (tissue_mask smp)) f))
    as Hperm.
  destruct (shuffle W g _) as [co g1]. cbn [fst] in Hperm.
  assert (Hlen : Z.of_nat (List.length co) = np_sum (tissue_mask smp)).
  { rewrite (Permutation_length Hperm). unfold scale_coordinates.
    rewrite length_map, np_nonzero_length. reflexivity. }
  assert (Hk : forall k : Z,
             1 <= k -> (f == inject_Z k)%Q ->
             Permutation co
               (map (fun rc : nat * nat =>
                       (Z.of_nat (fst rc) * k, Z.of_nat (snd rc) * k))
                    (np_nonzero (fun b : bool => b) (tissue_mask smp)))).
  { intros k _ E. rewrite <- (scale_coordinates_integral _ f k E).
    exact Hperm. }
  destruct (annotation smp) as [ann|].
  - destruct (down W) as [dn|]; cbn [getglobal bind]; [|discriminate].
    destruct (getitem (level_dimensions ann) _) as [dims|]; cbn [bind];
      [|discriminate].
    destruct (getitem (np_unique _) 0) as [c0|]; cbn [bind]; [|discriminate].
    destruct (py_assert _); cbn [bind]; [|discriminate].
    intros H. apply add_classes_pools in H.
    destruct H as (pools & -> & -> & _).
    exists f, co, (tl (np_unique
                         (read_region_L ann (0, 0)
                            (ut_get_level W ann dn 20) dims))), pools.
    split; [reflexivity|]. split; [reflexivity|]. split; [reflexivity|].
    split; [exact Hlen|]. split; [discriminate | exact Hk].
  - intros H. injection H as <- <- _.
    exists f, co, [], []. 
    split; [reflexivity|]. split; [reflexivity|]. split; [reflexivity|].
    split; [exact Hlen|]. split; [auto | exact Hk].
Qed.

Lemma tissue_seed_pool_witness :
  shuffle_permutes notch_world
  /\ exists factor pool classes pools,
      nth_error (level_downsamples (wsi (demo_sampler notch_world None)))
                (tissue_mask_level (demo_sampler notch_world None))
      = Some factor
      /\ [0%N] = 0%N :: classes
      /\ [[(0, 0); (0, 2); (0, 3); (1, 0); (1, 1); (1, 2); (1, 3);
           (2, 0); (2, 1); (2, 2); (2, 3)]] = pool :: pools
      /\ Z.of_nat (List.length pool)
         = np_sum (tissue_mask (demo_sampler notch_world None))
      /\ (annotation (demo_sampler notch_world None) = None ->
          classes = [] /\ pools = [])
      /\ (forall k : Z,
            1 <= k -> (factor == inject_Z k)%Q ->
            Permutation pool
              (map (fun rc : nat * nat =>
                      (Z.of_nat (fst rc) * k, Z.of_nat (snd rc) * k))
                   (np_nonzero (fun b : bool => b)
                      (tissue_mask (demo_sampler notch_world None))))).
Proof.
  split; [apply demo_shuffle_permutes|].
  apply (tissue_seed_pool notch_world 0 (demo_sampler notch_world None)
           _ _ 1 (demo_shuffle_permutes _ _ _)).
  reflexivity.
Defined.

Lemma row_positions_none {A : Type} (p : A -> bool) (row : list A)
    (r c : nat) :
  (forall a, In a row -> p a = false) -> row_positions p row r c = [].
Proof.
  revert c. induction row as [|a row IH]; intros c H; simpl; [reflexivity|].
  rewrite (H a) by (left; reflexivity). apply IH.
  intros b Hb. apply H. right. exact Hb.
Qed.

Lemma np_nonzero_none {A : Type} (p : A -> bool) (m : Raster A) :
  (forall row, In row m -> forall a, In a row -> p a = false) ->
  np_nonzero p m = [].
Proof.
  unfold np_nonzero. generalize 0%nat.
  induction m as [|row m IH]; intros r H; simpl; [reflexivity|].
  rewrite row_positions_none by (apply H; left; reflexivity).
  apply IH. intros row' Hr. apply H. right. exact Hr.
Qed.

(** X13: if the tissue mask holds no [true] pixel and there is no
    annotation, the prepared sampler has one empty pool, and
    [sample_patches] returns an empty frame and the sampler unchanged for
    every cap. *)
Theorem no_tissue_no_patches (W : World) (g : RandomState) (smp : Sampler)
    (magnification : Q) (patchsize : Z) (s : Session) (g' : RandomState) :
  shuffle_permutes W ->
  annotation smp = None ->
  (forall row, In row (tissue_mask smp) ->
               forall b, In b row -> b = false) ->
  prepare_sampling W g smp magnification patchsize = Ok (s, g') ->
  class_seeds s = [[]]
  /\ forall max_per_class, sample_patches s max_per_class = Ok ([], s).
Proof.
  intros Hsh Ha Hm Hp.
  assert (Hs : class_list s = [0%N] /\ class_seeds s = [[]]).
  { unfold prepare_sampling in Hp.
    destruct (get_level _ _ _) as [lvl|]; [|discriminate].
    destruct (getitem _ lvl) as [dim|]; cbn [bind] in Hp; [|discriminate].
    destruct (level_converter _ _ _ _) as [pt|]; cbn [bind] in Hp;
      [|discriminate].
    rewrite Ha in Hp. cbn [bind] in Hp.
    unfold _get_classes_and_seeds in Hp.
    destruct (getitem _ _) as [f|]; cbn [bind] in Hp; [|discriminate].
    rewrite (np_nonzero_none _ _ Hm) in Hp.
    pose proof (Hsh g (scale_coordinates [] f)) as Hperm.
    destruct (shuffle W g _) as [co g1]. cbn [fst] in Hperm.
    apply Permutation_sym, Permutation_nil in Hperm. subst co.
    rewrite Ha in Hp. cbn [bind] in Hp. injection Hp as <- _.
    split; reflexivity. }
  destruct Hs as [Hc Hs]. split; [exact Hs|].
  intros cap. unfold sample_patches. rewrite Hc.
  cbn [sample_classes]. rewrite Hs. reflexivity.
Qed.

Lemma scale_increasing (factor : Q) (r r' : nat) :
  (1 <= factor)%Q -> (r < r')%nat ->
  py_int (inject_Z (Z.of_nat r) * factor)
  < py_int (inject_Z (Z.of_nat r') * factor).
Proof.
  intros Hf Hr.
  assert (H0 : (0 <= inject_Z (Z.of_nat r))%Q)
    by (apply inject_Z_nonneg; lia).
  assert (H0' : (0 <= inject_Z (Z.of_nat r'))%Q)
    by (apply inject_Z_nonneg; lia).
  assert (Hstep : (inject_Z (Z.of_nat r) + 1 <= inject_Z (Z.of_nat r'))%Q).
  { change 1%Q with (inject_Z 1). rewrite <- inject_Z_plus, <- Zle_Qle. lia. }
  rewrite !py_int_floor by nra.
  pose proof (Qfloor_le (inject_Z (Z.of_nat r) * factor)) as L.
  pose proof (Qlt_floor (inject_Z (Z.of_nat r') * factor)) as U.
  rewrite inject_Z_plus in U. change (inject_Z 1) with 1%Q in U.
  rewrite Zlt_Qlt. nra.
Qed.

Lemma scale_injective (factor : Q) (r r' : nat) :
  (1 <= factor)%Q ->
  py_int (inject_Z (Z.of_nat r) * factor)
  = py_int (inject_Z (Z.of_nat r') * factor) -> r = r'.
Proof.
  intros Hf E. destruct (Nat.lt_trichotomy r r') as [H|[H|H]];
    [|exact H|].
  - pose proof (scale_increasing factor r r' Hf H). lia.
  - pose proof (scale_increasing factor r' r Hf H). lia.
Qed.

Lemma label_pools_disjoint (low : Raster N) (factor : Q) (c c' : N)
    (pool pool' : list (Z * Z)) :
  (1 <= factor)%Q -> c <> c' ->
  Permutation pool
    (scale_coordinates (np_nonzero (fun v => N.eqb v c) low) factor) ->
  Permutation pool'
    (scale_coordinates (np_nonzero (fun v => N.eqb v c') low) factor) ->
  forall xy, In xy pool -> ~ In xy pool'.
Proof.
  intros Hf Hc Hp Hp' xy Hin Hin'.
  apply (Permutation_in _ Hp) in Hin. apply (Permutation_in _ Hp') in Hin'.
  unfold scale_coordinates in Hin, Hin'.
  apply in_map_iff in Hin. destruct Hin as ([r k] & E & Hrk).
  apply in_map_iff in Hin'. destruct Hin' as ([r' k'] & E' & Hrk').
  cbn [fst snd] in E, E'. rewrite <- E in E'. injection E' as Er Ek.
  apply scale_injective in Er; [|exact Hf].
  apply scale_injective in Ek; [|exact Hf]. subst r' k'.
  apply np_nonzero_In in Hrk. destruct Hrk as (row & a & Hrow & Ha & Hv).
  apply np_nonzero_In in Hrk'. destruct Hrk' as (row' & a' & Hrow' & Ha' & Hv').
  rewrite Hrow in Hrow'. injection Hrow' as <-.
  rewrite Ha in Ha'. injection Ha' as <-.
  apply N.eqb_eq in Hv, Hv'. congruence.
Qed.

Lemma label_pool_disjoint_from (low : Raster N) (factor : Q) (c : N)
    (pool : list (Z * Z)) (classes : list N) (pools : list (list (Z * Z))) :
  (1 <= factor)%Q -> ~ In c classes ->
  Permutation pool
    (scale_coordinates (np_nonzero (fun v => N.eqb v c) low) factor) ->
  Forall2 (fun c' pool' =>
             Permutation pool'
               (scale_coordinates
                  (np_nonzero (fun v => N.eqb v c') low) factor))
          classes pools ->
  Forall (fun q => forall xy, In xy pool -> ~ In xy q) pools.
Proof.
  intros Hf Hnin Hp F. induction F as [|c' pool' classes pools Hp' F IH].
  - constructor.
  - constructor.
    + assert (Hne : c <> c').
      { intros E. apply Hnin. left. symmetry. exact E. }
      exact (label_pools_disjoint low factor c c' pool pool' Hf Hne Hp Hp').
    + apply IH. intros C. apply Hnin. right. exact C.
Qed.

(** X14: with a downsample factor of at least 1, the pools that the
    annotation loop appends for distinct labels share no coordinate. *)
Theorem annotated_pools_disjoint (W : World) (ann : OpenSlide)
    (level : nat) (low : Raster N) (factor : Q) (classes : list N)
    (cl : list N) (cs : list (list (Z * Z))) (g : RandomState)
    (cl' : list N) (cs' : list (list (Z * Z))) (g' : RandomState) :
  shuffle_permutes W ->
  nth_error (level_downsamples ann) level = Some factor ->
  (1 <= factor)%Q ->
  NoDup classes ->
  add_classes W ann level low classes cl cs g = Ok (cl', cs', g') ->
  exists pools,
    cs' = cs ++ pools
    /\ List.length pools = List.length classes
    /\ ForallOrdPairs (fun p q => forall xy, In xy p -> ~ In xy q) pools.
Proof.
  intros Hsh Hl Hf Hnd H.
  destruct (add_classes_spec W ann level low factor classes Hsh Hl cl cs g)
    as (pools & g1 & E & F).
  rewrite E in H. injection H as _ <- _.
  exists pools. split; [reflexivity|].
  split; [symmetry; apply (Forall2_length F)|].
  clear E. induction F as [|c pool classes pools Hp F IH].
  - constructor.
  - inversion Hnd as [|? ? Hnin Hnd']; subst.
    constructor; [|apply IH; exact Hnd'].
    apply (label_pool_disjoint_from low factor c pool classes pools Hf Hnin
             Hp F).
Qed.

Lemma no_tissue_no_patches_witness :
  shuffle_permutes blank_world
  /\ annotation (demo_sampler blank_world None) = None
  /\ prepare_sampling blank_world 0 (demo_sampler blank_world None) 40%Q 2
     = Ok (demo_prepared blank_world None 2, 1)
  /\ class_seeds (demo_prepared blank_world None 2) = [[]]
  /\ forall max_per_class,
      sample_patches (demo_prepared blank_world None 2) max_per_class
      = Ok ([], demo_prepared blank_world None 2).
Proof.
  split; [apply demo_shuffle_permutes|]. split; [reflexivity|].
  split; [reflexivity|].
  apply (no_tissue_no_patches blank_world 0 (demo_sampler blank_world None)
           40%Q 2 (demo_prepared blank_world None 2) 1
           (demo_shuffle_permutes _ _ _) eq_refl); [|reflexivity].
  intros row Hr b Hb. cbn in Hr.
  destruct Hr as [<-|[<-|[]]]; cbn in Hb;
    destruct Hb as [<-|[<-|[]]]; reflexivity.
Defined.

Lemma annotated_pools_disjoint_witness :
  shuffle_permutes annotated_world
  /\ (1 <= 1)%Q
  /\ NoDup [1%N; 2%N]
  /\ add_classes annotated_world (label_slide 2 2 label_raster) 0
                 label_raster [1%N; 2%N] [0%N] [[]] 1
     = Ok ([0%N; 1%N; 2%N], [[]; [(1, 0)]; [(0, 1); (1, 1)]], 3)
  /\ exists pools,
      [[]; [(1, 0)]; [(0, 1); (1, 1)]] = [[]] ++ pools
      /\ List.length pools = 2%nat
      /\ ForallOrdPairs (fun p q => forall xy, In xy p -> ~ In xy q) pools.
Proof.
  assert (Hnd : NoDup [1%N; 2%N]).
  { constructor; [intros [H|[]]; discriminate H|].
    constructor; [intros []|constructor]. }
  split; [apply demo_shuffle_permutes|]. split; [discriminate|].
  split; [exact Hnd|]. split; [reflexivity|].
  apply (annotated_pools_disjoint annotated_world
           (label_slide 2 2 label_raster) 0 label_raster 1%Q [1%N; 2%N]
           [0%N] [[]] 1 [0%N; 1%N; 2%N]
           [[]; [(1, 0)]; [(0, 1); (1, 1)]] 3
           (demo_shuffle_permutes _ _ _) eq_refl);
    [discriminate | exact Hnd | reflexivity].
Defined.

(** X15: with a level-0 factor of 1 and an integral factor k at the
    tissue-mask level, every class-0 seed is k times the position of a
    [true] pixel of the mask, and converting the seed to the tissue-mask
    level gives that position back. *)
Theorem tissue_seed_anchor (W : World) (g : RandomState) (smp : Sampler)
    (cl : list N) (pool : list (Z * Z)) (pools : list (list (Z * Z)))
    (g' : RandomState) (d0 factor : Q) (k : Z) :
  shuffle_permutes W ->
  nth_error (level_downsamples (wsi smp)) 0 = Some d0 ->
  nth_error (level_downsamples (wsi smp)) (tissue_mask_level smp)
  = Some factor ->
  (d0 == 1)%Q -> 1 <= k -> (factor == inject_Z k)%Q ->
  _get_classes_and_seeds W g smp = Ok (cl, pool :: pools, g') ->
  forall h w, In (h, w) pool ->
    exists r c row,
      nth_error (tissue_mask smp) r = Some row
      /\ nth_error row c = Some true
      /\ h = Z.of_nat r * k /\ w = Z.of_nat c * k
      /\ level_converter (wsi smp) h 0 (tissue_mask_level smp)
         = Ok (Z.of_nat r)
      /\ level_converter (wsi smp) w 0 (tissue_mask_level smp)
         = Ok (Z.of_nat c).
Proof.
  intros Hsh H0 Hf Ed0 Hk Ef Hs h w Hin.
  assert (HkQ : (0 < inject_Z k)%Q).
  { change 0%Q with (inject_Z 0). rewrite <- Zlt_Qlt. lia. }
  assert (Hfpos : (0 < factor)%Q) by (rewrite Ef; exact HkQ).
  assert (Hperm : Permutation pool
            (scale_coordinates
               (np_nonzero (fun b : bool => b) (tissue_mask smp)) factor)).
  { unfold _get_classes_and_seeds, getitem at 1 in Hs. rewrite Hf in Hs.
    cbn [bind] in Hs.
    pose proof (Hsh g (scale_coordinates
                         (np_nonzero (fun b : bool => b) (tissue_mask smp))
                         factor)) as Hp.
    destruct (shuffle W g _) as [co g1]. cbn [fst] in Hp.
    destruct (annotation smp) as [ann|].
    - destruct (down W) as [dn|]; cbn [getglobal bind] in Hs;
        [|discriminate].
      destruct (getitem (level_dimensions ann) _) as [dims|];
        cbn [bind] in Hs; [|discriminate].
      destruct (getitem (np_unique _) 0) as [c0|]; cbn [bind] in Hs;
        [|discriminate].
      destruct (py_assert _); cbn [bind] in Hs; [|discriminate].
      apply add_classes_pools in Hs. destruct Hs as (ps' & _ & E & _).
      cbn [app] in E. injection E as -> _. exact Hp.
    - injection Hs as _ -> _. exact Hp. }
  apply (Permutation_in _ Hperm) in Hin. unfold scale_coordinates in Hin.
  apply in_map_iff in Hin. destruct Hin as ([r c] & E & Hrc).
  cbn [fst snd] in E. injection E as Eh Ew.
  apply np_nonzero_In in Hrc. destruct Hrc as (row & a & Hrow & Ha & Hv).
  subst a.
  assert (Hscale : forall n : nat,
             py_int (inject_Z (Z.of_nat n) * factor) = Z.of_nat n * k).
  { intros n. rewrite <- (py_int_inject_Z (Z.of_nat n * k)).
    apply py_int_comp. rewrite inject_Z_mult, Ef. reflexivity. }
  assert (Hback : forall n : nat,
             level_converter (wsi smp) (Z.of_nat n * k) 0
                             (tissue_mask_level smp) = Ok (Z.of_nat n)).
  { intros n.
    rewrite (level_converter_pos (wsi smp) _ 0 (tissue_mask_level smp)
               d0 factor H0 Hf Hfpos).
    f_equal. rewrite <- (py_int_inject_Z (Z.of_nat n)) at 2.
    apply py_int_comp. rewrite inject_Z_mult, Ed0, Ef. field. lra. }
  rewrite Hscale in Eh, Ew. subst h w.
  exists r, c, row. repeat split; auto.
Qed.

Lemma tissue_seed_anchor_witness :
  shuffle_permutes notch_world
  /\ (1 == 1)%Q /\ 1 <= 1 /\ (1 == inject_Z 1)%Q
  /\ In (1, 2) [(0, 0); (0, 2); (0, 3); (1, 0); (1, 1); (1, 2); (1, 3);
                (2, 0); (2, 1); (2, 2); (2, 3)]
  /\ exists r c row,
      nth_error (tissue_mask (demo_sampler notch_world None)) r = Some row
      /\ nth_error row c = Some true
      /\ 1 = Z.of_nat r * 1 /\ 2 = Z.of_nat c * 1
      /\ level_converter (wsi (demo_sampler notch_world None)) 1 0
           (tissue_mask_level (demo_sampler notch_world None))
         = Ok (Z.of_nat r)
      /\ level_converter (wsi (demo_sampler notch_world None)) 2 0
           (tissue_mask_level (demo_sampler notch_world None))
         = Ok (Z.of_nat c).
Proof.
  assert (Hin : In (1, 2) [(0, 0); (0, 2); (0, 3); (1, 0); (1, 1); (1, 2);
                           (1, 3); (2, 0); (2, 1); (2, 2); (2, 3)]).
  { do 5 right. left. reflexivity. }
  split; [apply demo_shuffle_permutes|]. split; [reflexivity|].
  split; [lia|]. split; [reflexivity|]. split; [exact Hin|].
  apply (tissue_seed_anchor notch_world 0 (demo_sampler notch_world None)
           [0%N]
           [(0, 0); (0, 2); (0, 3); (1, 0); (1, 1); (1, 2); (1, 3);
            (2, 0); (2, 1); (2, 2); (2, 3)]
           [] 1 1%Q 1%Q 1 (demo_shuffle_permutes _ _ _)
           eq_refl eq_refl); try reflexivity; first [lia | exact Hin].
Defined.

(** ** More on the patch extractor *)

Lemma get_classes_and_seeds_head (W : World) (g : RandomState)
    (smp : Sampler) (cl : list N) (cs : list (list (Z * Z)))
    (g' : RandomState) :
  _get_classes_and_seeds W g smp = Ok (cl, cs, g') ->
  exists classes pool pools, cl = 0%N :: classes /\ cs = pool :: pools.
Proof.
  unfold _get_classes_and_seeds.
  destruct (getitem (level_downsamples (wsi smp)) _) as [f|]; cbn [bind];
    [|discriminate].
  destruct (shuffle W g _) as [co g1].
  destruct (annotation smp) as [ann|].
  - destruct (down W) as [dn|]; cbn [getglobal bind]; [|discriminate].
    destruct (getitem (level_dimensions ann) _) as [dims|]; cbn [bind];
      [|discriminate].
    destruct (getitem (np_unique _) 0) as [c0|]; cbn [bind]; [|discriminate].
    destruct (py_assert _); cbn [bind]; [|discriminate].
    intros H. apply add_classes_pools in H.
    destruct H as (pools & -> & -> & _). cbn [app]. eauto.
  - intros H. injection H as <- <- _. eauto.
Qed.

Lemma prepare_sampling_background (W : World) (g : RandomState)
    (smp : Sampler) (m : Q) (p : Z) (s : Session) (g' : RandomState) :
  prepare_sampling W g smp m p = Ok (s, g') ->
  self s = smp
  /\ exists classes pool pools,
      class_list s = 0%N :: classes /\ class_seeds s = pool :: pools.
Proof.
  unfold prepare_sampling.
  destruct (get_level _ _ _) as [lvl|]; [|discriminate].
  destruct (getitem _ lvl) as [dim|]; cbn [bind]; [|discriminate].
  destruct (level_converter _ _ _ _) as [pt|]; cbn [bind]; [|discriminate].
  destruct (match annotation smp with None => _ | Some _ => _ end)
    as [al|]; cbn [bind]; [|discriminate].
  destruct (_get_classes_and_seeds W g smp) as [[[cl cs] g1]|] eqn:E;
    cbn [bind]; [|discriminate].
  intros H. injection H as <- _. cbn [self class_list class_seeds].
  split; [reflexivity|]. apply (get_classes_and_seeds_head _ _ _ _ _ _ E).
Qed.

Lemma extractor_no_background (s : Session) (c : N) (i : nat)
    (pool : list (Z * Z)) :
  background (self s) = None ->
  pool_of s c = Ok pool -> (i < List.length pool)%nat ->
  _class_c_patch_i s c i = Raise AttributeError.
Proof.
  intros Hb Hpool Hlt. unfold pool_of in Hpool. unfold _class_c_patch_i.
  destruct (list_index N.eqb c (class_list s)) as [idx|]; [|discriminate].
  cbn [bind] in Hpool |- *. rewrite Hpool. cbn [bind].
  destruct (nth_error pool i) as [[h w]|] eqn:En;
    [|apply nth_error_None in En; lia].
  unfold getitem. rewrite En. cbn [bind]. rewrite Hb. reflexivity.
Qed.

(** C2: on a sampler the program has built and prepared, every seed
    converts to the tissue-mask level, where the window of side [ps_tm] of
    the tissue mask could be read, but the extractor never reads it: the
    check of lines 175-179 reads [self.background], which nothing assigns,
    and the call raises [AttributeError] at every valid pool index,
    whatever the fraction of tissue in that window; it is no rejection,
    and the counter stays. *)
Theorem tissue_check_never_run (W : World) (wsi_file : string)
    (l0 : level0_arg) (tissue_mask_dir : string)
    (annotation_dir : option string) (smp : Sampler) (g : RandomState)
    (magnification : Q) (patchsize : Z) (s : Session) (g' : RandomState)
    (c : N) (i : nat) (pool : list (Z * Z)) (h w : Z) :
  __init__ W wsi_file l0 tissue_mask_dir annotation_dir = Ok smp ->
  prepare_sampling W g smp magnification patchsize = Ok (s, g') ->
  pool_of s c = Ok pool ->
  nth_error pool i = Some (h, w) ->
  (exists i' j',
      level_converter (wsi smp) h 0 (tissue_mask_level smp) = Ok i'
      /\ level_converter (wsi smp) w 0 (tissue_mask_level smp) = Ok j')
  /\ _class_c_patch_i s c i = Raise AttributeError
  /\ ~ is_rejection (_class_c_patch_i s c i)
  /\ run_calls s [(c, i)] = ([Raise AttributeError], s).
Proof.
  intros Hi Hp Hpool Hn.
  destruct (init_Ok _ _ _ _ _ _ Hi) as (_ & _ & _ & _ & _ & Hb).
  destruct (init_downsamples_nonzero _ _ _ _ _ _ Hi) as (Hnz & Hlt).
  destruct (prepare_sampling_background _ _ _ _ _ _ _ Hp) as (Hself & _).
  assert (Hcall : _class_c_patch_i s c i = Raise AttributeError).
  { apply (extractor_no_background s c i pool); [congruence | exact Hpool |].
    apply nth_error_Some. congruence. }
  split; [|split; [exact Hcall|split]].
  - destruct (nth_error (level_downsamples (wsi smp)) (tissue_mask_level smp))
      as [dt|] eqn:Et; [|apply nth_error_None in Et; lia].
    destruct (nth_error (level_downsamples (wsi smp)) 0) as [d0|] eqn:E0;
      [|apply nth_error_None in E0; lia].
    rewrite !(level_converter_nonzero (wsi smp) _ 0 (tissue_mask_level smp)
                d0 dt E0 Et (Hnz _ _ Et)).
    eauto.
  - rewrite Hcall. intros [s' C]. discriminate.
  - cbn [run_calls]. rewrite Hcall. reflexivity.
Qed.

Lemma tissue_check_never_run_witness :
  __init__ notch_world "slide.tif" infer "tissue_masks" None
  = Ok (demo_sampler notch_world None)
  /\ prepare_sampling notch_world 0 (demo_sampler notch_world None) 40%Q 2
     = Ok (demo_prepared notch_world None 2, 1)
  /\ pool_of (demo_prepared notch_world None 2) 0
     = Ok [(0, 0); (0, 2); (0, 3); (1, 0); (1, 1); (1, 2); (1, 3);
           (2, 0); (2, 1); (2, 2); (2, 3)]
  /\ level_converter (wsi (demo_sampler notch_world None)) 0 0
       (tissue_mask_level (demo_sampler notch_world None)) = Ok 0
  /\ slice2 (tissue_mask (demo_sampler notch_world None)) 0 0
            (ps_tm (demo_prepared notch_world None 2))
     = [[true; false]; [true; true]]
  /\ (fraction_true [[true; false]; [true; true]]
                    (ps_tm (demo_prepared notch_world None 2)) <= 9 # 10)%Q
  /\ _class_c_patch_i (demo_prepared notch_world None 2) 0 0
     = Raise AttributeError.
Proof.
  do 3 (split; [reflexivity|]). split; [reflexivity|].
  split; [reflexivity|]. split; [vm_compute; discriminate|].
  apply (tissue_check_never_run notch_world "slide.tif" infer "tissue_masks"
           None (demo_sampler notch_world None) 0 40%Q 2
           (demo_prepared notch_world None 2) 1 0%N 0%nat
           [(0, 0); (0, 2); (0, 3); (1, 0); (1, 1); (1, 2); (1, 3);
            (2, 0); (2, 1); (2, 2); (2, 3)] 0 0); reflexivity.
Defined.

(** X16: on a sampler that went through [__init__] and [prepare_sampling]
    only, every extractor call at a valid index raises [AttributeError]
    (nothing has assigned [self.background]), and so does [sample_patches]
    unless the first pool is empty. *)
Theorem extractor_without_background (W : World) (wsi_file : string)
    (l0 : level0_arg) (tissue_mask_dir : string)
    (annotation_dir : option string) (smp : Sampler) (g : RandomState)
    (magnification : Q) (patchsize : Z) (s : Session) (g' : RandomState) :
  __init__ W wsi_file l0 tissue_mask_dir annotation_dir = Ok smp ->
  prepare_sampling W g smp magnification patchsize = Ok (s, g') ->
  (forall c pool i,
      pool_of s c = Ok pool -> (i < List.length pool)%nat ->
      _class_c_patch_i s c i = Raise AttributeError)
  /\ (forall max_per_class,
        hd [] (class_seeds s) <> [] ->
        sample_patches s max_per_class = Raise AttributeError).
Proof.
  intros Hi Hp.
  destruct (init_Ok _ _ _ _ _ _ Hi) as (_ & _ & _ & _ & _ & Hb).
  destruct (prepare_sampling_background _ _ _ _ _ _ _ Hp)
    as (Hself & classes & pool0 & pools & Hcl & Hcs).
  assert (Hcall : forall c pool i,
             pool_of s c = Ok pool -> (i < List.length pool)%nat ->
             _class_c_patch_i s c i = Raise AttributeError).
  { intros c pool i Hpool Hlt. unfold pool_of in Hpool.
    unfold _class_c_patch_i.
    destruct (list_index N.eqb c (class_list s)) as [idx|]; [|discriminate].
    cbn [bind] in Hpool |- *. rewrite Hpool. cbn [bind].
    destruct (nth_error pool i) as [[h w]|] eqn:En;
      [|apply nth_error_None in En; lia].
    unfold getitem. rewrite En. cbn [bind]. rewrite Hself, Hb. reflexivity. }
  split; [exact Hcall|].
  intros cap Hne. rewrite Hcs in Hne. cbn [hd] in Hne.
  unfold sample_patches. rewrite Hcl. cbn [sample_classes].
  rewrite Hcs. cbn [getitem nth_error bind].
  destruct pool0 as [|seed pool0]; [contradiction|].
  cbn [sample_seeds].
  rewrite (Hcall 0%N (seed :: pool0) 0%nat); [reflexivity| |simpl; lia].
  unfold pool_of, list_index. rewrite Hcl. cbn [find_index N.eqb bind].
  rewrite Hcs. reflexivity.
Qed.

Lemma extractor_without_background_witness :
  __init__ notch_world "slide.tif" infer "tissue_masks" None
  = Ok (demo_sampler notch_world None)
  /\ prepare_sampling notch_world 0 (demo_sampler notch_world None) 40%Q 2
     = Ok (demo_prepared notch_world None 2, 1)
  /\ hd [] (class_seeds (demo_prepared notch_world None 2)) <> []
  /\ sample_patches (demo_prepared notch_world None 2) 5
     = Raise AttributeError.
Proof.
  split; [reflexivity|]. split; [reflexivity|]. split; [discriminate|].
  apply (proj2 (extractor_without_background notch_world "slide.tif" infer
                  "tissue_masks" None (demo_sampler notch_world None) 0
                  40%Q 2 (demo_prepared notch_world None 2) 1
                  eq_refl eq_refl)).
  discriminate.
Defined.

(** X17: requesting a patch of a class that is not in the class list
    raises [ValueError]. *)
Theorem unknown_class_raises (s : Session) (c : N) (i : nat) :
  ~ In c (class_list s) ->
  pool_of s c = Raise ValueError
  /\ _class_c_patch_i s c i = Raise ValueError.
Proof.
  intros H.
  assert (E : list_index N.eqb c (class_list s) = Raise ValueError).
  { unfold list_index. apply find_index_none. intros x Hx.
    apply N.eqb_neq. intros ->. contradiction. }
  unfold pool_of, _class_c_patch_i. rewrite E. split; reflexivity.
Qed.

Lemma unknown_class_raises_witness :
  ~ In 7%N (class_list notch_session)
  /\ pool_of notch_session 7 = Raise ValueError
  /\ _class_c_patch_i notch_session 7 0 = Raise ValueError.
Proof.
  assert (H : ~ In 7%N (class_list notch_session)).
  { intros [C|[]]. discriminate C. }
  split; [exact H|]. apply (unknown_class_raises notch_session 7 0 H).
Defined.

(** X18: with an annotation and a non-zero patch size, a seed is accepted,
    with the patch read at it and its record, exactly when more than 90%
    of its window is tissue and at most 90% of the annotation patch
    differs from the class; otherwise it is rejected and counted. *)
Theorem patch_accepted_iff (s : Session) (c : N) (i : nat)
    (pool : list (Z * Z)) (h w : Z) (bg : background.t)
    (window : Raster bool) (ann : OpenSlide) (lvl : nat) :
  pool_of s c = Ok pool ->
  nth_error pool i = Some (h, w) ->
  background (self s) = Some bg ->
  window_of s bg h w = Ok window ->
  annotation (self s) = Some ann ->
  annotation_level s = Some lvl ->
  ps s <> 0 ->
  let tissue := fraction_true window (background.patchsize bg) in
  let annotation_patch := read_region_L ann (w, h) lvl (ps s, ps s) in
  let differing :=
    (inject_Z (count_differing c annotation_patch)
     / inject_Z (ps s ^ 2))%Q in
  let accepted := (9 # 10 < tissue)%Q /\ (differing <= 9 # 10)%Q in
  (accepted ->
   _class_c_patch_i s c i
   = Ok (Some (read_region_RGB (wsi (self s)) (w, h) (level s) (ps s, ps s),
               patch_info s c h w), s))
  /\ (~ accepted ->
      _class_c_patch_i s c i
      = Ok (None, set_rejected s (rejected s + 1))).
Proof.
  intros Hp Hi Hb Hw Ha Hl Hps tissue annotation_patch differing accepted.
  rewrite (class_c_patch_i_unfold s c i pool h w bg window Hp Hi Hb Hw).
  destruct (window_of_slice s bg h w window Hw) as (i' & j' & Ew).
  pose proof (frac_gt_09_window (background.data bg) i' j'
                (background.patchsize bg)) as Et.
  rewrite <- Ew in Et. fold tissue in Et.
  assert (Hd : 0 < ps s ^ 2) by nia.
  pose proof (frac_gt_09_pos (count_differing c annotation_patch)
                (ps s ^ 2) Hd) as Ed.
  fold differing in Ed.
  unfold annotation_check. rewrite Ha, Hl. cbn [getattr bind].
  fold annotation_patch.
  destruct (frac_gt_09 (np_sum window) (background.patchsize bg ^ 2)) eqn:Ft;
    cbn [negb].
  - assert (Ht : (9 # 10 < tissue)%Q).
    { apply Qnot_le_lt. intros C. apply Et in C. discriminate. }
    destruct (frac_gt_09 (count_differing c annotation_patch) (ps s ^ 2))
      eqn:Fd.
    + assert (Hdiff : (9 # 10 < differing)%Q) by (apply Ed; reflexivity).
      split; [|reflexivity].
      intros [_ C]. apply Qle_not_lt in C. contradiction.
    + split; [reflexivity|]. intros C. exfalso. apply C. split; [exact Ht|].
      apply Qnot_lt_le. intros Hlt. apply Ed in Hlt. discriminate.
  - split; [|reflexivity].
    intros [C _]. apply Qlt_not_le in C. exfalso. apply C. apply Et.
    reflexivity.
Qed.

Lemma patch_accepted_iff_witness :
  pool_of annotated_session 0 = Ok [(0, 0); (0, 1); (1, 0); (1, 1)]
  /\ background (self annotated_session)
     = Some (tissue_background (self annotated_session)
                               (ps_tm annotated_session))
  /\ annotation (self annotated_session)
     = Some (label_slide 2 2 label_raster)
  /\ annotation_level annotated_session = Some 0%nat
  /\ ps annotated_session <> 0
  /\ (9 # 10 < fraction_true [[true; true]; [true; true]] 2)%Q
  /\ (inject_Z (count_differing 0 label_raster) / inject_Z (2 ^ 2)
      <= 9 # 10)%Q
  /\ _class_c_patch_i annotated_session 0 0
     = Ok (Some (read_region_RGB (wsi (self annotated_session)) (0, 0)
                   (level annotated_session)
                   (ps annotated_session, ps annotated_session),
                 patch_info annotated_session 0 0 0), annotated_session).
Proof.
  do 4 (split; [reflexivity|]). split; [discriminate|].
  split; [reflexivity|]. split; [vm_compute; discriminate|].
  apply (proj1 (patch_accepted_iff annotated_session 0 0
                  [(0, 0); (0, 1); (1, 0); (1, 1)] 0 0
                  (tissue_background (self annotated_session)
                                     (ps_tm annotated_session))
                  [[true; true]; [true; true]]
                  (label_slide 2 2 label_raster) 0
                  eq_refl eq_refl eq_refl eq_refl eq_refl eq_refl
                  ltac:(discriminate))).
  split; [reflexivity | vm_compute; discriminate].
Defined.

(** ** More on the sampling loop *)

Lemma rejected_from_nonneg (s : Session) (c : N) (n j : nat) :
  0 <= rejected_from s c j n.
Proof.
  revert j. induction n as [|n IH]; intros j; cbn [rejected_from]; [lia|].
  specialize (IH (S j)). destruct (outcome s c j) as [[x|]|]; lia.
Qed.

(** The accepted record of a seed says where it came from. *)
Lemma outcome_info (s : Session) (c : N) (j : nat) (p : Raster RGB)
    (i : info.t) :
  outcome s c j = Ok (Some (p, i)) ->
  exists pool h w,
    pool_of s c = Ok pool /\ nth_error pool j = Some (h, w)
    /\ i = patch_info s c h w
    /\ p = read_region_RGB (wsi (self s)) (w, h) (level s) (ps s, ps s).
Proof.
  unfold outcome, _class_c_patch_i, pool_of, annotation_check.
  destruct (list_index N.eqb c (class_list s)) as [idx|]; cbn [bind];
    [|discriminate].
  destruct (getitem (class_seeds s) idx) as [seeds|]; cbn [bind];
    [|discriminate].
  unfold getitem at 1.
  destruct (nth_error seeds j) as [[h w]|] eqn:En; cbn [bind];
    [|discriminate].
  destruct (getattr (background (self s))) as [bg|]; cbn [bind];
    [|discriminate].
  destruct (level_converter _ h _ _) as [i'|]; cbn [bind]; [|discriminate].
  destruct (level_converter _ w _ _) as [j'|]; cbn [bind]; [|discriminate].
  destruct (negb _); [discriminate|].
  destruct (annotation (self s)) as [ann|].
  - destruct (annotation_level s) as [lvl|]; cbn [getattr bind];
      [|discriminate].
    destruct (frac_gt_09 _ _); [discriminate|].
    intros H. injection H as <- <-. exists seeds, h, w. auto.
  - intros H. injection H as <- <-. exists seeds, h, w. auto.
Qed.

Lemma accepted_from_records (s : Session) (c : N) (n j : nat) :
  Forall (record_of s) (accepted_from s c j n).
Proof.
  revert j. induction n as [|n IH]; intros j; cbn [accepted_from].
  - constructor.
  - apply Forall_app. split; [|apply IH].
    destruct (outcome s c j) as [[[p i]|]|] eqn:E; try constructor;
      [|constructor].
    destruct (outcome_info s c j p i E) as (pool & h & w & Hp & Hn & -> & _).
    exists pool, j. cbn. auto.
Qed.

Lemma record_of_set_rejected (s : Session) (r : Z) (x : info.t) :
  record_of (set_rejected s r) x <-> record_of s x.
Proof. reflexivity. Qed.

(** Whatever the inner loop returns, it has appended the accepted seeds of
    a prefix of the pool and counted the rejected ones. *)
Lemma sample_seeds_Ok (cap : Z) (c : N) (seeds : list (Z * Z)) :
  forall (j : nat) (s : Session) (frame frame' : list info.t)
         (s' : Session),
    sample_seeds cap c seeds j s frame = Ok (frame', s') ->
    exists n, (n <= List.length seeds)%nat
              /\ Z.of_nat n <= Z.max (cap - Z.of_nat j) 1
              /\ frame' = frame ++ accepted_from s c j n
              /\ s' = set_rejected s (rejected s + rejected_from s c j n).
Proof.
  induction seeds as [|x seeds IH]; intros j s frame frame' s' H.
  - cbn in H. injection H as <- <-. exists 0%nat. cbn.
    rewrite app_nil_r, Z.add_0_r, set_rejected_same.
    split; [lia|]. split; [lia|]. auto.
  - cbn [sample_seeds] in H. rewrite class_c_patch_i_outcome in H.
    destruct (outcome s c j) as [[[p i]|]|] eqn:Eo; cbn [bind] in H;
      [| |discriminate].
    + destruct (Z.of_nat j >=? cap - 1) eqn:Eb.
      * injection H as <- <-. exists 1%nat. cbn [accepted_from rejected_from].
        rewrite Eo. cbn [List.length]. split; [lia|]. split; [lia|].
        rewrite app_nil_r, Z.add_0_r, set_rejected_same. auto.
      * apply IH in H. destruct H as (n & Hn & Hb & -> & ->).
        exists (S n). cbn [accepted_from rejected_from List.length].
        rewrite Eo. split; [lia|]. split; [lia|].
        rewrite <- app_assoc. cbn [app]. rewrite Z.add_0_l. auto.
    + destruct (Z.of_nat j >=? cap - 1) eqn:Eb.
      * injection H as <- <-. exists 1%nat. cbn [accepted_from rejected_from].
        rewrite Eo. cbn [List.length app]. split; [lia|]. split; [lia|].
        rewrite app_nil_r, Z.add_0_r. auto.
      * apply IH in H. destruct H as (n & Hn & Hb & -> & ->).
        exists (S n). cbn [accepted_from rejected_from List.length].
        rewrite Eo. split; [lia|]. split; [lia|]. cbn [app].
        rewrite accepted_from_set_rejected, rejected_from_set_rejected.
        change (rejected (set_rejected s (rejected s + 1)))
          with (rejected s + 1).
        rewrite set_rejected_twice. split; [reflexivity|].
        f_equal. lia.
Qed.

Lemma accepted_rejected_le (s : Session) (c : N) (n j : nat) :
  Z.of_nat (List.length (accepted_from s c j n)) + rejected_from s c j n
  <= Z.of_nat n.
Proof.
  revert j. induction n as [|n IH]; intros j; [cbn; lia|].
  cbn [accepted_from rejected_from]. specialize (IH (S j)).
  rewrite length_app, Nat2Z.inj_add, Nat2Z.inj_succ.
  destruct (outcome s c j) as [[[p i]|]|]; cbn [List.length]; lia.
Qed.

Lemma sample_classes_Ok (cap : Z) (classes : list N) :
  forall (i : nat) (s : Session) (frame frame' : list info.t)
         (s' : Session),
    sample_classes cap classes i s frame = Ok (frame', s') ->
    exists new r,
      frame' = frame ++ new /\ 0 <= r
      /\ s' = set_rejected s (rejected s + r)
      /\ Forall (record_of s) new
      /\ Z.of_nat (List.length new) + r
         <= Z.max cap 1 * Z.of_nat (List.length classes).
Proof.
  induction classes as [|c classes IH]; intros i s frame frame' s' H.
  - cbn in H. injection H as <- <-. exists [], 0.
    rewrite app_nil_r, Z.add_0_r, set_rejected_same. cbn.
    repeat split; try constructor; lia.
  - cbn [sample_classes] in H.
    destruct (getitem (class_seeds s) i) as [seeds|]; cbn [bind] in H;
      [|discriminate].
    destruct (sample_seeds cap c seeds 0 s frame) as [[f1 s1]|] eqn:E1;
      cbn [bind] in H; [|discriminate].
    apply sample_seeds_Ok in E1. destruct E1 as (n & _ & Hn & -> & ->).
    apply IH in H. destruct H as (new & r & -> & Hr & -> & Hrec & Hlen).
    exists (accepted_from s c 0 n ++ new), (rejected_from s c 0 n + r).
    pose proof (rejected_from_nonneg s c n 0).
    pose proof (accepted_rejected_le s c n 0).
    split; [rewrite app_assoc; reflexivity|]. split; [lia|]. split.
    { change (rejected (set_rejected s (rejected s + rejected_from s c 0 n)))
        with (rejected s + rejected_from s c 0 n).
      rewrite set_rejected_twice. f_equal. lia. }
    split.
    { apply Forall_app. split; [apply accepted_from_records|].
      exact Hrec. }
    rewrite length_app, Nat2Z.inj_add. cbn [List.length].
    rewrite Nat2Z.inj_succ. rewrite Z.sub_0_r in Hn. nia.
Qed.

Lemma pool_of_In (s : Session) (c : N) (pool : list (Z * Z)) :
  pool_of s c = Ok pool -> In c (class_list s).
Proof.
  unfold pool_of, list_index.
  destruct (find_index _ (class_list s)) as [idx|] eqn:E; [|discriminate].
  intros _. apply find_index_Ok in E. destruct E as (x & Hx & Hp & _).
  apply N.eqb_eq in Hp. subst x. apply (nth_error_In _ _ Hx).
Qed.

(** X19: every record of the frame [sample_patches] returns has a class of
    the class list, the coordinates of a seed of that class's pool, and
    the session's patch size, level, slide identifier and file. *)
Theorem sample_patches_frame_records (s : Session) (max_per_class : Z)
    (frame : list info.t) (s' : Session) :
  sample_patches s max_per_class = Ok (frame, s') ->
  Forall (fun r =>
            In (info.class r) (class_list s)
            /\ (exists pool j, pool_of s (info.class r) = Ok pool
                               /\ nth_error pool j
                                  = Some (info.h r, info.w r))
            /\ info.size r = ps s
            /\ info.level r = level s
            /\ info.id r = fileID (self s)
            /\ info.parent r = wsi_file (self s))
         frame.
Proof.
  unfold sample_patches. intros H. apply sample_classes_Ok in H.
  destruct H as (new & r & -> & _ & _ & Hrec & _). cbn [app].
  eapply Forall_impl; [|exact Hrec].
  intros x (pool & j & Hp & Hn & E). split; [apply (pool_of_In s _ pool Hp)|].
  split; [eauto|]. rewrite E. cbn. auto.
Qed.

(** X20: [sample_patches] changes nothing of the sampler but the rejection
    counter, which does not decrease; records plus rejections are at most
    max(cap, 1) per class. *)
Theorem sample_patches_counter (s : Session) (max_per_class : Z)
    (frame : list info.t) (s' : Session) :
  sample_patches s max_per_class = Ok (frame, s') ->
  s' = set_rejected s (rejected s')
  /\ rejected s <= rejected s'
  /\ Z.of_nat (List.length frame) + (rejected s' - rejected s)
     <= Z.max max_per_class 1 * Z.of_nat (List.length (class_list s)).
Proof.
  unfold sample_patches. intros H. apply sample_classes_Ok in H.
  destruct H as (new & r & -> & Hr & -> & _ & Hlen). cbn [app].
  change (rejected (set_rejected s (rejected s + r))) with (rejected s + r).
  split; [reflexivity|]. split; [lia|].
  replace (rejected s + r - rejected s) with r by lia. exact Hlen.
Qed.

Lemma sample_patches_frame_records_witness :
  (exists frame s', sample_patches notch_session 3 = Ok (frame, s'))
  /\ forall frame s',
      sample_patches notch_session 3 = Ok (frame, s') ->
      Forall (fun r =>
                In (info.class r) (class_list notch_session)
                /\ (exists pool j,
                      pool_of notch_session (info.class r) = Ok pool
                      /\ nth_error pool j = Some (info.h r, info.w r))
                /\ info.size r = ps notch_session
                /\ info.level r = level notch_session
                /\ info.id r = fileID (self notch_session)
                /\ info.parent r = wsi_file (self notch_session))
             frame.
Proof.
  split; [eexists; eexists; vm_compute; reflexivity|].
  intros frame s'. apply (sample_patches_frame_records notch_session 3).
Defined.

Lemma sample_patches_counter_witness :
  (exists frame s', sample_patches notch_session 3 = Ok (frame, s'))
  /\ forall frame s',
      sample_patches notch_session 3 = Ok (frame, s') ->
      s' = set_rejected notch_session (rejected s')
      /\ rejected notch_session <= rejected s'
      /\ Z.of_nat (List.length frame) + (rejected s' - rejected notch_session)
         <= Z.max 3 1 * Z.of_nat (List.length (class_list notch_session)).
Proof.
  split; [eexists; eexists; vm_compute; reflexivity|].
  intros frame s'. apply (sample_patches_counter notch_session 3).
Defined.

Lemma sample_seeds_low_cap (cap : Z) (c : N) (seeds : list (Z * Z))
    (s : Session) (frame : list info.t) :
  cap <= 1 ->
  sample_seeds cap c seeds 0 s frame = sample_seeds 1 c seeds 0 s frame.
Proof.
  intros H. destruct seeds as [|x seeds]; [reflexivity|].
  cbn [sample_seeds].
  destruct (_class_c_patch_i s c 0) as [[r s1]|]; cbn [bind]; [|reflexivity].
  replace (Z.of_nat 0 >=? cap - 1) with true
    by (symmetry; apply Z.geb_le; simpl; lia).
  reflexivity.
Qed.

Lemma sample_classes_low_cap (cap : Z) (classes : list N) :
  cap <= 1 ->
  forall i s frame,
    sample_classes cap classes i s frame
    = sample_classes 1 classes i s frame.
Proof.
  intros H. induction classes as [|c classes IH]; intros i s frame;
    [reflexivity|].
  cbn [sample_classes].
  destruct (getitem (class_seeds s) i) as [seeds|]; cbn [bind];
    [|reflexivity].
  rewrite (sample_seeds_low_cap cap c seeds s frame H).
  destruct (sample_seeds 1 c seeds 0 s frame) as [[f1 s1]|]; cbn [bind];
    [|reflexivity].
  apply IH.
Qed.

(** What the inner loop has done when it returns: it has called the
    extractor on the seeds from position [j] up to the cap, at least on
    one, every call has returned, the accepted ones are appended and the
    rejected ones counted. *)
Lemma sample_seeds_exact (cap : Z) (c : N) (seeds : list (Z * Z)) :
  forall (j : nat) (s : Session) (frame frame' : list info.t)
         (s' : Session),
    sample_seeds cap c seeds j s frame = Ok (frame', s') ->
    let n := Nat.min (Z.to_nat (Z.max (cap - Z.of_nat j) 1))
                     (List.length seeds) in
    frame' = frame ++ accepted_from s c j n
    /\ s' = set_rejected s (rejected s + rejected_from s c j n)
    /\ forall k, (j <= k < j + n)%nat -> exists o, outcome s c k = Ok o.
Proof.
  induction seeds as [|x seeds IH]; intros j s frame frame' s' H n.
  - cbn in H. injection H as <- <-.
    assert (En : n = 0%nat) by (unfold n; cbn [List.length]; lia).
    rewrite En. cbn [accepted_from rejected_from].
    rewrite app_nil_r, Z.add_0_r, set_rejected_same.
    split; [reflexivity|]. split; [reflexivity|]. intros k Hk. lia.
  - cbn [sample_seeds] in H. rewrite class_c_patch_i_outcome in H.
    destruct (outcome s c j) as [o|e] eqn:Eo;
      [|cbn [bind] in H; discriminate].
    destruct (Z.of_nat j >=? cap - 1) eqn:Eb.
    + rewrite Z.geb_leb in Eb. apply Z.leb_le in Eb.
      assert (En : n = 1%nat) by (unfold n; cbn [List.length]; lia).
      rewrite En. cbn [accepted_from rejected_from]. rewrite Eo.
      assert (Hk : forall k, (j <= k < j + 1)%nat ->
                             exists o', outcome s c k = Ok o').
      { intros k Hk. replace k with j by lia. eauto. }
      destruct o as [[p i]|]; cbn [bind] in H; injection H as <- <-.
      * rewrite app_nil_r, Z.add_0_r, set_rejected_same. auto.
      * rewrite app_nil_r, Z.add_0_r. auto.
    + rewrite Z.geb_leb in Eb. apply Z.leb_gt in Eb.
      set (n' := Nat.min (Z.to_nat (Z.max (cap - Z.of_nat (S j)) 1))
                         (List.length seeds)).
      assert (En : n = S n') by (unfold n, n'; cbn [List.length]; lia).
      rewrite En. cbn [accepted_from rejected_from]. rewrite Eo.
      destruct o as [[p i]|]; cbn [bind] in H.
      * apply IH in H. fold n' in H. destruct H as (-> & -> & Hout).
        rewrite <- app_assoc. cbn [app]. rewrite Z.add_0_l.
        split; [reflexivity|]. split; [reflexivity|].
        intros k Hk. destruct (Nat.eq_dec k j) as [->|Hne]; [eauto|].
        apply Hout. lia.
      * apply IH in H. fold n' in H. destruct H as (-> & -> & Hout).
        rewrite accepted_from_set_rejected, rejected_from_set_rejected.
        change (rejected (set_rejected s (rejected s + 1)))
          with (rejected s + 1).
        rewrite set_rejected_twice. cbn [app].
        split; [reflexivity|]. split; [f_equal; lia|].
        intros k Hk. destruct (Nat.eq_dec k j) as [->|Hne]; [eauto|].
        rewrite <- (outcome_set_rejected s (rejected s + 1)).
        apply Hout. lia.
Qed.

(** The same for the outer loop, when each class is looked up where the
    loop reads its pool. *)
Lemma sample_classes_exact (cap : Z) (classes : list N) :
  forall (i : nat) (s : Session) (frame frame' : list info.t)
         (s' : Session),
    (forall k c pool, nth_error classes k = Some c ->
                      nth_error (class_seeds s) (i + k) = Some pool ->
                      pool_of s c = Ok pool) ->
    sample_classes cap classes i s frame = Ok (frame', s') ->
    frame' = frame ++ flat_map (accepted_of s (Z.max cap 1)) classes
    /\ s' = set_rejected s
              (rejected s
               + total (map (rejected_of s (Z.max cap 1)) classes))
    /\ forall c pool k,
        In c classes -> pool_of s c = Ok pool ->
        (k < attempted (Z.max cap 1) pool)%nat ->
        exists o, outcome s c k = Ok o.
Proof.
  induction classes as [|c classes IH]; intros i s frame frame' s' Hp H.
  - cbn in H. injection H as <- <-. cbn.
    rewrite app_nil_r, Z.add_0_r, set_rejected_same.
    split; [reflexivity|]. split; [reflexivity|]. intros c pool k [].
  - cbn [sample_classes] in H. unfold getitem in H.
    destruct (nth_error (class_seeds s) i) as [seeds|] eqn:Es;
      cbn [bind] in H; [|discriminate].
    assert (Hc : pool_of s c = Ok seeds).
    { apply (Hp 0%nat c seeds eq_refl). rewrite Nat.add_0_r. exact Es. }
    destruct (sample_seeds cap c seeds 0 s frame) as [[f1 s1]|] eqn:E1;
      cbn [bind] in H; [|discriminate].
    apply sample_seeds_exact in E1. cbn [Z.of_nat] in E1.
    rewrite Z.sub_0_r in E1. fold (attempted (Z.max cap 1) seeds) in E1.
    destruct E1 as (-> & -> & Hout).
    apply IH in H.
    2:{ intros k c' pool' Hk Hs. rewrite pool_of_set_rejected.
        apply (Hp (S k) c' pool' Hk).
        rewrite <- Hs. cbn [class_seeds set_rejected]. f_equal. lia. }
    destruct H as (-> & -> & Hrest).
    cbn [flat_map map total fold_right].
    unfold accepted_of at 2, rejected_of at 2. rewrite Hc.
    change (rejected (set_rejected s
             (rejected s
              + rejected_from s c 0 (attempted (Z.max cap 1) seeds))))
      with (rejected s
            + rejected_from s c 0 (attempted (Z.max cap 1) seeds)).
    rewrite set_rejected_twice, <- app_assoc.
    rewrite (flat_map_ext _ _
               (fun a => accepted_of_set_rejected s _ (Z.max cap 1) a)).
    rewrite (map_ext _ _
               (fun a => rejected_of_set_rejected s _ (Z.max cap 1) a)).
    split; [reflexivity|]. split; [f_equal; unfold total; lia|].
    intros c' pool' k [<-|Hin] Hc' Hk.
    + rewrite Hc in Hc'. injection Hc' as <-. apply Hout. lia.
    + rewrite <- (outcome_set_rejected s
                    (rejected s
                     + rejected_from s c 0 (attempted (Z.max cap 1) seeds))).
      apply (Hrest c' pool' k Hin); [|exact Hk].
      rewrite pool_of_set_rejected. exact Hc'.
Qed.

(** With a class list without repetition, each class is looked up where
    the loop reads its pool. *)
Lemma pools_aligned (s : Session) (k : nat) (c : N) (pool : list (Z * Z)) :
  NoDup (class_list s) ->
  nth_error (class_list s) k = Some c ->
  nth_error (class_seeds s) (0 + k) = Some pool ->
  pool_of s c = Ok pool.
Proof.
  intros Hnd Hk Hs. unfold pool_of.
  rewrite (list_index_NoDup _ k c Hnd Hk). cbn [bind]. unfold getitem.
  cbn [Nat.add] in Hs. rewrite Hs. reflexivity.
Qed.

(** Without [self.background] the loops stop at the first seed there is. *)
Lemma sample_classes_no_background (cap : Z) (classes : list N) :
  forall (i : nat) (s : Session) (frame : list info.t),
    background (self s) = None ->
    (forall k c, nth_error classes k = Some c ->
                 exists pool, nth_error (class_seeds s) (i + k) = Some pool
                              /\ pool_of s c = Ok pool) ->
    (exists c pool, In c classes /\ pool_of s c = Ok pool /\ pool <> []) ->
    sample_classes cap classes i s frame = Raise AttributeError.
Proof.
  induction classes as [|c classes IH]; intros i s frame Hb Hp Hne.
  - destruct Hne as (c & pool & [] & _).
  - destruct (Hp 0%nat c eq_refl) as (pool & Hs & Hc).
    rewrite Nat.add_0_r in Hs.
    cbn [sample_classes]. unfold getitem. rewrite Hs. cbn [bind].
    destruct pool as [|seed pool].
    + cbn [sample_seeds bind]. apply IH; [exact Hb| |].
      * intros k c' Hk. destruct (Hp (S k) c' Hk) as (pool' & Hs' & Hc').
        exists pool'. split; [|exact Hc']. rewrite <- Hs'. f_equal. lia.
      * destruct Hne as (c' & pool' & [<-|Hin] & Hc' & Hn); [|eauto].
        rewrite Hc in Hc'. injection Hc' as <-. contradiction.
    + cbn [sample_seeds].
      rewrite (extractor_no_background s c 0 (seed :: pool) Hb Hc);
        [reflexivity | cbn [List.length]; lia].
Qed.

(** C1, amended: for a cap N >= 1 and a class list without repetition (as
    [prepare_sampling] builds it), whenever [sample_patches] returns it
    has called the extractor on exactly the first min(N, len(pool)) seeds
    of each class's pool, in order, and every one of these calls has
    returned; the patches accepted for a class are the accepted ones among
    these seeds, so they are at most N, and they are as many as
    min(N, len(pool)) minus the number of rejected seeds among these.  It
    does return once [self.background] is assigned at a level of the
    slide; as long as it is not, and this is how [sampler.py] leaves it,
    [sample_patches] raises [AttributeError] at the first seed there is. *)
Theorem cap_enforcement (s : Session) (max_per_class : Z) :
  1 <= max_per_class -> NoDup (class_list s) ->
  (forall frame s',
      sample_patches s max_per_class = Ok (frame, s') ->
      frame = flat_map (accepted_of s max_per_class) (class_list s)
      /\ s' = set_rejected s
                (rejected s
                 + total (map (rejected_of s max_per_class) (class_list s)))
      /\ forall c pool,
          In c (class_list s) -> pool_of s c = Ok pool ->
          let n := attempted max_per_class pool in
          let accepted := filter (fun r => N.eqb (info.class r) c) frame in
          accepted = accepted_from s c 0 n
          /\ (forall k, (k < n)%nat -> exists o, outcome s c k = Ok o)
          /\ Z.of_nat (List.length accepted) <= max_per_class
          /\ Z.of_nat (List.length accepted) + rejected_from s c 0 n
             = Z.of_nat n)
  /\ (ready s ->
      exists frame s', sample_patches s max_per_class = Ok (frame, s'))
  /\ (background (self s) = None ->
      List.length (class_list s) = List.length (class_seeds s) ->
      (exists c pool,
          In c (class_list s) /\ pool_of s c = Ok pool /\ pool <> []) ->
      sample_patches s max_per_class = Raise AttributeError).
Proof.
  intros Hcap Hnd. split; [|split].
  - intros frame s' H. unfold sample_patches in H.
    apply sample_classes_exact in H.
    2:{ intros k c pool. apply pools_aligned. exact Hnd. }
    replace (Z.max max_per_class 1) with max_per_class in H by lia.
    cbn [app] in H. destruct H as (Ef & Es & Hout).
    split; [exact Ef|]. split; [exact Es|].
    intros c pool Hin Hp n accepted.
    assert (Ea : accepted = accepted_from s c 0 n).
    { unfold accepted. rewrite Ef.
      rewrite (filter_flat_map_class (accepted_of s max_per_class)
                 (class_list s) c).
      - unfold accepted_of. rewrite Hp. reflexivity.
      - intros c' r. apply accepted_of_class.
      - exact Hnd.
      - exact Hin. }
    assert (Ho : forall k, (k < n)%nat -> exists o, outcome s c k = Ok o).
    { intros k Hk. apply (Hout c pool k Hin Hp Hk). }
    split; [exact Ea|]. split; [exact Ho|]. rewrite Ea.
    assert (Ht : Z.of_nat (List.length (accepted_from s c 0 n))
                 + rejected_from s c 0 n = Z.of_nat n).
    { apply accepted_rejected_total. intros k Hk. apply Ho. lia. }
    split; [|exact Ht].
    pose proof (accepted_from_length s c n 0).
    pose proof (attempted_le_cap max_per_class pool Hcap). fold n in H0. lia.
  - intros Hr. eexists. eexists. unfold sample_patches.
    apply (sample_classes_spec max_per_class (class_list s) Hcap 0 s []).
    + intros c pool k. apply outcome_defined. exact Hr.
    + intros k c. apply ready_pools. exact Hr.
  - intros Hb Hlen Hne. unfold sample_patches.
    apply sample_classes_no_background; [exact Hb| |exact Hne].
    intros k c Hk.
    assert (Hlt : (k < List.length (class_seeds s))%nat).
    { rewrite <- Hlen. apply nth_error_Some. congruence. }
    destruct (nth_error (class_seeds s) k) as [pool|] eqn:E;
      [|apply nth_error_None in E; lia].
    exists pool. split; [exact E|].
    apply (pools_aligned s k c pool Hnd Hk E).
Qed.

Lemma notch_class_list_NoDup (s : Session) :
  class_list s = [0%N] -> NoDup (class_list s).
Proof. intros ->. repeat constructor. intros []. Qed.

Lemma cap_enforcement_witness :
  1 <= 2
  /\ NoDup (class_list notch_session)
  /\ NoDup (class_list (demo_prepared notch_world None 2))
  /\ (forall frame s',
        sample_patches notch_session 2 = Ok (frame, s') ->
        frame = flat_map (accepted_of notch_session 2)
                         (class_list notch_session)
        /\ s' = set_rejected notch_session
                  (rejected notch_session
                   + total (map (rejected_of notch_session 2)
                                (class_list notch_session)))
        /\ forall c pool,
            In c (class_list notch_session) ->
            pool_of notch_session c = Ok pool ->
            let n := attempted 2 pool in
            let accepted :=
              filter (fun r => N.eqb (info.class r) c) frame in
            accepted = accepted_from notch_session c 0 n
            /\ (forall k, (k < n)%nat ->
                          exists o, outcome notch_session c k = Ok o)
            /\ Z.of_nat (List.length accepted) <= 2
            /\ Z.of_nat (List.length accepted)
               + rejected_from notch_session c 0 n
               = Z.of_nat n)
  /\ (exists frame s', sample_patches notch_session 2 = Ok (frame, s'))
  /\ sample_patches (demo_prepared notch_world None 2) 2
     = Raise AttributeError.
Proof.
  assert (H1 : 1 <= 2) by lia.
  pose proof (notch_class_list_NoDup notch_session eq_refl) as Hn.
  pose proof (notch_class_list_NoDup (demo_prepared notch_world None 2)
                eq_refl) as Hp.
  split; [exact H1|]. split; [exact Hn|]. split; [exact Hp|].
  destruct (cap_enforcement notch_session 2 H1 Hn) as (Hchar & Hret & _).
  destruct (cap_enforcement (demo_prepared notch_world None 2) 2 H1 Hp)
    as (_ & _ & Hraise).
  split; [exact Hchar|]. split; [exact (Hret notch_session_ready)|].
  apply Hraise; [reflexivity | reflexivity |].
  exists 0%N. eexists. split; [left; reflexivity|].
  split; [reflexivity | discriminate].
Defined.

(** X21: any cap of 1 or less, zero and negative ones included, behaves as
    the cap 1: whenever [sample_patches] returns, records and rejections
    are at most one per class, and, the class list being without
    repetition, the extractor has been called on exactly the first seed of
    each non-empty pool and on no other, that call has returned, and the
    frame and the counter hold its outcome. *)
Theorem cap_below_one (s : Session) (max_per_class : Z) :
  max_per_class <= 1 ->
  sample_patches s max_per_class = sample_patches s 1
  /\ forall frame s',
      sample_patches s max_per_class = Ok (frame, s') ->
      Z.of_nat (List.length frame) + (rejected s' - rejected s)
      <= Z.of_nat (List.length (class_list s))
      /\ (NoDup (class_list s) ->
          frame = flat_map (accepted_of s 1) (class_list s)
          /\ s' = set_rejected s
                    (rejected s
                     + total (map (rejected_of s 1) (class_list s)))
          /\ forall c pool,
              In c (class_list s) -> pool_of s c = Ok pool ->
              let n := Nat.min 1 (List.length pool) in
              (forall k, (k < n)%nat -> exists o, outcome s c k = Ok o)
              /\ filter (fun r => N.eqb (info.class r) c) frame
                 = accepted_from s c 0 n
              /\ Z.of_nat (List.length (accepted_from s c 0 n))
                 + rejected_from s c 0 n
                 = Z.of_nat n).
Proof.
  intros H. split.
  - unfold sample_patches. apply sample_classes_low_cap. exact H.
  - intros frame s' Hs. split.
    + unfold sample_patches in Hs. apply sample_classes_Ok in Hs.
      destruct Hs as (new & r & -> & Hr & -> & _ & Hlen). cbn [app].
      change (rejected (set_rejected s (rejected s + r)))
        with (rejected s + r).
      replace (Z.max max_per_class 1) with 1 in Hlen by lia. lia.
    + intros Hnd. unfold sample_patches in Hs.
      apply sample_classes_exact in Hs.
      2:{ intros k c pool. apply pools_aligned. exact Hnd. }
      replace (Z.max max_per_class 1) with 1 in Hs by lia.
      cbn [app] in Hs. destruct Hs as (Ef & Es & Hout).
      split; [exact Ef|]. split; [exact Es|].
      intros c pool Hin Hp n.
      assert (Ho : forall k, (k < n)%nat -> exists o, outcome s c k = Ok o).
      { intros k Hk. apply (Hout c pool k Hin Hp). exact Hk. }
      split; [exact Ho|]. split.
      * rewrite Ef.
        rewrite (filter_flat_map_class (accepted_of s 1) (class_list s) c).
        -- unfold accepted_of. rewrite Hp. reflexivity.
        -- intros c' r. apply accepted_of_class.
        -- exact Hnd.
        -- exact Hin.
      * apply accepted_rejected_total. intros k Hk. apply Ho. lia.
Qed.

Lemma cap_below_one_witness :
  -3 <= 1
  /\ sample_patches notch_session (-3) = sample_patches notch_session 1
  /\ (exists frame s', sample_patches notch_session (-3) = Ok (frame, s'))
  /\ forall frame s',
      sample_patches notch_session (-3) = Ok (frame, s') ->
      Z.of_nat (List.length frame) + (rejected s' - rejected notch_session)
      <= Z.of_nat (List.length (class_list notch_session))
      /\ (NoDup (class_list notch_session) ->
          frame = flat_map (accepted_of notch_session 1)
                           (class_list notch_session)
          /\ s' = set_rejected notch_session
                    (rejected notch_session
                     + total (map (rejected_of notch_session 1)
                                  (class_list notch_session)))
          /\ forall c pool,
              In c (class_list notch_session) ->
              pool_of notch_session c = Ok pool ->
              let n := Nat.min 1 (List.length pool) in
              (forall k, (k < n)%nat ->
                         exists o, outcome notch_session c k = Ok o)
              /\ filter (fun r => N.eqb (info.class r) c) frame
                 = accepted_from notch_session c 0 n
              /\ Z.of_nat (List.length (accepted_from notch_session c 0 n))
                 + rejected_from notch_session c 0 n
                 = Z.of_nat n).
Proof.
  split; [lia|].
  destruct (cap_below_one notch_session (-3)) as [H1 H2]; [lia|].
  split; [exact H1|]. split; [|exact H2].
  eexists. eexists. vm_compute. reflexivity.
Defined.

Lemma set_rejected_eq (s : Session) (a b : Z) :
  a = b -> set_rejected s a = set_rejected s b.
Proof. intros ->. reflexivity. Qed.

Ltac same_counter :=
  cbn [map_state]; rewrite ?set_rejected_twice;
  f_equal; f_equal; apply set_rejected_eq;
  cbn [rejected set_rejected]; lia.

(** The outcome of the loops does not depend on the counter they start
    from: a different start shifts the counter they end with. *)
Lemma sample_seeds_shift (cap : Z) (c : N) (seeds : list (Z * Z)) :
  forall (j : nat) (s : Session) (frame : list info.t) (r : Z),
    sample_seeds cap c seeds j (set_rejected s r) frame
    = map_state (fun s' => set_rejected s' (rejected s' - rejected s + r))
                (sample_seeds cap c seeds j s frame).
Proof.
  induction seeds as [|x seeds IH]; intros j s frame r.
  - cbn [sample_seeds]. same_counter.
  - cbn [sample_seeds]. rewrite !class_c_patch_i_outcome.
    rewrite outcome_set_rejected.
    destruct (outcome s c j) as [[[p i]|]|]; cbn [bind map_state];
      [| |reflexivity].
    + destruct (Z.of_nat j >=? cap - 1); [same_counter | apply IH].
    + change (rejected (set_rejected s r)) with r.
      rewrite set_rejected_twice.
      destruct (Z.of_nat j >=? cap - 1); [same_counter|].
      rewrite (IH (S j) s frame (r + 1)).
      rewrite (IH (S j) s frame (rejected s + 1)).
      destruct (sample_seeds cap c seeds (S j) s frame) as [[f1 s1]|];
        [same_counter | reflexivity].
Qed.

Lemma sample_classes_shift (cap : Z) (classes : list N) :
  forall (i : nat) (s : Session) (frame : list info.t) (r : Z),
    sample_classes cap classes i (set_rejected s r) frame
    = map_state (fun s' => set_rejected s' (rejected s' - rejected s + r))
                (sample_classes cap classes i s frame).
Proof.
  induction classes as [|c classes IH]; intros i s frame r.
  - cbn [sample_classes]. same_counter.
  - cbn [sample_classes].
    change (class_seeds (set_rejected s r)) with (class_seeds s).
    destruct (getitem (class_seeds s) i) as [seeds|]; cbn [bind map_state];
      [|reflexivity].
    rewrite sample_seeds_shift.
    destruct (sample_seeds cap c seeds 0 s frame) as [[f1 s1]|] eqn:E1;
      cbn [bind map_state]; [|reflexivity].
    apply sample_seeds_Ok in E1. destruct E1 as (n & _ & _ & -> & ->).
    rewrite !set_rejected_twice.
    rewrite (IH (S i) s _ (rejected s + rejected_from s c 0 n)).
    rewrite (IH (S i) s _ _).
    destruct (sample_classes cap classes (S i) s
                (frame ++ accepted_from s c 0 n)) as [[f2 s2]|];
      [same_counter | reflexivity].
Qed.

(** X22: [sample_patches] does not reset the counter: run again on the
    sampler it left, it returns the same frame and adds the same number of
    rejections once more. *)
Theorem sample_patches_rerun (s : Session) (max_per_class : Z)
    (frame : list info.t) (s' : Session) :
  sample_patches s max_per_class = Ok (frame, s') ->
  sample_patches s' max_per_class
  = Ok (frame, set_rejected s' (rejected s' + (rejected s' - rejected s))).
Proof.
  intros H. pose proof H as H0. unfold sample_patches in H0.
  apply sample_classes_Ok in H0.
  destruct H0 as (new & r & _ & _ & Es & _).
  unfold sample_patches in *. rewrite Es.
  change (class_list (set_rejected s (rejected s + r)))
    with (class_list s).
  rewrite sample_classes_shift, H. rewrite Es. same_counter.
Qed.

Lemma sample_patches_rerun_witness :
  (exists frame s',
      sample_patches notch_session 3 = Ok (frame, s')
      /\ rejected s' = 2
      /\ sample_patches s' 3 = Ok (frame, set_rejected s' 4))
  /\ forall frame s',
      sample_patches notch_session 3 = Ok (frame, s') ->
      sample_patches s' 3
      = Ok (frame,
            set_rejected s' (rejected s'
                             + (rejected s' - rejected notch_session))).
Proof.
  split; [eexists; eexists; vm_compute; repeat split; reflexivity|].
  intros frame s'. apply (sample_patches_rerun notch_session 3).
Defined.

(** ** The window of a seed *)

Lemma slice_bound_nonneg (n : nat) (a : Z) :
  0 <= a -> slice_bound n a = Nat.min (Z.to_nat a) n.
Proof.
  intros H. unfold slice_bound.
  destruct (a <? 0) eqn:E; [apply Z.ltb_lt in E; lia|]. lia.
Qed.

Lemma py_slice_nonneg {A : Type} (a p : Z) (l : list A) :
  0 <= a -> 0 <= p ->
  py_slice a (a + p) l
  = firstn (Nat.min (Z.to_nat (a + p)) (List.length l)
            - Nat.min (Z.to_nat a) (List.length l))
           (skipn (Nat.min (Z.to_nat a) (List.length l)) l).
Proof.
  intros Ha Hp. unfold py_slice.
  rewrite !slice_bound_nonneg by lia. reflexivity.
Qed.

Lemma py_slice_length {A : Type} (a p : Z) (l : list A) :
  0 <= a -> 0 <= p ->
  Z.of_nat (List.length (py_slice a (a + p) l))
  <= Z.min p (Z.max 0 (Z.of_nat (List.length l) - a)).
Proof.
  intros Ha Hp. rewrite py_slice_nonneg by assumption.
  rewrite length_firstn, length_skipn. lia.
Qed.

Lemma in_slice {A : Type} (n a : nat) (l : list A) (x : A) :
  In x (firstn n (skipn a l)) ->
  exists t, (t < n)%nat /\ nth_error l (a + t) = Some x.
Proof.
  intros H. apply In_nth_error in H. destruct H as [t Ht].
  rewrite nth_error_firstn in Ht.
  destruct (Nat.ltb t n) eqn:E; [|discriminate].
  apply Nat.ltb_lt in E. rewrite nth_error_skipn in Ht. eauto.
Qed.

Lemma count_true_le (l : list bool) :
  count_true l <= Z.of_nat (List.length l).
Proof.
  unfold count_true. pose proof (filter_length_le (fun b : bool => b) l).
  lia.
Qed.

Lemma np_sum_rows_le (m : Raster bool) (bound : Z) :
  0 <= bound ->
  (forall row, In row m -> Z.of_nat (List.length row) <= bound) ->
  np_sum m <= Z.of_nat (List.length m) * bound.
Proof.
  intros Hb H. unfold np_sum. induction m as [|row m IH]; [cbn; lia|].
  cbn [concat List.length]. unfold count_true in *.
  rewrite filter_app, length_app.
  assert (Hrow : Z.of_nat (List.length (filter (fun b : bool => b) row))
                 <= bound).
  { pose proof (filter_length_le (fun b : bool => b) row).
    specialize (H row (or_introl eq_refl)). lia. }
  assert (IH' := IH (fun r Hr => H r (or_intror Hr))). lia.
Qed.

(** The window holds no more pixels than the part of its nominal square
    that lies inside the array. *)
Lemma np_sum_slice2_le (m : Raster bool) (i j p cols : Z) :
  0 <= i -> 0 <= j -> 0 <= p ->
  (forall row, In row m -> Z.of_nat (List.length row) <= cols) ->
  np_sum (slice2 m i j p)
  <= Z.min p (Z.max 0 (Z.of_nat (List.length m) - i))
     * Z.min p (Z.max 0 (cols - j)).
Proof.
  intros Hi Hj Hp Hc. unfold slice2.
  set (rows := py_slice i (i + p) m).
  assert (Hrows : Z.of_nat (List.length (map (py_slice j (j + p)) rows))
                  <= Z.min p (Z.max 0 (Z.of_nat (List.length m) - i))).
  { rewrite length_map. apply py_slice_length; assumption. }
  assert (Hin : forall row, In row rows -> In row m).
  { intros row Hr. unfold rows in Hr. rewrite py_slice_nonneg in Hr
      by assumption.
    apply in_slice in Hr. destruct Hr as (t & _ & Ht).
    apply (nth_error_In _ _ Ht). }
  pose proof (np_sum_rows_le (map (py_slice j (j + p)) rows)
                (Z.min p (Z.max 0 (cols - j)))) as Hs.
  assert (H0 : 0 <= Z.min p (Z.max 0 (cols - j))) by lia.
  specialize (Hs H0).
  assert (Hb : forall row, In row (map (py_slice j (j + p)) rows) ->
               Z.of_nat (List.length row) <= Z.min p (Z.max 0 (cols - j))).
  { intros row Hr. apply in_map_iff in Hr. destruct Hr as (r0 & <- & Hr0).
    pose proof (py_slice_length j p r0 Hj Hp).
    specialize (Hc r0 (Hin r0 Hr0)). lia. }
  specialize (Hs Hb).
  pose proof (Zle_0_nat (List.length (map (py_slice j (j + p)) rows))).
  nia.
Qed.

(** X23: a seed whose window sticks out of the background array so far
    that at most 90% of its nominal square lies inside is rejected,
    whatever the array holds. *)
Theorem clipped_window_rejected (s : Session) (c : N) (i : nat)
    (pool : list (Z * Z)) (h w : Z) (bg : background.t) (i' j' cols : Z) :
  pool_of s c = Ok pool ->
  nth_error pool i = Some (h, w) ->
  background (self s) = Some bg ->
  level_converter (wsi (self s)) h 0 (background.level bg) = Ok i' ->
  level_converter (wsi (self s)) w 0 (background.level bg) = Ok j' ->
  0 <= i' -> 0 <= j' -> 0 <= background.patchsize bg ->
  (forall row, In row (background.data bg) ->
               Z.of_nat (List.length row) <= cols) ->
  let p := background.patchsize bg in
  let rows := Z.of_nat (List.length (background.data bg)) in
  10 * (Z.min p (Z.max 0 (rows - i')) * Z.min p (Z.max 0 (cols - j')))
  <= 9 * p ^ 2 ->
  _class_c_patch_i s c i = Ok (None, set_rejected s (rejected s + 1)).
Proof.
  intros Hp Hi Hb Hh Hw Hi0 Hj0 Hp0 Hc p rows Hclip.
  assert (Hwin : window_of s bg h w
                 = Ok (slice2 (background.data bg) i' j' p)).
  { unfold window_of. rewrite Hh. cbn [bind]. rewrite Hw. reflexivity. }
  rewrite (class_c_patch_i_unfold s c i pool h w bg _ Hp Hi Hb Hwin).
  pose proof (np_sum_slice2_le (background.data bg) i' j' p cols
                Hi0 Hj0 Hp0 Hc) as Hle.
  fold rows in Hle.
  assert (E : frac_gt_09 (np_sum (slice2 (background.data bg) i' j' p))
                         (background.patchsize bg ^ 2) = false).
  { unfold frac_gt_09. apply Z.ltb_ge. fold p. lia. }
  rewrite E. reflexivity.
Qed.

Lemma clipped_window_rejected_witness :
  pool_of notch_session 0
  = Ok [(0, 0); (0, 2); (0, 3); (1, 0); (1, 1); (1, 2); (1, 3);
        (2, 0); (2, 1); (2, 2); (2, 3)]
  /\ background (self notch_session)
     = Some (tissue_background (self notch_session) (ps_tm notch_session))
  /\ level_converter (wsi (self notch_session)) 3 0 0 = Ok 3
  /\ 10 * (Z.min 2 (Z.max 0 (3 - 0)) * Z.min 2 (Z.max 0 (4 - 3)))
     <= 9 * 2 ^ 2
  /\ _class_c_patch_i notch_session 0 2
     = Ok (None, set_rejected notch_session (rejected notch_session + 1)).
Proof.
  do 3 (split; [reflexivity|]). split; [cbn; lia|].
  apply (clipped_window_rejected notch_session 0 2
           [(0, 0); (0, 2); (0, 3); (1, 0); (1, 1); (1, 2); (1, 3);
            (2, 0); (2, 1); (2, 2); (2, 3)] 0 3
           (tissue_background (self notch_session) (ps_tm notch_session))
           0 3 4 eq_refl eq_refl eq_refl eq_refl eq_refl);
    try (cbn; lia).
  intros row Hr. cbn in Hr.
  destruct Hr as [<-|[<-|[<-|[]]]]; cbn; lia.
Defined.

Lemma py_slice_inside {A : Type} (a p : Z) (l : list A) :
  0 <= a -> 0 <= p -> a + p <= Z.of_nat (List.length l) ->
  py_slice a (a + p) l = firstn (Z.to_nat p) (skipn (Z.to_nat a) l)
  /\ List.length (py_slice a (a + p) l) = Z.to_nat p.
Proof.
  intros Ha Hp Hl. rewrite py_slice_nonneg by assumption.
  replace (Nat.min (Z.to_nat (a + p)) (List.length l)
           - Nat.min (Z.to_nat a) (List.length l))%nat
    with (Z.to_nat p) by lia.
  replace (Nat.min (Z.to_nat a) (List.length l)) with (Z.to_nat a) by lia.
  split; [reflexivity|]. rewrite length_firstn, length_skipn. lia.
Qed.

Lemma count_true_all (l : list bool) :
  (forall b, In b l -> b = true) -> count_true l = Z.of_nat (List.length l).
Proof.
  intros H. unfold count_true. f_equal. f_equal.
  apply forallb_filter_id. apply forallb_forall. exact H.
Qed.

Lemma np_sum_rows_eq (m : Raster bool) (n : Z) :
  (forall row, In row m -> count_true row = n) ->
  np_sum m = Z.of_nat (List.length m) * n.
Proof.
  intros H. unfold np_sum. induction m as [|row m IH]; [cbn; lia|].
  cbn [concat List.length]. unfold count_true in *.
  rewrite filter_app, length_app, Nat2Z.inj_add.
  rewrite (H row (or_introl eq_refl)).
  rewrite (IH (fun r Hr => H r (or_intror Hr))). lia.
Qed.

(** A window whose nominal square lies inside the array and holds only
    [true] counts all its pixels. *)
Lemma np_sum_slice2_full (m : Raster bool) (i j p : Z) :
  0 <= i -> 0 <= j -> 0 < p ->
  (forall r k : nat,
      i <= Z.of_nat r < i + p -> j <= Z.of_nat k < j + p ->
      exists row, nth_error m r = Some row /\ nth_error row k = Some true) ->
  np_sum (slice2 m i j p) = p * p.
Proof.
  intros Hi Hj Hp H.
  assert (Hlen : i + p <= Z.of_nat (List.length m)).
  { destruct (H (Z.to_nat (i + p - 1)) (Z.to_nat j)) as (row & Hr & _);
      [lia | lia |].
    assert (Z.to_nat (i + p - 1) < List.length m)%nat
      by (apply nth_error_Some; congruence).
    lia. }
  destruct (py_slice_inside i p m Hi ltac:(lia) Hlen) as [Erows Lrows].
  unfold slice2.
  rewrite (np_sum_rows_eq (map (py_slice j (j + p)) (py_slice i (i + p) m)) p).
  - rewrite length_map, Lrows. lia.
  - intros row' Hr'. apply in_map_iff in Hr'.
    destruct Hr' as (row & <- & Hrow). rewrite Erows in Hrow.
    apply in_slice in Hrow. destruct Hrow as (t & Ht & Hnth).
    assert (Hrowlen : j + p <= Z.of_nat (List.length row)).
    { destruct (H (Z.to_nat i + t)%nat (Z.to_nat (j + p - 1)))
        as (row0 & Hr0 & Hk); [lia | lia |].
      rewrite Hnth in Hr0. injection Hr0 as <-.
      assert (Z.to_nat (j + p - 1) < List.length row)%nat
        by (apply nth_error_Some; congruence).
      lia. }
    destruct (py_slice_inside j p row Hj ltac:(lia) Hrowlen) as [Ecol Lcol].
    rewrite count_true_all; [rewrite Lcol; lia|].
    intros b Hb. rewrite Ecol in Hb. apply in_slice in Hb.
    destruct Hb as (t' & Ht' & Hnth').
    destruct (H (Z.to_nat i + t)%nat (Z.to_nat j + t')%nat)
      as (row0 & Hr0 & Hk); [lia | lia |].
    rewrite Hnth in Hr0. injection Hr0 as <-.
    rewrite Hnth' in Hk. injection Hk as ->. reflexivity.
Qed.

(** X24: without annotation, a seed whose nominal window lies inside the
    background array and holds only [true] is accepted. *)
Theorem full_window_accepted (s : Session) (c : N) (i : nat)
    (pool : list (Z * Z)) (h w : Z) (bg : background.t) (i' j' : Z) :
  pool_of s c = Ok pool ->
  nth_error pool i = Some (h, w) ->
  background (self s) = Some bg ->
  level_converter (wsi (self s)) h 0 (background.level bg) = Ok i' ->
  level_converter (wsi (self s)) w 0 (background.level bg) = Ok j' ->
  annotation (self s) = None ->
  0 <= i' -> 0 <= j' -> 0 < background.patchsize bg ->
  (forall r k : nat,
      i' <= Z.of_nat r < i' + background.patchsize bg ->
      j' <= Z.of_nat k < j' + background.patchsize bg ->
      exists row, nth_error (background.data bg) r = Some row
                  /\ nth_error row k = Some true) ->
  _class_c_patch_i s c i
  = Ok (Some (read_region_RGB (wsi (self s)) (w, h) (level s) (ps s, ps s),
              patch_info s c h w), s).
Proof.
  intros Hp Hi Hb Hh Hw Ha Hi0 Hj0 Hp0 Hfull.
  assert (Hwin : window_of s bg h w
                 = Ok (slice2 (background.data bg) i' j'
                              (background.patchsize bg))).
  { unfold window_of. rewrite Hh. cbn [bind]. rewrite Hw. reflexivity. }
  rewrite (class_c_patch_i_unfold s c i pool h w bg _ Hp Hi Hb Hwin).
  rewrite (np_sum_slice2_full _ i' j' _ Hi0 Hj0 Hp0 Hfull).
  assert (E : frac_gt_09 (background.patchsize bg * background.patchsize bg)
                         (background.patchsize bg ^ 2) = true).
  { unfold frac_gt_09. apply Z.ltb_lt. nia. }
  rewrite E. cbn [negb]. unfold annotation_check. rewrite Ha. reflexivity.
Qed.

Lemma full_window_accepted_witness :
  pool_of notch_session 0
  = Ok [(0, 0); (0, 2); (0, 3); (1, 0); (1, 1); (1, 2); (1, 3);
        (2, 0); (2, 1); (2, 2); (2, 3)]
  /\ background (self notch_session)
     = Some (tissue_background (self notch_session) (ps_tm notch_session))
  /\ annotation (self notch_session) = None
  /\ level_converter (wsi (self notch_session)) 1 0 0 = Ok 1
  /\ _class_c_patch_i notch_session 0 4
     = Ok (Some (read_region_RGB (wsi (self notch_session)) (1, 1)
                   (level notch_session)
                   (ps notch_session, ps notch_session),
                 patch_info notch_session 0 1 1), notch_session).
Proof.
  do 4 (split; [reflexivity|]).
  apply (full_window_accepted notch_session 0 4
           [(0, 0); (0, 2); (0, 3); (1, 0); (1, 1); (1, 2); (1, 3);
            (2, 0); (2, 1); (2, 2); (2, 3)] 1 1
           (tissue_background (self notch_session) (ps_tm notch_session))
           1 1 eq_refl eq_refl eq_refl eq_refl eq_refl eq_refl);
    try (cbn; lia).
  cbn. intros r k Hr Hk.
  assert (Er : r = 1%nat \/ r = 2%nat) by lia.
  assert (Ek : k = 1%nat \/ k = 2%nat) by lia.
  destruct Er as [-> | ->], Ek as [-> | ->]; eexists; split; reflexivity.
Defined.

(** X25: once [self.background] is assigned to an object at a level of
    the slide with a non-zero downsample factor, a sampler that
    [prepare_sampling] has prepared has a class list without repetition
    and a pool for each of its classes, no extractor call at a position of
    a pool raises, and [sample_patches] returns whatever the cap. *)
Theorem prepared_calls_return (W : World) (g : RandomState) (smp : Sampler)
    (magnification : Q) (patchsize : Z) (s : Session) (g' : RandomState)
    (bg : background.t) (d0 dl : Q) :
  prepare_sampling W g smp magnification patchsize = Ok (s, g') ->
  nth_error (level_downsamples (wsi smp)) 0 = Some d0 ->
  nth_error (level_downsamples (wsi smp)) (background.level bg) = Some dl ->
  ~ (dl == 0)%Q ->
  let s1 := with_background s bg in
  NoDup (class_list s1)
  /\ (forall c, In c (class_list s1) -> exists pool, pool_of s1 c = Ok pool)
  /\ (forall c pool i,
        pool_of s1 c = Ok pool -> (i < List.length pool)%nat ->
        exists r s2, _class_c_patch_i s1 c i = Ok (r, s2))
  /\ (forall max_per_class,
        exists frame s2, sample_patches s1 max_per_class = Ok (frame, s2)).
Proof.
  intros Hp H0 Hl Hnz s1.
  pose proof (prepare_sampling_ready W g smp magnification patchsize s g' bg
                d0 dl Hp H0 Hl Hnz) as Hr.
  fold s1 in Hr.
  split; [apply Hr|]. split; [|split].
  - intros c Hin. destruct (In_nth_error _ _ Hin) as [k Hk].
    destruct (ready_pools s1 k c Hr Hk) as (pool & _ & Hc). eauto.
  - intros c pool i Hc Hi.
    destruct (outcome_defined s1 c pool i Hr Hc Hi) as [o Ho].
    rewrite class_c_patch_i_outcome, Ho. destruct o as [x|]; eauto.
  - intros cap. unfold sample_patches.
    assert (Hone : forall cap', 1 <= cap' ->
               exists frame s2,
                 sample_classes cap' (class_list s1) 0 s1 [] = Ok (frame, s2)).
    { intros cap' Hc. eexists. eexists.
      apply (sample_classes_spec cap' (class_list s1) Hc 0 s1 []).
      - intros c pool k. apply outcome_defined. exact Hr.
      - intros k c. apply ready_pools. exact Hr. }
    destruct (Z.le_gt_cases 1 cap) as [Hc|Hc]; [apply Hone; exact Hc|].
    rewrite sample_classes_low_cap by lia. apply Hone. lia.
Qed.

Lemma prepared_calls_return_witness :
  prepare_sampling notch_world 0 (demo_sampler notch_world None) 40%Q 2
  = Ok (demo_prepared notch_world None 2, 1)
  /\ ~ (1 == 0)%Q
  /\ (exists r s2, _class_c_patch_i notch_session 0 3 = Ok (r, s2))
  /\ (exists frame s2, sample_patches notch_session 0 = Ok (frame, s2)).
Proof.
  split; [reflexivity|]. split; [discriminate|].
  destruct (prepared_calls_return notch_world 0
              (demo_sampler notch_world None) 40%Q 2
              (demo_prepared notch_world None 2) 1
              (tissue_background (demo_sampler notch_world None) 2)
              1%Q 1%Q eq_refl eq_refl eq_refl)
    as (_ & _ & Hcall & Hrun); [discriminate|].
  split; [|apply Hrun].
  apply (Hcall 0%N
           [(0, 0); (0, 2); (0, 3); (1, 0); (1, 1); (1, 2); (1, 3);
            (2, 0); (2, 1); (2, 2); (2, 3)] 3%nat);
    [reflexivity | cbn; lia].
Defined.
